(** * update-patrons: marker substitution and synchronization run

    A shallow embedding of [update-patrons.mjs] (its three variants) and
    the statements of its specification.

    JavaScript strings are sequences of UTF-16 code units; they are
    modelled as [list N], one number per code unit.  Everything the
    script does to a string (indexOf, the regular expression, replace,
    trim, join) works on code units. *)

From stdpp Require Import base option list strings gmap.
From Stdlib Require Import NArith ZArith.

Set Warnings "-register-all".

Local Open Scope N_scope.
Local Open Scope list_scope.

(** ** Strings *)

Module Js.

(** An ASCII literal as a sequence of code units. *)
Fixpoint lit (s : string) : list N :=
  match s with
  | EmptyString => []
  | String a s' => Ascii.N_of_ascii a :: lit s'
  end.

(** Line feed, as written by the escape in the script's literals, and
    the double quote. *)
Definition LF : N := 10.
Definition DQ : N := 34.

(** WhiteSpace and LineTerminator code units: what [\s] matches and what
    [trim] strips. *)
Definition is_space (c : N) : bool :=
  ((9 <=? c) && (c <=? 13)) || (c =? 32) || (c =? 160) || (c =? 5760)
  || ((8192 <=? c) && (c <=? 8202)) || (c =? 8232) || (c =? 8233)
  || (c =? 8239) || (c =? 8287) || (c =? 12288) || (c =? 65279).

Definition is_line_terminator (c : N) : bool :=
  (c =? 10) || (c =? 13) || (c =? 8232) || (c =? 8233).

Definition is_digit (c : N) : bool := (48 <=? c) && (c <=? 57).

Definition is_word (c : N) : bool :=
  ((97 <=? c) && (c <=? 122)) || ((65 <=? c) && (c <=? 90))
  || is_digit c || (c =? 95).

Fixpoint eqb (a b : list N) : bool :=
  match a, b with
  | [], [] => true
  | x :: a', y :: b' => (x =? y) && eqb a' b'
  | _, _ => false
  end.

(** [p] is a prefix of [s]. *)
Fixpoint starts_with (p s : list N) : bool :=
  match p, s with
  | [], _ => true
  | x :: p', y :: s' => (x =? y) && starts_with p' s'
  | _ :: _, [] => false
  end.

(** Position of the first occurrence of [p] in [s]. *)
Fixpoint find_index (p s : list N) : option nat :=
  if starts_with p s then Some 0%nat
  else match s with
       | [] => None
       | _ :: s' => S <$> find_index p s'
       end.

(** [String.prototype.indexOf(searchString)]: the first position, or -1. *)
Definition indexOf (s p : list N) : Z :=
  match find_index p s with
  | Some k => Z.of_nat k
  | None => (-1)%Z
  end.

Fixpoint trimStart (s : list N) : list N :=
  match s with
  | c :: s' => if is_space c then trimStart s' else s
  | [] => []
  end.

(** [String.prototype.trim]. *)
Definition trim (s : list N) : list N :=
  rev (trimStart (rev (trimStart s))).

(** [Array.prototype.join] on elements already converted to strings. *)
Fixpoint join (sep : list N) (l : list (list N)) : list N :=
  match l with
  | [] => []
  | [x] => x
  | x :: l' => x ++ sep ++ join sep l'
  end.

(** [String.prototype.split] by a single code unit. *)
Fixpoint split_on (d : N) (cur : list N) (s : list N) : list (list N) :=
  match s with
  | [] => [rev cur]
  | c :: s' => if c =? d then rev cur :: split_on d [] s'
               else split_on d (c :: cur) s'
  end.

Definition split (d : N) (s : list N) : list (list N) := split_on d [] s.

(** ASCII upper-casing, enough for the input names the script looks up. *)
Definition upper (c : N) : N :=
  if (97 <=? c) && (c <=? 122) then c - 32 else c.

(** Decimal rendering of a non-negative integer. *)
Fixpoint digits_fuel (fuel : nat) (n : N) (acc : list N) : list N :=
  match fuel with
  | O => acc
  | S f =>
      let acc' := (48 + n mod 10) :: acc in
      if n <? 10 then acc' else digits_fuel f (n / 10) acc'
  end.

Definition of_N (n : N) : list N := digits_fuel (S (N.to_nat (N.log2 n))) n [].

Definition of_Z (z : Z) : list N :=
  if (z <? 0)%Z then 45 :: of_N (Z.abs_N z) else of_N (Z.to_N z).

Definition of_nat (n : nat) : list N := of_N (N.of_nat n).

End Js.

(** ** Regular expressions

    The script builds
    [new RegExp(`${START}\\s*[\\s\\S]*?\\s*${END}`)]: the two markers are
    pasted into the pattern source as they are.  The pattern language is
    embedded for sources made of single-character atoms (a literal, [.],
    a class escape, a bracket class without ranges) with an optional
    [*], [+] or [?], greedy or lazy.  Any other source is left to the
    host engine. *)

Module Re.

Inductive esc_class := KSpace | KDigit | KWord.

Inductive citem :=
| CiChar (c : N)
| CiEsc (k : esc_class) (neg : bool).

Inductive cset :=
| CsChar (c : N)
| CsDot
| CsEsc (k : esc_class) (neg : bool)
| CsClass (neg : bool) (items : list citem).

Inductive quant := QOne | QStar | QPlus | QOpt.

Record term := Term { t_set : cset; t_quant : quant; t_greedy : bool }.

Definition esc_mem (k : esc_class) (c : N) : bool :=
  match k with
  | KSpace => Js.is_space c
  | KDigit => Js.is_digit c
  | KWord => Js.is_word c
  end.

Definition citem_mem (i : citem) (c : N) : bool :=
  match i with
  | CiChar d => c =? d
  | CiEsc k neg => xorb neg (esc_mem k c)
  end.

Definition cset_mem (cs : cset) (c : N) : bool :=
  match cs with
  | CsChar d => c =? d
  | CsDot => negb (Js.is_line_terminator c)
  | CsEsc k neg => xorb neg (esc_mem k c)
  | CsClass neg items => xorb neg (existsb (fun i => citem_mem i c) items)
  end.

(** *** Matching, with the priorities of a backtracking engine

    A matcher takes the rest of the input and the continuation for what
    follows in the pattern, and gives the number of code units consumed
    by the first successful alternative. *)

Definition matcher := list N -> option nat.

Definition one (cs : cset) (k : matcher) : matcher :=
  fun s => match s with
           | c :: s' => if cset_mem cs c then S <$> k s' else None
           | [] => None
           end.

Fixpoint star_greedy (cs : cset) (k : matcher) (s : list N) : option nat :=
  match s with
  | c :: s' =>
      if cset_mem cs c then
        match star_greedy cs k s' with
        | Some n => Some (S n)
        | None => k s
        end
      else k s
  | [] => k s
  end.

Fixpoint star_lazy (cs : cset) (k : matcher) (s : list N) : option nat :=
  match k s with
  | Some n => Some n
  | None =>
      match s with
      | c :: s' => if cset_mem cs c then S <$> star_lazy cs k s' else None
      | [] => None
      end
  end.

Definition term_match (t : term) (k : matcher) : matcher :=
  let cs := t_set t in
  match t_quant t, t_greedy t with
  | QOne, _ => one cs k
  | QStar, true => star_greedy cs k
  | QStar, false => star_lazy cs k
  | QPlus, true => one cs (star_greedy cs k)
  | QPlus, false => one cs (star_lazy cs k)
  | QOpt, true => fun s => match one cs k s with Some n => Some n | None => k s end
  | QOpt, false => fun s => match k s with Some n => Some n | None => one cs k s end
  end.

Fixpoint match_terms (p : list term) : matcher :=
  match p with
  | [] => fun _ => Some 0%nat
  | t :: p' => term_match t (match_terms p')
  end.

(** The leftmost match: start positions are tried from [i] upwards, the
    end of the input included.  The result is (index, length). *)
Fixpoint exec_from (p : list term) (s : list N) (i : nat) : option (nat * nat) :=
  match match_terms p s with
  | Some n => Some (i, n)
  | None =>
      match s with
      | [] => None
      | _ :: s' => exec_from p s' (S i)
      end
  end.

(** *** Reading a pattern source *)

Definition is_syntax_char (c : N) : bool :=
  existsb (N.eqb c) (Js.lit "^$\.*+?()[]{}|").

Inductive pend :=
| PNone
| PAtom (cs : cset)
| PQuant (cs : cset) (q : quant).

Inductive pmode :=
| MNormal
| MEscape
| MClass (neg : bool) (items : list citem) (fresh : bool)
| MClassEscape (neg : bool) (items : list citem).

Record pstate := PState { p_done : list term; p_pend : pend; p_mode : pmode }.

Definition pend_terms (p : pend) : list term :=
  match p with
  | PNone => []
  | PAtom cs => [Term cs QOne true]
  | PQuant cs q => [Term cs q true]
  end.

(** The terms read so far, in order. *)
Definition st_terms (st : pstate) : list term :=
  rev (p_done st) ++ pend_terms (p_pend st).

Definition flush (st : pstate) : list term :=
  rev (pend_terms (p_pend st)) ++ p_done st.

Definition atom (st : pstate) (cs : cset) : option pstate :=
  Some (PState (flush st) (PAtom cs) MNormal).

Definition quant_of (c : N) : option quant :=
  if c =? 42 then Some QStar
  else if c =? 43 then Some QPlus
  else if c =? 63 then Some QOpt
  else None.

(** The character after a backslash, outside a class. *)
Definition escape_atom (c : N) : option cset :=
  if c =? 115 then Some (CsEsc KSpace false)
  else if c =? 83 then Some (CsEsc KSpace true)
  else if c =? 100 then Some (CsEsc KDigit false)
  else if c =? 68 then Some (CsEsc KDigit true)
  else if c =? 119 then Some (CsEsc KWord false)
  else if c =? 87 then Some (CsEsc KWord true)
  else if c =? 116 then Some (CsChar 9)
  else if c =? 110 then Some (CsChar 10)
  else if c =? 118 then Some (CsChar 11)
  else if c =? 102 then Some (CsChar 12)
  else if c =? 114 then Some (CsChar 13)
  else if is_syntax_char c || (c =? 47) then Some (CsChar c)
  else None.

(** The character after a backslash, inside a class. *)
Definition escape_item (c : N) : option citem :=
  if c =? 98 then Some (CiChar 8)
  else if c =? 45 then Some (CiChar 45)
  else match escape_atom c with
       | Some (CsChar d) => Some (CiChar d)
       | Some (CsEsc k neg) => Some (CiEsc k neg)
       | _ => None
       end.

Definition step (st : pstate) (c : N) : option pstate :=
  match p_mode st with
  | MNormal =>
      match quant_of c with
      | Some q =>
          match p_pend st with
          | PAtom cs => Some (PState (p_done st) (PQuant cs q) MNormal)
          | PQuant cs q0 =>
              if c =? 63 then Some (PState (Term cs q0 false :: p_done st) PNone MNormal)
              else None
          | PNone => None
          end
      | None =>
          if c =? 92 then Some (PState (flush st) PNone MEscape)
          else if c =? 91 then Some (PState (flush st) PNone (MClass false [] true))
          else if c =? 46 then atom st CsDot
          else if is_syntax_char c then None
          else atom st (CsChar c)
      end
  | MEscape =>
      match escape_atom c with
      | Some cs => Some (PState (p_done st) (PAtom cs) MNormal)
      | None => None
      end
  | MClass neg items fresh =>
      if (c =? 94) && fresh then Some (PState (p_done st) PNone (MClass true [] false))
      else if c =? 93 then Some (PState (p_done st) (PAtom (CsClass neg (rev items))) MNormal)
      else if c =? 92 then Some (PState (p_done st) PNone (MClassEscape neg items))
      else if c =? 45 then None
      else Some (PState (p_done st) PNone (MClass neg (CiChar c :: items) false))
  | MClassEscape neg items =>
      match escape_item c with
      | Some i => Some (PState (p_done st) PNone (MClass neg (i :: items) false))
      | None => None
      end
  end.

Fixpoint run (st : pstate) (src : list N) : option pstate :=
  match src with
  | [] => Some st
  | c :: src' => match step st c with
                 | Some st' => run st' src'
                 | None => None
                 end
  end.

Definition parse (src : list N) : option (list term) :=
  match run (PState [] PNone MNormal) src with
  | Some st => match p_mode st with
               | MNormal => Some (st_terms st)
               | _ => None
               end
  | None => None
  end.

End Re.


(** *** RegExp objects and [String.prototype.replace]

    A RegExp object is taken by what [exec] answers on a string: the
    position of the match, the matched text, the captures and the named
    groups.  The script's pattern carries no flags, so a call never
    depends on an earlier one. *)

Record MatchResult := Match {
  m_index : nat;
  m_matched : list N;
  m_captures : list (option (list N));
  m_groups : option (list (list N * option (list N)))
}.

Record RegExp := { exec : list N -> option MatchResult }.

(** The RegExp of a pattern of the embedded language: no groups. *)
Definition regexp_of (p : list Re.term) : RegExp :=
  {| exec := fun s =>
       match Re.exec_from p s 0 with
       | Some (i, n) => Some (Match i (take n (drop i s)) [] None)
       | None => None
       end |}.

Module Subst.

Definition dollar : N := 36.

Definition digit_val (c : N) : nat := N.to_nat (c - 48).

Fixpoint lookup_group (g : list (list N * option (list N))) (name : list N)
  : option (list N) :=
  match g with
  | [] => None
  | (k, v) :: g' => if Js.eqb k name then v else lookup_group g' name
  end.

(** One reference at the head of the template: what replaces it, and how
    many code units of the template it takes. *)
Definition reference (matched str : list N) (position : nat)
    (captures : list (option (list N)))
    (groups : option (list (list N * option (list N))))
    (t : list N) : list N * nat :=
  match t with
  | [] => ([], 0%nat)
  | c :: t1 =>
      if negb (c =? dollar) then ([c], 1%nat)
      else
        match t1 with
        | [] => ([c], 1%nat)
        | d :: t2 =>
            if d =? dollar then ([dollar], 2%nat)
            else if d =? 96 then (take position str, 2%nat)
            else if d =? 38 then (matched, 2%nat)
            else if d =? 39 then (drop (position + length matched) str, 2%nat)
            else if Js.is_digit d then
              let m := length captures in
              let one_digit :=
                let i := digit_val d in
                if (1 <=? i)%nat && (i <=? m)%nat
                then (default [] (default None (captures !! (i - 1)%nat)), 2%nat)
                else ([c; d], 2%nat) in
              match t2 with
              | e :: _ =>
                  if Js.is_digit e then
                    let i := (10 * digit_val d + digit_val e)%nat in
                    if (m <? i)%nat then one_digit
                    else if (1 <=? i)%nat
                    then (default [] (default None (captures !! (i - 1)%nat)), 3%nat)
                    else ([c; d; e], 3%nat)
                  else one_digit
              | [] => one_digit
              end
            else if d =? 60 then
              match groups, Js.find_index [62] t with
              | Some g, Some gt =>
                  (default [] (lookup_group g (take (gt - 2) (drop 2 t))), S gt)
              | _, _ => ([c; d], 2%nat)
              end
            else ([c], 1%nat)
        end
  end.

(** GetSubstitution: the template is read from left to right, [skip]
    counting the code units of a reference still to be passed over. *)
Fixpoint expand (matched str : list N) (position : nat)
    (captures : list (option (list N)))
    (groups : option (list (list N * option (list N))))
    (skip : nat) (t : list N) : list N :=
  match t with
  | [] => []
  | _ :: t' =>
      match skip with
      | S k => expand matched str position captures groups k t'
      | O =>
          let '(r, n) := reference matched str position captures groups t in
          r ++ expand matched str position captures groups (n - 1) t'
      end
  end.

Definition GetSubstitution (matched str : list N) (position : nat)
    (captures : list (option (list N)))
    (groups : option (list (list N * option (list N))))
    (template : list N) : list N :=
  expand matched str position captures groups 0 template.

End Subst.

(** [str.replace(regexp, replaceValue)] for a RegExp without flags and a
    string [replaceValue]: the first match only. *)
Definition String_replace (str : list N) (re : RegExp) (replaceValue : list N)
  : list N :=
  match exec re str with
  | None => str
  | Some m =>
      let position := Nat.min (m_index m) (length str) in
      take position str
      ++ Subst.GetSubstitution (m_matched m) str position
           (m_captures m) (m_groups m) replaceValue
      ++ drop (position + length (m_matched m)) str
  end.

(** ** Values, errors and effects *)

(** The values the script meets: what [JSON.parse] and [yaml.load] give
    back, and [undefined].  A number is carried as its decimal rendering
    (what [ToString] gives), the only thing the script does with one.  An
    object is the list of its own properties. *)
Inductive Value :=
| VUndefined
| VNull
| VBool (b : bool)
| VNum (repr : list N)
| VStr (s : list N)
| VArr (items : list Value)
| VObj (props : list (list N * Value)).

(** A thrown error object: its name and message, the stack the host
    attaches, and the output a failed child process leaves on it. *)
Record JsError := {
  e_name : list N;
  e_message : list N;
  e_stack : list N;
  e_stdout : list N;
  e_stderr : list N
}.

Inductive outcome (A : Type) :=
| Ok (a : A)
| Throw (e : JsError).
Arguments Ok {A} a.
Arguments Throw {A} e.

Record PullRequest := { node_id : list N; html_url : list N }.

Record Response := { ok : bool; status : N; json : outcome Value }.

Record ExecOutput := { stdout : list N; stderr : list N }.

(** What a run does to the outside, in order. *)
Inductive Event :=
| Debug (m : list N)
| Info (m : list N)
| Warning (m : list N)
| ErrorLog (m : list N)
| SetFailed (m : list N)
| ConsoleLog (m : list N)
| ConsoleError (m : list N)
| Fetch (url : list N)
| Exec (command : list N)
| ReadFile (path : Value)
| WriteFile (path : Value) (content : list N)
| PullsList (owner repo : Value) (head : list N)
| PullsCreate (owner repo : Value) (head base title body : list N)
| EnableAutoMerge (pullRequestId mergeMethod : list N).

Abbreviation Trace := (list Event).

(** The collaborators of a run.  Each answer may depend on everything
    that happened before it. *)
Record Host := {
  (** [process.env] *)
  host_env : gmap (list N) (list N);
  (** the stack text of an error the script creates *)
  host_stack : list N -> list N -> list N;
  (** [yaml.load] (variants 1 and 2) and [JSON.parse] (variant 3) *)
  host_yaml_load : list N -> outcome Value;
  host_JSON_parse : list N -> outcome Value;
  (** [JSON.stringify], for the debug lines of variant 2 *)
  host_JSON_stringify : Value -> list N;
  host_stringify_error : JsError -> outcome (list N);
  (** [new RegExp] on a source outside the embedded pattern language *)
  host_RegExp : list N -> outcome RegExp;
  (** the rendering, in a template, of the value bound to a declared name *)
  host_binding : list N -> list N;
  host_fetch : list N -> Trace -> outcome Response;
  host_exec : list N -> Trace -> outcome ExecOutput;
  host_readFile : Value -> Trace -> outcome (list N);
  host_writeFile : Value -> list N -> Trace -> outcome unit;
  host_pulls_list : Value -> Value -> list N -> Trace -> outcome (list PullRequest);
  host_pulls_create : Value -> Value -> list N -> Trace -> outcome PullRequest;
  host_graphql : list N -> list N -> Trace -> outcome unit;
  (** [new Octokit()], which throws when it finds no token *)
  host_new_Octokit : outcome unit;
  (** [octokit.context.repo] (variant 3): the property read may throw *)
  host_octokit_context_repo : outcome (option (Value * Value))
}.

(** *** The effect monad: a trace of events, and exceptions *)

Definition M (A : Type) : Type := Trace -> outcome A * Trace.

Definition ret {A} (a : A) : M A := fun t => (Ok a, t).

Definition bind {A B} (m : M A) (k : A -> M B) : M B :=
  fun t => match m t with
           | (Ok a, t') => k a t'
           | (Throw e, t') => (Throw e, t')
           end.

Definition throw {A} (e : JsError) : M A := fun t => (Throw e, t).

Definition emit (ev : Event) : M unit := fun t => (Ok tt, t ++ [ev]).

(** [try { m } catch (e) { handler e }] *)
Definition try_catch {A} (m : M A) (handler : JsError -> M A) : M A :=
  fun t => match m t with
           | (Ok a, t') => (Ok a, t')
           | (Throw e, t') => handler e t'
           end.

Definition lift {A} (o : outcome A) : M A := fun t => (o, t).

(** An effect answered by the host: the event is recorded, then the
    host answers on the trace so far. *)
Definition ask {A} (ev : Event) (answer : Trace -> outcome A) : M A :=
  fun t => (answer (t ++ [ev]), t ++ [ev]).

Notation "x <- m ;; k" := (bind m (fun x => k))
  (at level 100, m at next level, right associativity).
Notation "m ;; k" := (bind m (fun _ => k))
  (at level 100, right associativity).

Section Script.

Variable h : Host.

(** [new Error(message)] and the engine's own errors. *)
Definition new_Error (message : list N) : JsError :=
  {| e_name := Js.lit "Error"; e_message := message;
     e_stack := host_stack h (Js.lit "Error") message;
     e_stdout := []; e_stderr := [] |}.

Definition TypeError (message : list N) : JsError :=
  {| e_name := Js.lit "TypeError"; e_message := message;
     e_stack := host_stack h (Js.lit "TypeError") message;
     e_stdout := []; e_stderr := [] |}.

Definition ReferenceError (name : list N) : JsError :=
  let message := name ++ Js.lit " is not defined" in
  {| e_name := Js.lit "ReferenceError"; e_message := message;
     e_stack := host_stack h (Js.lit "ReferenceError") message;
     e_stdout := []; e_stderr := [] |}.

Fixpoint assoc (key : list N) (props : list (list N * Value)) : option Value :=
  match props with
  | [] => None
  | (k, v) :: props' => if Js.eqb k key then Some v else assoc key props'
  end.

Definition describe (v : Value) : list N :=
  match v with VUndefined => Js.lit "undefined" | _ => Js.lit "null" end.

(** [v.key], for the keys the script reads ([tiers], [members], [name]):
    none of them is inherited from a prototype, so only an object's own
    property can answer; reading from [null] or [undefined] throws. *)
Definition Get (v : Value) (key : list N) : outcome Value :=
  match v with
  | VUndefined | VNull =>
      Throw (TypeError (Js.lit "Cannot read properties of " ++ describe v
                        ++ Js.lit " (reading '" ++ key ++ Js.lit "')"))
  | VObj props => Ok (default VUndefined (assoc key props))
  | _ => Ok VUndefined
  end.

Definition isArray (v : Value) : bool :=
  match v with VArr _ => true | _ => false end.

Definition obind {A B} (o : outcome A) (k : A -> outcome B) : outcome B :=
  match o with
  | Ok a => k a
  | Throw e => Throw e
  end.

(** [ToString].  An array is joined by commas; an object is
    ["[object Object]"] unless an own [toString] property, which parsed
    data cannot make callable, hides the inherited method. *)
Fixpoint ToString (v : Value) : outcome (list N) :=
  match v with
  | VUndefined => Ok (Js.lit "undefined")
  | VNull => Ok (Js.lit "null")
  | VBool b => Ok (Js.lit (if b then "true" else "false"))
  | VNum r => Ok r
  | VStr s => Ok s
  | VArr items =>
      obind
        ((fix go (l : list Value) : outcome (list (list N)) :=
            match l with
            | [] => Ok []
            | x :: l' =>
                obind (match x with
                       | VUndefined | VNull => Ok []
                       | _ => ToString x
                       end)
                  (fun sx => obind (go l') (fun sl => Ok (sx :: sl)))
            end) items)
        (fun parts => Ok (Js.join [44] parts))
  | VObj props =>
      match assoc (Js.lit "toString") props with
      | Some _ => Throw (TypeError (Js.lit "Cannot convert object to primitive value"))
      | None => Ok (Js.lit "[object Object]")
      end
  end.

Definition elements (v : Value) : list Value :=
  match v with VArr l => l | _ => [] end.

Fixpoint mapO {A B} (f : A -> outcome B) (l : list A) : outcome (list B) :=
  match l with
  | [] => Ok []
  | x :: l' => obind (f x) (fun y => obind (mapO f l') (fun ys => Ok (y :: ys)))
  end.

(** [array.join(separator)]: [undefined] and [null] elements give the
    empty string, the others their [ToString]. *)
Definition Array_join (items : list Value) (sep : list N) : outcome (list N) :=
  obind (mapO (fun v => match v with
                        | VUndefined | VNull => Ok []
                        | _ => ToString v
                        end) items)
        (fun parts => Ok (Js.join sep parts)).

(** [a || b] on strings: the empty string is falsy. *)
Definition or_else (a b : list N) : list N :=
  match a with [] => b | _ => a end.

(** *** @actions/core *)

Definition input_env_name (name : list N) : list N :=
  Js.lit "INPUT_" ++ map Js.upper (map (fun c => if c =? 32 then 95 else c) name).

(** [core.getInput(name)]: the environment variable, or the empty
    string, trimmed. *)
Definition getInput (name : list N) : list N :=
  Js.trim (default [] (host_env h !! input_env_name name)).

Definition core_debug (m : list N) : M unit := emit (Debug m).
Definition core_info (m : list N) : M unit := emit (Info m).
Definition core_warning (m : list N) : M unit := emit (Warning m).
Definition core_error (m : list N) : M unit := emit (ErrorLog m).
Definition core_setFailed (m : list N) : M unit := emit (SetFailed m).
Definition console_log (m : list N) : M unit := emit (ConsoleLog m).
Definition console_error (m : list N) : M unit := emit (ConsoleError m).

(** *** The configuration object, the same in the three variants *)

Record Config := {
  JSON_URL : list N;
  BRANCH_NAME : list N;
  START_MARKER : list N;
  END_MARKER : list N;
  FAIL_ON_MISSING_MARKERS : bool
}.

Definition CONFIG : Config := {|
  JSON_URL := Js.lit "https://vsbmeza3.com/supporters.json";
  BRANCH_NAME := Js.lit "update/patrons";
  START_MARKER := getInput (Js.lit "start-marker");
  END_MARKER := getInput (Js.lit "end-marker");
  FAIL_ON_MISSING_MARKERS :=
    Js.eqb (getInput (Js.lit "fail-on-missing-markers")) (Js.lit "true")
|}.

(** *** What the three variants compute in the same way *)

(** [new RegExp(source)] *)
Definition new_RegExp (source : list N) : outcome RegExp :=
  match Re.parse source with
  | Some p => Ok (regexp_of p)
  | None => host_RegExp h source
  end.

Definition separator : list N := [32; 183; 32].

(** [lastTier.members.map((m) => m.name).join(" · ")] *)
Definition names_of (lastTier : Value) : outcome (list N) :=
  obind (Get lastTier (Js.lit "members")) (fun members =>
  match members with
  | VArr ms =>
      obind (mapO (fun m => Get m (Js.lit "name")) ms) (fun ns =>
      Array_join ns separator)
  | _ => Throw (TypeError (Js.lit "lastTier.members.map is not a function"))
  end).

(** [data.tiers[data.tiers.length - 1]] *)
Definition lastTier_of (tiers : list Value) : Value :=
  default VUndefined (last tiers).

(** [`${CONFIG.START_MARKER}\n\n${names}\n\n${CONFIG.END_MARKER}`] *)
Definition replacement_of (names : list N) : list N :=
  START_MARKER CONFIG ++ [Js.LF; Js.LF] ++ names ++ [Js.LF; Js.LF]
  ++ END_MARKER CONFIG.

(** The source of the pattern:
    [`${CONFIG.START_MARKER}\\s*[\\s\\S]*?\\s*${CONFIG.END_MARKER}`] *)
Definition pattern_source : list N :=
  START_MARKER CONFIG ++ Js.lit "\s*[\s\S]*?\s*" ++ END_MARKER CONFIG.

(** [data.tiers.some(tier => !Array.isArray(tier.members))] *)
Fixpoint some_tier_without_members (tiers : list Value) : outcome bool :=
  match tiers with
  | [] => Ok false
  | tier :: rest =>
      obind (Get tier (Js.lit "members")) (fun members =>
      if negb (isArray members) then Ok true
      else some_tier_without_members rest)
  end.

(** [data?.tiers] *)
Definition tiers_of (data : Value) : outcome Value :=
  match data with
  | VUndefined | VNull => Ok VUndefined
  | _ => Get data (Js.lit "tiers")
  end.

(** [if (updatedContent)]: [null] and the empty string are falsy. *)
Definition truthy (updatedContent : option (list N)) : bool :=
  match updatedContent with
  | Some (_ :: _) => true
  | _ => false
  end.

(** [process.env.GITHUB_REPOSITORY?.split('/')[i]] *)
Definition repository_part (i : nat) : Value :=
  match host_env h !! Js.lit "GITHUB_REPOSITORY" with
  | None => VUndefined
  | Some r => match Js.split 47 r !! i with
              | Some part => VStr part
              | None => VUndefined
              end
  end.

(** The git commands that carry a quoted argument. *)
Definition git_config_user_name : list N :=
  Js.lit "git config user.name " ++ [Js.DQ] ++ Js.lit "GitHub Actions Bot" ++ [Js.DQ].

Definition git_config_user_email (gitEmail : list N) : list N :=
  Js.lit "git config user.email " ++ [Js.DQ] ++ gitEmail ++ [Js.DQ].

Definition git_commit : list N :=
  Js.lit "git commit -m " ++ [Js.DQ] ++ Js.lit "docs: updated patrons list" ++ [Js.DQ].

(** The guard of [updateFileContent] on the text of the file. *)
Definition markers_not_found (fileContent : list N) : bool :=
  let startIndex := Js.indexOf fileContent (START_MARKER CONFIG) in
  let endIndex := Js.indexOf fileContent (END_MARKER CONFIG) in
  (startIndex =? -1)%Z || (endIndex =? -1)%Z || (startIndex >? endIndex)%Z.

End Script.

(** ** Variant 1 *)

Module V1.
Section WithHost.

Variable h : Host.

Definition execAsync (command : list N) : M ExecOutput :=
  ask (Exec command) (host_exec h command).

Definition fetchSupporterData (url : list N) : M Value :=
  res <- ask (Fetch url) (host_fetch h url) ;;
  if negb (ok res) then throw (new_Error h (Js.lit "HTTP " ++ Js.of_N (status res)))
  else lift (json res).

Definition updateFileContent (filePath : Value) (pattern : RegExp)
    (replacement : list N) : M (option (list N)) :=
  fileContent <- ask (ReadFile filePath) (host_readFile h filePath) ;;
  if markers_not_found h fileContent then
    if FAIL_ON_MISSING_MARKERS (CONFIG h) then
      p <- lift (ToString h filePath) ;;
      throw (new_Error h (Js.lit "Markers are missing or misordered in " ++ p))
    else ret None
  else ret (Some (String_replace fileContent pattern replacement)).

Definition setupGitBranch (branchName : list N) : M unit :=
  execAsync (Js.lit "git checkout -B " ++ branchName) ;;
  execAsync (Js.lit "git reset --hard origin/main") ;;
  ret tt.

Definition createOrUpdatePR (branchName : list N) (owner repo : Value) : M unit :=
  o <- lift (ToString h owner) ;;
  let head := o ++ Js.lit ":" ++ branchName in
  pullRequests <- ask (PullsList owner repo head)
                      (host_pulls_list h owner repo head) ;;
  if (length pullRequests =? 0)%nat then
    pr <- ask (PullsCreate owner repo branchName (Js.lit "main")
                 (Js.lit "Update supporters list")
                 (Js.lit "This PR updates the supporters list."))
              (host_pulls_create h owner repo branchName) ;;
    try_catch
      (ask (EnableAutoMerge (node_id pr) (Js.lit "MERGE"))
           (host_graphql h (node_id pr) (Js.lit "MERGE")) ;;
       core_info (Js.lit "Auto-merge enabled for PR: " ++ html_url pr))
      (fun error =>
         core_warning (Js.lit "Failed to enable auto-merge: " ++ e_message error)) ;;
    core_info (Js.lit "Pull request created: " ++ html_url pr)
  else
    core_info (Js.lit "Pull request already exists.").

(** One turn of [for (const filePath of filesToUpdate)], with its own
    [try]/[catch]; the result is the new value of [changesMade]. *)
Definition process_file (pattern : RegExp) (replacement : list N)
    (changesMade : bool) (filePath : Value) : M bool :=
  try_catch
    (updatedContent <- updateFileContent filePath pattern replacement ;;
     if truthy updatedContent then
       ask (WriteFile filePath (default [] updatedContent))
           (host_writeFile h filePath (default [] updatedContent)) ;;
       p <- lift (ToString h filePath) ;;
       core_info (Js.lit "Updated " ++ p ++ Js.lit " with supporter names.") ;;
       ret true
     else ret changesMade)
    (fun err =>
       p <- lift (ToString h filePath) ;;
       core_error (Js.lit "Failed to process " ++ p ++ Js.lit ": " ++ e_message err) ;;
       ret changesMade).

Fixpoint process_files (pattern : RegExp) (replacement : list N)
    (changesMade : bool) (filesToUpdate : list Value) : M bool :=
  match filesToUpdate with
  | [] => ret changesMade
  | filePath :: rest =>
      changed <- process_file pattern replacement changesMade filePath ;;
      process_files pattern replacement changed rest
  end.

(** The names bound where the [catch] block of [main] runs: the imports,
    constants and functions of the module, and the catch parameter.  The
    [const]s of the [try] block are out of scope there. *)
Definition catch_scope : list (list N) :=
  map Js.lit ["fs"; "exec"; "promisify"; "core"; "Octokit"; "yaml"; "execAsync";
              "CONFIG"; "fetchSupporterData"; "updateFileContent";
              "setupGitBranch"; "createOrUpdatePR"; "main"; "error"]%string.

(** An identifier inside a template: a name that is not bound throws a
    ReferenceError. *)
Definition identifier (scope : list (list N)) (name : list N) : M (list N) :=
  if existsb (Js.eqb name) scope then ret (host_binding h name)
  else throw (ReferenceError h name).

(** The [try] block of [main]. *)
Definition main_try : M unit :=
  filesToUpdate <- lift (host_yaml_load h
                     (or_else (getInput h (Js.lit "files-to-update")) (Js.lit "[]"))) ;;
  if negb (isArray filesToUpdate) || (length (elements filesToUpdate) =? 0)%nat then
    throw (new_Error h (Js.lit "No files specified in 'files-to-update'."))
  else
  data <- fetchSupporterData (JSON_URL (CONFIG h)) ;;
  tiers <- lift (tiers_of h data) ;;
  if negb (isArray tiers) then
    throw (new_Error h (Js.lit "Supporter tiers are missing or malformed."))
  else
  if (length (elements tiers) =? 0)%nat then
    core_warning (Js.lit "No supporters found in the supporter data.")
  else
  bad <- lift (some_tier_without_members h (elements tiers)) ;;
  if bad then
    throw (new_Error h (Js.lit "Supporter data is missing or malformed."))
  else
  let lastTier := lastTier_of (elements tiers) in
  names <- lift (names_of h lastTier) ;;
  let replacement := replacement_of h names in
  pattern <- lift (new_RegExp h (pattern_source h)) ;;
  setupGitBranch (BRANCH_NAME (CONFIG h)) ;;
  changesMade <- process_files pattern replacement false (elements filesToUpdate) ;;
  if changesMade then
    let gitEmail := or_else (getInput h (Js.lit "git-email")) (Js.lit "actions@github.com") in
    execAsync git_config_user_name ;;
    execAsync (git_config_user_email gitEmail) ;;
    execAsync (Js.lit "git add .") ;;
    execAsync git_commit ;;
    execAsync (Js.lit "git push -f origin " ++ BRANCH_NAME (CONFIG h)) ;;
    lift (host_new_Octokit h) ;;
    let owner := repository_part h 0 in
    let repo := repository_part h 1 in
    createOrUpdatePR (BRANCH_NAME (CONFIG h)) owner repo
  else
    core_info (Js.lit "No changes detected. Skipping pull request creation.").

Definition main : M unit :=
  try_catch main_try
    (fun error =>
       core_setFailed (e_message error) ;;
       originalBranch <- identifier catch_scope (Js.lit "originalBranch") ;;
       execAsync (Js.lit "git checkout " ++ originalBranch) ;;
       branchName <- identifier catch_scope (Js.lit "branchName") ;;
       execAsync (Js.lit "git branch -D " ++ branchName) ;;
       ret tt).

End WithHost.
End V1.

(** ** Variant 2: the same run with diagnostics and a look at the
    staging status before the commit *)

Module V2.
Section WithHost.

Variable h : Host.

Definition execAsync (command : list N) : M ExecOutput :=
  core_debug (Js.lit "Executing: " ++ command) ;;
  try_catch
    (out <- ask (Exec command) (host_exec h command) ;;
     core_debug (Js.lit "Command stdout: " ++ Js.trim (stdout out)) ;;
     (match stderr out with
      | [] => ret tt
      | _ => core_debug (Js.lit "Command stderr: " ++ Js.trim (stderr out))
      end) ;;
     ret out)
    (fun error =>
       core_error (Js.lit "Command failed: " ++ command) ;;
       core_error (Js.lit "Error message: " ++ e_message error) ;;
       (match e_stdout error with
        | [] => ret tt
        | _ => core_error (Js.lit "Error stdout: " ++ e_stdout error)
        end) ;;
       (match e_stderr error with
        | [] => ret tt
        | _ => core_error (Js.lit "Error stderr: " ++ e_stderr error)
        end) ;;
       throw error).

(** [JSON.stringify(v)] inside a template. *)
Definition stringify (v : Value) : list N :=
  match v with
  | VUndefined => Js.lit "undefined"
  | _ => host_JSON_stringify h v
  end.

Definition fetchSupporterData (url : list N) : M Value :=
  core_debug (Js.lit "Fetching supporter data from: " ++ url) ;;
  res <- ask (Fetch url) (host_fetch h url) ;;
  if negb (ok res) then throw (new_Error h (Js.lit "HTTP " ++ Js.of_N (status res)))
  else
  data <- lift (json res) ;;
  match data with
  | VUndefined =>
      throw (TypeError h (Js.lit "Cannot read properties of undefined (reading 'substring')"))
  | _ =>
      core_debug (Js.lit "Received supporter data: "
                  ++ take 200 (host_JSON_stringify h data) ++ Js.lit "...") ;;
      ret data
  end.

Definition updateFileContent (filePath : Value) (pattern : RegExp)
    (replacement : list N) : M (option (list N)) :=
  p <- lift (ToString h filePath) ;;
  core_debug (Js.lit "Reading file: " ++ p) ;;
  fileContent <- ask (ReadFile filePath) (host_readFile h filePath) ;;
  let startIndex := Js.indexOf fileContent (START_MARKER (CONFIG h)) in
  let endIndex := Js.indexOf fileContent (END_MARKER (CONFIG h)) in
  core_debug (Js.lit "Markers - start: " ++ Js.of_Z startIndex
              ++ Js.lit ", end: " ++ Js.of_Z endIndex) ;;
  if markers_not_found h fileContent then
    if FAIL_ON_MISSING_MARKERS (CONFIG h) then
      throw (new_Error h (Js.lit "Markers are missing or misordered in " ++ p))
    else
      core_warning (Js.lit "Markers not found in " ++ p ++ Js.lit ", skipping") ;;
      ret None
  else ret (Some (String_replace fileContent pattern replacement)).

Definition setupGitBranch (branchName : list N) : M unit :=
  core_info (Js.lit "Setting up git branch: " ++ branchName) ;;
  try_catch
    (execAsync (Js.lit "git checkout -B " ++ branchName) ;;
     core_info (Js.lit "Successfully checked out branch: " ++ branchName))
    (fun error =>
       core_setFailed (Js.lit "Failed to setup git branch: " ++ e_message error) ;;
       throw error).

Definition createOrUpdatePR (branchName : list N) (owner repo : Value) : M unit :=
  o <- lift (ToString h owner) ;;
  r <- lift (ToString h repo) ;;
  core_info (Js.lit "Creating/updating PR for branch " ++ branchName
             ++ Js.lit " in " ++ o ++ Js.lit "/" ++ r) ;;
  let head := o ++ Js.lit ":" ++ branchName in
  pullRequests <- ask (PullsList owner repo head)
                      (host_pulls_list h owner repo head) ;;
  core_debug (Js.lit "Found " ++ Js.of_nat (length pullRequests)
              ++ Js.lit " existing PRs") ;;
  match pullRequests with
  | [] =>
      core_info (Js.lit "Creating new PR for branch " ++ branchName) ;;
      pr <- ask (PullsCreate owner repo branchName (Js.lit "main")
                   (Js.lit "Update supporters list")
                   (Js.lit "This PR updates the supporters list."))
                (host_pulls_create h owner repo branchName) ;;
      try_catch
        (core_debug (Js.lit "Enabling auto-merge for PR ID: " ++ node_id pr) ;;
         ask (EnableAutoMerge (node_id pr) (Js.lit "MERGE"))
             (host_graphql h (node_id pr) (Js.lit "MERGE")) ;;
         core_info (Js.lit "Auto-merge enabled for PR: " ++ html_url pr))
        (fun error =>
           core_warning (Js.lit "Failed to enable auto-merge: " ++ e_message error) ;;
           details <- lift (host_stringify_error h error) ;;
           core_debug (Js.lit "Auto-merge error details: " ++ details)) ;;
      core_info (Js.lit "Pull request created: " ++ html_url pr)
  | first :: _ =>
      core_info (Js.lit "Pull request already exists: " ++ html_url first)
  end.

Definition process_file (pattern : RegExp) (replacement : list N)
    (changesMade : bool) (filePath : Value) : M bool :=
  try_catch
    (p <- lift (ToString h filePath) ;;
     core_info (Js.lit "Processing file: " ++ p) ;;
     updatedContent <- updateFileContent filePath pattern replacement ;;
     if truthy updatedContent then
       ask (WriteFile filePath (default [] updatedContent))
           (host_writeFile h filePath (default [] updatedContent)) ;;
       core_info (Js.lit "Updated " ++ p ++ Js.lit " with supporter names.") ;;
       ret true
     else ret changesMade)
    (fun err =>
       p <- lift (ToString h filePath) ;;
       core_error (Js.lit "Failed to process " ++ p ++ Js.lit ": " ++ e_message err) ;;
       core_debug (Js.lit "Error stack: " ++ e_stack err) ;;
       ret changesMade).

Fixpoint process_files (pattern : RegExp) (replacement : list N)
    (changesMade : bool) (filesToUpdate : list Value) : M bool :=
  match filesToUpdate with
  | [] => ret changesMade
  | filePath :: rest =>
      changed <- process_file pattern replacement changesMade filePath ;;
      process_files pattern replacement changed rest
  end.

(** What follows [git add .] when the staging status is not empty. *)
Definition commit_push_pr (porcelainStatus : list N) : M unit :=
  core_info (Js.lit "Changes detected: "
             ++ Js.of_nat (length (Js.split Js.LF porcelainStatus))
             ++ Js.lit " files modified") ;;
  try_catch
    (core_info (Js.lit "Attempting to commit changes") ;;
     execAsync git_commit ;;
     core_info (Js.lit "Commit successful"))
    (fun error =>
       core_error (Js.lit "Git commit failed") ;;
       diffCheck <- try_catch
                      (out <- execAsync (Js.lit "git diff --staged --name-only") ;;
                       ret (stdout out))
                      (fun _ => ret []) ;;
       (match Js.trim diffCheck with
        | [] => core_warning
                  (Js.lit "No changes to commit - this might be why the commit failed")
        | _ => ret tt
        end) ;;
       throw error) ;;
  core_info (Js.lit "Pushing to remote branch: " ++ BRANCH_NAME (CONFIG h)) ;;
  execAsync (Js.lit "git push -f origin " ++ BRANCH_NAME (CONFIG h)) ;;
  core_info (Js.lit "Push successful") ;;
  lift (host_new_Octokit h) ;;
  let owner := repository_part h 0 in
  let repo := repository_part h 1 in
  o <- lift (ToString h owner) ;;
  r <- lift (ToString h repo) ;;
  core_debug (Js.lit "Repository: " ++ o ++ Js.lit "/" ++ r) ;;
  createOrUpdatePR (BRANCH_NAME (CONFIG h)) owner repo.

Definition main_try : M unit :=
  core_info (Js.lit "Starting patron update process") ;;
  core_debug (Js.lit "Environment: "
              ++ stringify (match host_env h !! Js.lit "GITHUB_REPOSITORY" with
                            | Some r => VStr r
                            | None => VUndefined
                            end)) ;;
  filesToUpdate <- lift (host_yaml_load h
                     (or_else (getInput h (Js.lit "files-to-update")) (Js.lit "[]"))) ;;
  core_debug (Js.lit "Files to update: " ++ stringify filesToUpdate) ;;
  if negb (isArray filesToUpdate) || (length (elements filesToUpdate) =? 0)%nat then
    throw (new_Error h (Js.lit "No files specified in 'files-to-update'."))
  else
  data <- fetchSupporterData (JSON_URL (CONFIG h)) ;;
  tiers <- lift (tiers_of h data) ;;
  if negb (isArray tiers) then
    throw (new_Error h (Js.lit "Supporter tiers are missing or malformed."))
  else
  if (length (elements tiers) =? 0)%nat then
    core_warning (Js.lit "No supporters found in the supporter data.")
  else
  bad <- lift (some_tier_without_members h (elements tiers)) ;;
  if bad then
    throw (new_Error h (Js.lit "Supporter data is missing or malformed."))
  else
  let lastTier := lastTier_of (elements tiers) in
  names <- lift (names_of h lastTier) ;;
  let replacement := replacement_of h names in
  pattern <- lift (new_RegExp h (pattern_source h)) ;;
  setupGitBranch (BRANCH_NAME (CONFIG h)) ;;
  changesMade <- process_files pattern replacement false (elements filesToUpdate) ;;
  if changesMade then
    let gitEmail := or_else (getInput h (Js.lit "git-email")) (Js.lit "actions@github.com") in
    core_info (Js.lit "Setting up git configuration with email: " ++ gitEmail) ;;
    execAsync git_config_user_name ;;
    execAsync (git_config_user_email gitEmail) ;;
    statusBefore <- execAsync (Js.lit "git status") ;;
    core_debug (Js.lit "Git status before add: " ++ stdout statusBefore) ;;
    execAsync (Js.lit "git add .") ;;
    porcelain <- execAsync (Js.lit "git status --porcelain") ;;
    let porcelainStatus := stdout porcelain in
    core_debug (Js.lit "Git porcelain status: " ++ porcelainStatus) ;;
    match Js.trim porcelainStatus with
    | [] => core_info (Js.lit "No changes to commit, skipping commit and push operations")
    | _ =>
        commit_push_pr porcelainStatus ;;
        core_info (Js.lit "Process completed successfully")
    end
  else
    core_info (Js.lit "No changes detected. Skipping pull request creation.") ;;
    core_info (Js.lit "Process completed successfully").

Definition main : M unit :=
  try_catch main_try
    (fun error =>
       core_error (Js.lit "Failed with error: " ++ e_message error) ;;
       core_debug (Js.lit "Error stack: " ++ e_stack error) ;;
       core_setFailed (e_message error)).

End WithHost.
End V2.

(** ** Variant 3 *)

Module V3.
Section WithHost.

Variable h : Host.

Definition execAsync := V1.execAsync h.
Definition fetchSupporterData := V1.fetchSupporterData h.
Definition updateFileContent := V1.updateFileContent h.

Definition setupGitBranch (branchName : list N) : M unit :=
  try_catch
    (execAsync (Js.lit "git rev-parse --verify " ++ branchName) ;;
     execAsync (Js.lit "git checkout " ++ branchName) ;;
     execAsync (Js.lit "git pull origin " ++ branchName) ;;
     ret tt)
    (fun _ =>
       execAsync (Js.lit "git checkout -b " ++ branchName) ;;
       ret tt).

Definition createOrUpdatePR (branchName : list N) : M unit :=
  context_repo <- lift (host_octokit_context_repo h) ;;
  let '(owner, repo) :=
    default (VStr (Js.lit "default-owner"), VStr (Js.lit "default-repo")) context_repo in
  o <- lift (ToString h owner) ;;
  let head := o ++ Js.lit ":" ++ branchName in
  pullRequests <- ask (PullsList owner repo head)
                      (host_pulls_list h owner repo head) ;;
  if (length pullRequests =? 0)%nat then
    pr <- ask (PullsCreate owner repo branchName (Js.lit "main")
                 (Js.lit "Update supporters list")
                 (Js.lit "This PR updates the supporters list."))
              (host_pulls_create h owner repo branchName) ;;
    console_log (Js.lit "Pull request created: " ++ html_url pr)
  else
    console_log (Js.lit "Pull request already exists.").

Definition process_file (pattern : RegExp) (replacement : list N)
    (changesMade : bool) (filePath : Value) : M bool :=
  try_catch
    (updatedContent <- updateFileContent filePath pattern replacement ;;
     if truthy updatedContent then
       ask (WriteFile filePath (default [] updatedContent))
           (host_writeFile h filePath (default [] updatedContent)) ;;
       p <- lift (ToString h filePath) ;;
       console_log (Js.lit "Updated " ++ p ++ Js.lit " with supporter names.") ;;
       ret true
     else ret changesMade)
    (fun err =>
       p <- lift (ToString h filePath) ;;
       console_error (Js.lit "Failed to process " ++ p ++ Js.lit ": " ++ e_message err) ;;
       ret changesMade).

Fixpoint process_files (pattern : RegExp) (replacement : list N)
    (changesMade : bool) (filesToUpdate : list Value) : M bool :=
  match filesToUpdate with
  | [] => ret changesMade
  | filePath :: rest =>
      changed <- process_file pattern replacement changesMade filePath ;;
      process_files pattern replacement changed rest
  end.

Definition main_try : M unit :=
  filesToUpdate <- lift (host_JSON_parse h
                     (or_else (getInput h (Js.lit "files-to-update")) (Js.lit "[]"))) ;;
  if negb (isArray filesToUpdate) || (length (elements filesToUpdate) =? 0)%nat then
    throw (new_Error h (Js.lit "No files specified in 'files-to-update'."))
  else
  data <- fetchSupporterData (JSON_URL (CONFIG h)) ;;
  tiers <- lift (tiers_of h data) ;;
  bad <- (if negb (isArray tiers) then ret true
          else lift (some_tier_without_members h (elements tiers))) ;;
  if bad then
    throw (new_Error h (Js.lit "Supporter data is missing or malformed."))
  else
  let lastTier := lastTier_of (elements tiers) in
  names <- lift (names_of h lastTier) ;;
  let replacement := replacement_of h names in
  pattern <- lift (new_RegExp h (pattern_source h)) ;;
  setupGitBranch (BRANCH_NAME (CONFIG h)) ;;
  changesMade <- process_files pattern replacement false (elements filesToUpdate) ;;
  if changesMade then
    let gitEmail := or_else (getInput h (Js.lit "git-email")) (Js.lit "actions@github.com") in
    execAsync git_config_user_name ;;
    execAsync (git_config_user_email gitEmail) ;;
    execAsync (Js.lit "git add .") ;;
    execAsync git_commit ;;
    execAsync (Js.lit "git push origin " ++ BRANCH_NAME (CONFIG h)) ;;
    lift (host_new_Octokit h) ;;
    createOrUpdatePR (BRANCH_NAME (CONFIG h))
  else
    console_log (Js.lit "No changes detected. Skipping pull request creation.").

Definition main : M unit :=
  try_catch main_try (fun error => core_setFailed (e_message error)).

End WithHost.
End V3.

(** ** The pattern of the script on markers without syntax characters *)

(** The terms of a source made of pattern characters only. *)
Definition lits (s : list N) : list Re.term :=
  map (fun c => Re.Term (Re.CsChar c) Re.QOne true) s.

Definition ws : Re.cset := Re.CsEsc Re.KSpace false.

Definition any : Re.cset :=
  Re.CsClass false [Re.CiEsc Re.KSpace false; Re.CiEsc Re.KSpace true].

(** The terms of the middle of the pattern source. *)
Definition gap_terms : list Re.term :=
  [Re.Term ws Re.QStar true; Re.Term any Re.QStar false; Re.Term ws Re.QStar true].

(** No code unit of [s] is a syntax character of the pattern language. *)
Definition plain (s : list N) : bool :=
  forallb (fun c => negb (Re.is_syntax_char c)) s.

(** No code unit of [s] is a dollar sign. *)
Definition dollar_free (s : list N) : bool :=
  forallb (fun c => negb (c =? Subst.dollar)) s.

(** The substitution as the specification words it: the span from the
    first occurrence of the start marker through the first occurrence of
    the end marker that follows it is replaced by the start marker, a
    blank line, the names, a blank line and the end marker. *)
Definition spec_substitute (start_marker end_marker names text : list N)
  : option (list N) :=
  match Js.find_index start_marker text with
  | Some i =>
      match Js.find_index end_marker (drop (i + length start_marker) text) with
      | Some k =>
          Some (take i text
                ++ start_marker ++ [Js.LF; Js.LF] ++ names ++ [Js.LF; Js.LF] ++ end_marker
                ++ drop (i + length start_marker + k + length end_marker) text)
      | None => None
      end
  | None => None
  end.

(** Where the rest of the pattern, from the first optional white space
    on, stops: at the end of the first occurrence of the end marker. *)
Definition after (b s : list N) : option nat :=
  (fun i => i + length b)%nat <$> Js.find_index b s.

(** The text [updateFileContent] returns for a file when it is called, as
    in [main], with the pattern and the replacement built from the
    markers and the names. *)
Definition substituted (h : Host) (filePath : Value) (names : list N) (t : Trace)
  : outcome (option (list N)) :=
  match new_RegExp h (pattern_source h) with
  | Ok pattern =>
      fst (V1.updateFileContent h filePath pattern (replacement_of h names) t)
  | Throw e => Throw e
  end.

(** ** The inputs of the action *)

(** Modelled from the spec: the declaration of the action's inputs; the
    metadata file that declares them is not among the sources.  The
    specification (section 6) gives [fail-on-missing-markers] the default
    true and [git-email] the default [actions@github.com], and no default
    to the other three; the README's table of inputs agrees on these
    two. *)
Definition action_inputs : list (list N * option (list N)) :=
  [(Js.lit "files-to-update", None);
   (Js.lit "fail-on-missing-markers", Some (Js.lit "true"));
   (Js.lit "start-marker", None);
   (Js.lit "end-marker", None);
   (Js.lit "git-email", Some (Js.lit "actions@github.com"))].

(** Modelled from the spec: how the runner hands the inputs to the
    script.  Each declared input becomes one environment variable, which
    holds the value the workflow supplies or else the declared default. *)
Definition runner_env (supplied : gmap (list N) (list N)) : gmap (list N) (list N) :=
  list_to_map
    (omap (fun '(name, dflt) =>
             (fun v => (input_env_name name, v))
               <$> (match supplied !! name with Some v => Some v | None => dflt end))
          action_inputs).

(** ** The roster as the specification describes it *)

(** [v] is a member object with the given name. *)
Definition is_member (h : Host) (v : Value) (name : list N) : Prop :=
  Get h v (Js.lit "name") = Ok (VStr name).

(** [v] is a tier object whose members have the given names, in order. *)
Definition is_tier (h : Host) (v : Value) (names : list (list N)) : Prop :=
  exists members, Get h v (Js.lit "members") = Ok (VArr members)
                  /\ Forall2 (is_member h) members names.

(** One turn of the loop of [main] on a file, with the pattern and the
    replacement built from the markers and the names. *)
Definition processed (h : Host) (filePath : Value) (names : list N)
    (changesMade : bool) (t : Trace) : outcome bool * Trace :=
  match new_RegExp h (pattern_source h) with
  | Ok pattern =>
      V1.process_file h pattern (replacement_of h names) changesMade filePath t
  | Throw e => (Throw e, t)
  end.

(** ** Example environments *)

Module Example.

Definition README : Value := VStr (Js.lit "README.md").

Definition member (name : list N) : Value := VObj [(Js.lit "name", VStr name)].

Definition tier (name : list N) (members : list Value) : Value :=
  VObj [(Js.lit "name", VStr name); (Js.lit "members", VArr members)].

Definition roster (tiers : list Value) : Value := VObj [(Js.lit "tiers", VArr tiers)].

Definition quiet : ExecOutput := {| stdout := []; stderr := [] |}.

Definition failure (message : list N) : JsError :=
  {| e_name := Js.lit "Error"; e_message := message; e_stack := [];
     e_stdout := []; e_stderr := [] |}.

(** A host given by the action inputs, the roster served, the text of
    every file and the behaviour of the child processes; one target file,
    [README.md]; no pull request open yet; the other collaborators
    succeed. *)
Definition host (inputs : list (list N * list N)) (data : Value)
    (read : Trace -> outcome (list N))
    (run : list N -> Trace -> outcome ExecOutput)
    (graphql : outcome unit) : Host := {|
  host_env := list_to_map (map (fun '(k, v) => (input_env_name k, v)) inputs);
  host_stack := fun _ _ => [];
  host_yaml_load := fun _ => Ok (VArr [README]);
  host_JSON_parse := fun _ => Ok (VArr [README]);
  host_JSON_stringify := fun _ => [];
  host_stringify_error := fun _ => Ok [];
  host_RegExp := fun _ => Throw (failure (Js.lit "Invalid regular expression"));
  host_binding := fun _ => [];
  host_fetch := fun _ _ => Ok {| ok := true; status := 200; json := Ok data |};
  host_exec := run;
  host_readFile := fun _ => read;
  host_writeFile := fun _ _ _ => Ok tt;
  host_pulls_list := fun _ _ _ _ => Ok [];
  host_pulls_create := fun _ _ _ _ =>
    Ok {| node_id := Js.lit "PR_1"; html_url := Js.lit "https://example.test/pull/1" |};
  host_graphql := fun _ _ _ => graphql;
  host_new_Octokit := Ok tt;
  host_octokit_context_repo := Ok None
|}.

Definition markers (start_marker end_marker : string) (fail : string)
  : list (list N * list N) :=
  [(Js.lit "start-marker", Js.lit start_marker);
   (Js.lit "end-marker", Js.lit end_marker);
   (Js.lit "fail-on-missing-markers", Js.lit fail)].

Definition default_start : string := "<!-- marker:patrons-start -->".
Definition default_end : string := "<!-- marker:patrons-end -->".

(** A file as a disk keeps it: what was written last, or else the
    initial text. *)
Fixpoint disk (initial : list N) (t : Trace) : list N :=
  match t with
  | [] => initial
  | WriteFile _ content :: t' => disk content t'
  | _ :: t' => disk initial t'
  end.

Definition always (text : list N) : Trace -> outcome (list N) := fun _ => Ok text.

Definition calm : list N -> Trace -> outcome ExecOutput := fun _ _ => Ok quiet.

Definition two_tiers : Value :=
  roster [tier (Js.lit "Tier 1") [member (Js.lit "A")];
          tier (Js.lit "Tier 2") [member (Js.lit "B"); member (Js.lit "C")]].

(** The roster of the specification's example: tiers without a name. *)
Definition bare_tiers : list Value :=
  [VObj [(Js.lit "members", VArr [member (Js.lit "A")])];
   VObj [(Js.lit "members", VArr [member (Js.lit "B"); member (Js.lit "C")])]].

Definition bare_roster : Value := roster bare_tiers.

(** The same host with another answer of [yaml.load] and [JSON.parse]. *)
Definition with_files (files : Value) (h : Host) : Host :=
  {| host_env := host_env h;
     host_stack := host_stack h;
     host_yaml_load := fun _ => Ok files;
     host_JSON_parse := fun _ => Ok files;
     host_JSON_stringify := host_JSON_stringify h;
     host_stringify_error := host_stringify_error h;
     host_RegExp := host_RegExp h;
     host_binding := host_binding h;
     host_fetch := host_fetch h;
     host_exec := host_exec h;
     host_readFile := host_readFile h;
     host_writeFile := host_writeFile h;
     host_pulls_list := host_pulls_list h;
     host_pulls_create := host_pulls_create h;
     host_graphql := host_graphql h;
     host_new_Octokit := host_new_Octokit h;
     host_octokit_context_repo := host_octokit_context_repo h |}.

(** What a workflow supplies that gives the file list and the two
    markers, and nothing for [fail-on-missing-markers]. *)
Definition supplied_inputs : gmap (list N) (list N) :=
  {[ Js.lit "files-to-update" := Js.lit "- README.md";
     Js.lit "start-marker" := Js.lit default_start;
     Js.lit "end-marker" := Js.lit default_end ]}.

(** A file that shows neither marker. *)
Definition plain_readme : list N := Js.lit "# A project".

(** The inputs as the runner sets them for that workflow; the file of
    the list shows no marker. *)
Definition defaulted_host : Host :=
  {| host_env := runner_env supplied_inputs;
     host_stack := fun _ _ => [];
     host_yaml_load := fun _ => Ok (VArr [README]);
     host_JSON_parse := fun _ => Ok (VArr [README]);
     host_JSON_stringify := fun _ => [];
     host_stringify_error := fun _ => Ok [];
     host_RegExp := fun _ => Throw (failure (Js.lit "Invalid regular expression"));
     host_binding := fun _ => [];
     host_fetch := fun _ _ => Ok {| ok := true; status := 200; json := Ok two_tiers |};
     host_exec := calm;
     host_readFile := fun _ => always plain_readme;
     host_writeFile := fun _ _ _ => Ok tt;
     host_pulls_list := fun _ _ _ _ => Ok [];
     host_pulls_create := fun _ _ _ _ =>
       Ok {| node_id := Js.lit "PR_1"; html_url := Js.lit "https://example.test/pull/1" |};
     host_graphql := fun _ _ _ => Ok tt;
     host_new_Octokit := Ok tt;
     host_octokit_context_repo := Ok None |}.

(** The default markers; the file holds two pairs of them. *)
Definition two_pairs : list N :=
  Js.lit "# Patrons" ++ [Js.LF] ++ Js.lit default_start ++ Js.lit " old "
  ++ Js.lit default_end ++ [Js.LF] ++ Js.lit default_start ++ Js.lit " kept "
  ++ Js.lit default_end.

Definition two_pairs_host : Host :=
  host (markers default_start default_end "true") two_tiers (always two_pairs) calm (Ok tt).

(** A supporter whose name holds two dollar signs. *)
Definition cash_text : list N :=
  Js.lit "Thanks to " ++ Js.lit default_start ++ Js.lit default_end ++ Js.lit "!".

Definition cash_tiers : list Value :=
  [tier (Js.lit "Tier 1") [member (Js.lit "A")];
   tier (Js.lit "Tier 2") [member (Js.lit "Cash$$Money")]].

Definition cash_roster : Value := roster cash_tiers.

Definition cash_host : Host :=
  host (markers default_start default_end "true") cash_roster (always cash_text) calm (Ok tt).

(** A supporter whose name holds the end marker. *)
Definition echo_text : list N := Js.lit "x<!--s-->old<!--e-->y".

Definition echo_names : list N := Js.lit "A " ++ [183] ++ Js.lit " <!--e-->".

Definition echo_host : Host :=
  host (markers "<!--s-->" "<!--e-->" "true") two_tiers
       (fun t => Ok (disk echo_text t)) calm (Ok tt).

(** Markers with a dot, in a file that also shows them with a dash. *)
Definition dotted_text : list N :=
  Js.lit "doc: <!-- patrons-start --> | <!-- patrons.start --> old <!-- patrons.end --> tail".

Definition dotted_host : Host :=
  host (markers "<!-- patrons.start -->" "<!-- patrons.end -->" "true") two_tiers
       (always dotted_text) calm (Ok tt).

(** A file without markers, and the flag set. *)
Definition unmarked_text : list N := Js.lit "# A project without a patrons section".

Definition unmarked_host : Host :=
  host (markers default_start default_end "true") two_tiers
       (always unmarked_text) calm (Ok tt).

(** The roster has no tier. *)
Definition empty_roster_host : Host :=
  host (markers default_start default_end "true") (roster [])
       (always two_pairs) calm (Ok tt).

(** Enabling auto-merge is refused. *)
Definition refused : JsError := failure (Js.lit "Auto merge is not allowed for this repository").

Definition refusing_host : Host :=
  host (markers default_start default_end "true") two_tiers
       (always two_pairs) calm (Throw refused).

(** The file already shows the names of the last tier, so that nothing
    is pending after staging: the status is empty and the commit is
    refused. *)
Definition settled_text : list N :=
  Js.lit "x" ++ Js.lit default_start ++ [Js.LF; Js.LF]
  ++ Js.lit "B" ++ [32; 183; 32] ++ Js.lit "C"
  ++ [Js.LF; Js.LF] ++ Js.lit default_end ++ Js.lit "y".

Definition nothing_to_commit : JsError :=
  failure (Js.lit "Command failed: git commit: nothing to commit, working tree clean").

Definition clean_tree (command : list N) (t : Trace) : outcome ExecOutput :=
  if Js.eqb command git_commit then Throw nothing_to_commit else Ok quiet.

Definition settled_host : Host :=
  host (markers default_start default_end "true") two_tiers
       (always settled_text) clean_tree (Ok tt).

(** What the file of [two_pairs_host] becomes, and the pull request that
    host creates. *)
Definition two_pairs_updated : list N :=
  Js.lit "# Patrons" ++ [Js.LF] ++ Js.lit default_start
  ++ [Js.LF; Js.LF] ++ Js.lit "B" ++ [32; 183; 32] ++ Js.lit "C"
  ++ [Js.LF; Js.LF] ++ Js.lit default_end ++ [Js.LF]
  ++ Js.lit default_start ++ Js.lit " kept " ++ Js.lit default_end.

Definition first_pr : PullRequest :=
  {| node_id := Js.lit "PR_1"; html_url := Js.lit "https://example.test/pull/1" |}.


(** The client has no context: reading its repository throws. *)
Definition no_context : JsError :=
  failure (Js.lit "Cannot read properties of undefined (reading 'repo')").

Definition no_context_host : Host :=
  {| host_env := host_env two_pairs_host;
     host_stack := host_stack two_pairs_host;
     host_yaml_load := host_yaml_load two_pairs_host;
     host_JSON_parse := host_JSON_parse two_pairs_host;
     host_JSON_stringify := host_JSON_stringify two_pairs_host;
     host_stringify_error := host_stringify_error two_pairs_host;
     host_RegExp := host_RegExp two_pairs_host;
     host_binding := host_binding two_pairs_host;
     host_fetch := host_fetch two_pairs_host;
     host_exec := host_exec two_pairs_host;
     host_readFile := host_readFile two_pairs_host;
     host_writeFile := host_writeFile two_pairs_host;
     host_pulls_list := host_pulls_list two_pairs_host;
     host_pulls_create := host_pulls_create two_pairs_host;
     host_graphql := host_graphql two_pairs_host;
     host_new_Octokit := host_new_Octokit two_pairs_host;
     host_octokit_context_repo := Throw no_context |}.

(** Git shows the file as modified once it is staged. *)
Definition modified (command : list N) : ExecOutput :=
  {| stdout := if Js.eqb command (Js.lit "git status --porcelain")
               then Js.lit "M  README.md" ++ [Js.LF]
               else [];
     stderr := [] |}.

Definition modified_host : Host :=
  host (markers default_start default_end "true") two_tiers (always two_pairs)
       (fun command _ => Ok (modified command)) (Ok tt).

(** A pattern that finds nothing in that file. *)
Definition stale_pattern : RegExp := regexp_of (lits (Js.lit "<!-- supporters -->")).

(** The same host with another answer of [fetch]. *)
Definition with_fetch (answer : outcome Response) (h : Host) : Host :=
  {| host_env := host_env h;
     host_stack := host_stack h;
     host_yaml_load := host_yaml_load h;
     host_JSON_parse := host_JSON_parse h;
     host_JSON_stringify := host_JSON_stringify h;
     host_stringify_error := host_stringify_error h;
     host_RegExp := host_RegExp h;
     host_binding := host_binding h;
     host_fetch := fun _ _ => answer;
     host_exec := host_exec h;
     host_readFile := host_readFile h;
     host_writeFile := host_writeFile h;
     host_pulls_list := host_pulls_list h;
     host_pulls_create := host_pulls_create h;
     host_graphql := host_graphql h;
     host_new_Octokit := host_new_Octokit h;
     host_octokit_context_repo := host_octokit_context_repo h |}.

(** The roster endpoint answers 404. *)
Definition not_found_host : Host :=
  with_fetch (Ok {| ok := false; status := 404; json := Ok VNull |}) two_pairs_host.

(** The roster is [null]. *)
Definition null_roster_host : Host :=
  host (markers default_start default_end "true") VNull (always two_pairs) calm (Ok tt).

(** A tier whose [members] is not an array. *)
Definition broken_tiers : list Value :=
  [tier (Js.lit "Tier 1") [member (Js.lit "A")];
   VObj [(Js.lit "name", VStr (Js.lit "Tier 2")); (Js.lit "members", VStr (Js.lit "B"))]].

Definition broken_tier_host : Host :=
  host (markers default_start default_end "true") (roster broken_tiers)
       (always two_pairs) calm (Ok tt).

(** A last tier with a member that has no name, and one whose name is
    [null]. *)
Definition patchy_members : list Value :=
  [member (Js.lit "A"); VObj [(Js.lit "id", VNum (Js.lit "7"))];
   VObj [(Js.lit "name", VNull)]; member (Js.lit "B")].

(** A last tier with [null] among its members. *)
Definition null_member_tiers : list Value :=
  [tier (Js.lit "Tier 1") [member (Js.lit "A")];
   tier (Js.lit "Tier 2") [member (Js.lit "B"); VNull]].

Definition null_member_host : Host :=
  host (markers default_start default_end "true") (roster null_member_tiers)
       (always two_pairs) calm (Ok tt).

(** The flag is off and the file has no markers. *)
Definition lenient_host : Host :=
  host (markers default_start default_end "false") two_tiers
       (always unmarked_text) calm (Ok tt).

(** A pull request is already open. *)
Definition open_pr : PullRequest :=
  {| node_id := Js.lit "PR_7"; html_url := Js.lit "https://example.test/pull/7" |}.

Definition reconciled_host : Host :=
  {| host_env := host_env two_pairs_host;
     host_stack := host_stack two_pairs_host;
     host_yaml_load := host_yaml_load two_pairs_host;
     host_JSON_parse := host_JSON_parse two_pairs_host;
     host_JSON_stringify := host_JSON_stringify two_pairs_host;
     host_stringify_error := host_stringify_error two_pairs_host;
     host_RegExp := host_RegExp two_pairs_host;
     host_binding := host_binding two_pairs_host;
     host_fetch := host_fetch two_pairs_host;
     host_exec := host_exec two_pairs_host;
     host_readFile := host_readFile two_pairs_host;
     host_writeFile := host_writeFile two_pairs_host;
     host_pulls_list := fun _ _ _ _ => Ok [open_pr];
     host_pulls_create := host_pulls_create two_pairs_host;
     host_graphql := host_graphql two_pairs_host;
     host_new_Octokit := host_new_Octokit two_pairs_host;
     host_octokit_context_repo := host_octokit_context_repo two_pairs_host |}.

(** A start marker with a plus sign. *)
Definition plus_text : list N :=
  Js.lit "<!-- patrons+start --> old <!-- patrons-end -->".

Definition plus_host : Host :=
  host (markers "<!-- patrons+start -->" "<!-- patrons-end -->" "true") two_tiers
       (always plus_text) calm (Ok tt).

End Example.

(** No code unit of [s] is a line feed. *)
Definition single_line (s : list N) : bool :=
  forallb (fun c => negb (c =? Js.LF)) s.

(** What stands between the two markers after a substitution. *)
Definition body_of (names : list N) : list N :=
  [Js.LF; Js.LF] ++ names ++ [Js.LF; Js.LF].

(** ** What a trace shows *)

Definition is_SetFailed (ev : Event) : bool :=
  match ev with SetFailed _ => true | _ => false end.

Definition is_WriteFile (ev : Event) : bool :=
  match ev with WriteFile _ _ => true | _ => false end.

Definition is_PullsCreate (ev : Event) : bool :=
  match ev with PullsCreate _ _ _ _ _ _ => true | _ => false end.

Definition is_EnableAutoMerge (ev : Event) : bool :=
  match ev with EnableAutoMerge _ _ => true | _ => false end.

Definition is_Exec (command : list N) (ev : Event) : bool :=
  match ev with Exec c => Js.eqb c command | _ => false end.

(** The run was marked as failed. *)
Definition failed (t : Trace) : bool := existsb is_SetFailed t.

(** The command was run. *)
Definition ran (command : list N) (t : Trace) : bool := existsb (is_Exec command) t.

Definition porcelain : list N := Js.lit "git status --porcelain".

Definition members_of_undefined : list N :=
  Js.lit "Cannot read properties of undefined (reading 'members')".

(** ** Reasoning about any run *)

(** Run from [t], the computation [m] only appends events to the trace,
    and [Q] holds of its result and of the events appended. *)
Definition post {A} (m : M A) (t : Trace) (Q : outcome A -> list Event -> Prop) : Prop :=
  exists events, snd (m t) = t ++ events /\ Q (fst (m t)) events.

(** None of the events satisfies [p]. *)
Definition none (p : Event -> bool) (events : list Event) : Prop :=
  existsb p events = false.

(** All of the events satisfy [p]. *)
Definition only (p : Event -> bool) (events : list Event) : Prop :=
  forallb p events = true.

(** The events of the loop over the files: reading, writing, logging. *)
Definition is_file_event (ev : Event) : bool :=
  match ev with
  | ReadFile _ | WriteFile _ _ | Debug _ | Info _ | Warning _ | ErrorLog _
  | ConsoleLog _ | ConsoleError _ => true
  | _ => false
  end.

(** The events mark no failure, and show the enabling of auto-merge only
    in a run that ends well. *)
Definition quiet_unless_done (r : outcome unit) (events : list Event) : Prop :=
  none is_SetFailed events /\ (r = Ok tt \/ none is_EnableAutoMerge events).

(** The staging status, asked at some point, showed pending changes. *)
Definition pending_reported (h : Host) : Prop :=
  exists t0 out, host_exec h porcelain t0 = Ok out /\ Js.trim (stdout out) <> [].

(** The commit was attempted only if the staging status showed pending
    changes. *)
Definition commit_needs_pending (h : Host) (events : list Event) : Prop :=
  ran git_commit events = true -> pending_reported h.

(** ** Further vocabulary for the statements about the whole script *)

(** The string handed to [yaml.load] or [JSON.parse]:
    [core.getInput("files-to-update") || "[]"]. *)
Definition files_input (h : Host) : list N :=
  or_else (getInput h (Js.lit "files-to-update")) (Js.lit "[]").

(** The test on the parsed list of files:
    [!Array.isArray(filesToUpdate) || filesToUpdate.length === 0]. *)
Definition no_files (filesToUpdate : Value) : bool :=
  negb (isArray filesToUpdate) || (length (elements filesToUpdate) =? 0)%nat.

Definition no_files_message : list N := Js.lit "No files specified in 'files-to-update'.".

Definition bad_tiers_message : list N := Js.lit "Supporter tiers are missing or malformed.".

Definition bad_data_message : list N := Js.lit "Supporter data is missing or malformed.".

(** The tier has a [members] property that is an array. *)
Definition has_members (h : Host) (tier : Value) : Prop :=
  exists members, Get h tier (Js.lit "members") = Ok (VArr members).

(** What a member contributes to the joined names: its [name] when that
    is a string, nothing when the property is missing or [null]. *)
Definition name_piece (h : Host) (member : Value) (piece : list N) : Prop :=
  Get h member (Js.lit "name") = Ok (VStr piece)
  \/ (piece = [] /\ (Get h member (Js.lit "name") = Ok VUndefined
                     \/ Get h member (Js.lit "name") = Ok VNull)).

Definition name_of_null : list N :=
  Js.lit "Cannot read properties of null (reading 'name')".

(** A line of the log, on either channel. *)
Definition is_log (ev : Event) : bool :=
  match ev with
  | Debug _ | Info _ | Warning _ | ErrorLog _ | ConsoleLog _ | ConsoleError _ => true
  | _ => false
  end.

Definition is_Fetch (ev : Event) : bool :=
  match ev with Fetch _ => true | _ => false end.

(** Logging and the request for the roster: nothing that touches the
    working tree, git or the pull requests. *)
Definition is_harmless (ev : Event) : bool := is_log ev || is_Fetch ev.

(** The list of files is in order for both parsers: a non-empty array. *)
Definition files_given (h : Host) (filesToUpdate : list Value) : Prop :=
  filesToUpdate <> []
  /\ host_yaml_load h (files_input h) = Ok (VArr filesToUpdate)
  /\ host_JSON_parse h (files_input h) = Ok (VArr filesToUpdate).

Definition http_message (res : Response) : list N :=
  Js.lit "HTTP " ++ Js.of_N (status res).

(** What [main] does once the roster has passed its checks, by variant. *)
Definition V1_rest (h : Host) (filesToUpdate tiers : list Value) : M unit :=
  let lastTier := lastTier_of tiers in
  names <- lift (names_of h lastTier) ;;
  let replacement := replacement_of h names in
  pattern <- lift (new_RegExp h (pattern_source h)) ;;
  V1.setupGitBranch h (BRANCH_NAME (CONFIG h)) ;;
  changesMade <- V1.process_files h pattern replacement false filesToUpdate ;;
  if changesMade then
    let gitEmail := or_else (getInput h (Js.lit "git-email")) (Js.lit "actions@github.com") in
    V1.execAsync h git_config_user_name ;;
    V1.execAsync h (git_config_user_email gitEmail) ;;
    V1.execAsync h (Js.lit "git add .") ;;
    V1.execAsync h git_commit ;;
    V1.execAsync h (Js.lit "git push -f origin " ++ BRANCH_NAME (CONFIG h)) ;;
    lift (host_new_Octokit h) ;;
    let owner := repository_part h 0 in
    let repo := repository_part h 1 in
    V1.createOrUpdatePR h (BRANCH_NAME (CONFIG h)) owner repo
  else
    core_info (Js.lit "No changes detected. Skipping pull request creation.").

Definition V2_rest (h : Host) (filesToUpdate tiers : list Value) : M unit :=
  let lastTier := lastTier_of tiers in
  names <- lift (names_of h lastTier) ;;
  let replacement := replacement_of h names in
  pattern <- lift (new_RegExp h (pattern_source h)) ;;
  V2.setupGitBranch h (BRANCH_NAME (CONFIG h)) ;;
  changesMade <- V2.process_files h pattern replacement false filesToUpdate ;;
  if changesMade then
    let gitEmail := or_else (getInput h (Js.lit "git-email")) (Js.lit "actions@github.com") in
    core_info (Js.lit "Setting up git configuration with email: " ++ gitEmail) ;;
    V2.execAsync h git_config_user_name ;;
    V2.execAsync h (git_config_user_email gitEmail) ;;
    statusBefore <- V2.execAsync h (Js.lit "git status") ;;
    core_debug (Js.lit "Git status before add: " ++ stdout statusBefore) ;;
    V2.execAsync h (Js.lit "git add .") ;;
    porcelain <- V2.execAsync h (Js.lit "git status --porcelain") ;;
    let porcelainStatus := stdout porcelain in
    core_debug (Js.lit "Git porcelain status: " ++ porcelainStatus) ;;
    match Js.trim porcelainStatus with
    | [] => core_info (Js.lit "No changes to commit, skipping commit and push operations")
    | _ =>
        V2.commit_push_pr h porcelainStatus ;;
        core_info (Js.lit "Process completed successfully")
    end
  else
    core_info (Js.lit "No changes detected. Skipping pull request creation.") ;;
    core_info (Js.lit "Process completed successfully").

Definition V3_rest (h : Host) (filesToUpdate tiers : list Value) : M unit :=
  let lastTier := lastTier_of tiers in
  names <- lift (names_of h lastTier) ;;
  let replacement := replacement_of h names in
  pattern <- lift (new_RegExp h (pattern_source h)) ;;
  V3.setupGitBranch h (BRANCH_NAME (CONFIG h)) ;;
  changesMade <- V3.process_files h pattern replacement false filesToUpdate ;;
  if changesMade then
    let gitEmail := or_else (getInput h (Js.lit "git-email")) (Js.lit "actions@github.com") in
    V3.execAsync h git_config_user_name ;;
    V3.execAsync h (git_config_user_email gitEmail) ;;
    V3.execAsync h (Js.lit "git add .") ;;
    V3.execAsync h git_commit ;;
    V3.execAsync h (Js.lit "git push origin " ++ BRANCH_NAME (CONFIG h)) ;;
    lift (host_new_Octokit h) ;;
    V3.createOrUpdatePR h (BRANCH_NAME (CONFIG h))
  else
    console_log (Js.lit "No changes detected. Skipping pull request creation.").

(** The error, if any, that the request for the roster ends in: a
    rejected request, a status outside 200-299, a body that is not JSON. *)
Definition fetch_failure (h : Host) (answer : outcome Response) : option JsError :=
  match answer with
  | Throw e => Some e
  | Ok res =>
      if ok res then match json res with Throw e => Some e | Ok _ => None end
      else Some (new_Error h (http_message res))
  end.

(** The endpoint answers every request for the roster with [answer]. *)
Definition roster_answer (h : Host) (answer : outcome Response) : Prop :=
  forall t, host_fetch h (JSON_URL (CONFIG h)) t = answer.

(** The endpoint serves [data] as the roster. *)
Definition roster_served (h : Host) (data : Value) : Prop :=
  exists res, roster_answer h (Ok res) /\ ok res = true /\ json res = Ok data.

(** What the loop over the files may write: to a listed file, a
    non-empty text that is the result of [replace] on a text the file was
    read as, that text having passed the guard on the markers. *)
Definition write_of (h : Host) (pattern : RegExp) (replacement : list N)
    (filesToUpdate : list Value) (ev : Event) : Prop :=
  match ev with
  | WriteFile filePath content =>
      In filePath filesToUpdate
      /\ content <> []
      /\ exists text t0,
           host_readFile h filePath t0 = Ok text
           /\ markers_not_found h text = false
           /\ content = String_replace text pattern replacement
  | _ => True
  end.

Definition is_ReadFile (ev : Event) : bool :=
  match ev with ReadFile _ => true | _ => false end.

(** The loop ran to its end, and read each file once, in order. *)
Definition read_each_once (filesToUpdate : list Value) (r : outcome bool)
    (events : list Event) : Prop :=
  (exists changesMade, r = Ok changesMade)
  /\ filter is_ReadFile events = map ReadFile filesToUpdate.

(** ** The course of a run *)

Definition is_file_access (ev : Event) : bool :=
  match ev with ReadFile _ | WriteFile _ _ => true | _ => false end.

(** What a run reports: the log, and the mark of failure. *)
Definition is_report (ev : Event) : bool := is_log ev || is_SetFailed ev.

(** A script is the course a run is to follow: steps, and the place of
    the loop over the files. *)
Inductive slot :=
| Step (ev : Event)
| Loop.

(** The events follow the script, as far as they go.  Reports aside,
    each event is the next step of the script; files are read and written
    only where the script has its loop; and the step after the loop is
    taken only when the loop has written a file. *)
Fixpoint accepts (script : list slot) (wrote : bool) (events : list Event) : Prop :=
  match events with
  | [] => True
  | ev :: rest =>
      if is_report ev then accepts script wrote rest
      else if is_file_access ev then
        match script with
        | Loop :: _ => accepts script (wrote || is_WriteFile ev) rest
        | _ => False
        end
      else
        match script with
        | Step e :: script' => ev = e /\ accepts script' wrote rest
        | Loop :: Step e :: script' => wrote = true /\ ev = e /\ accepts script' wrote rest
        | _ => False
        end
  end.

Definition git_email (h : Host) : list N :=
  or_else (getInput h (Js.lit "git-email")) (Js.lit "actions@github.com").

(** The string form of a value that has one. *)
Definition text_of (h : Host) (v : Value) : list N :=
  match ToString h v with Ok s => s | Throw _ => [] end.

(** What follows the push in variants 1 and 2. *)
Definition pull_request_steps (h : Host) (pr : PullRequest) : list slot :=
  let owner := repository_part h 0 in
  let repo := repository_part h 1 in
  [Step (PullsList owner repo
           (text_of h owner ++ Js.lit ":" ++ BRANCH_NAME (CONFIG h)));
   Step (PullsCreate owner repo (BRANCH_NAME (CONFIG h)) (Js.lit "main")
           (Js.lit "Update supporters list")
           (Js.lit "This PR updates the supporters list."));
   Step (EnableAutoMerge (node_id pr) (Js.lit "MERGE"))].

(** The course of variant 1. *)
Definition V1_script (h : Host) (pr : PullRequest) : list slot :=
  [Step (Fetch (JSON_URL (CONFIG h)));
   Step (Exec (Js.lit "git checkout -B " ++ BRANCH_NAME (CONFIG h)));
   Step (Exec (Js.lit "git reset --hard origin/main"));
   Loop;
   Step (Exec git_config_user_name);
   Step (Exec (git_config_user_email (git_email h)));
   Step (Exec (Js.lit "git add ."));
   Step (Exec git_commit);
   Step (Exec (Js.lit "git push -f origin " ++ BRANCH_NAME (CONFIG h)))]
  ++ pull_request_steps h pr.

(** The loop read and wrote files and reported; it ends with
    [changesMade] set only if it was set before or a file was written. *)
Definition loop_result (changesMade : bool) (r : outcome bool) (events : list Event)
  : Prop :=
  only is_file_event events
  /\ (r = Ok true -> changesMade = true \/ existsb is_WriteFile events = true).

(** A pull request to name where a run has created none. *)
Definition no_pr : PullRequest := {| node_id := []; html_url := [] |}.

(** The events of one step that reports before and after it. *)
Definition step_events (ev : Event) (events : list Event) : Prop :=
  exists before after,
    events = before ++ ev :: after /\ only is_report before /\ only is_report after.

(** The course of variant 2 up to the commit. *)
Definition V2_begin (h : Host) : list slot :=
  [Step (Fetch (JSON_URL (CONFIG h)));
   Step (Exec (Js.lit "git checkout -B " ++ BRANCH_NAME (CONFIG h)));
   Loop;
   Step (Exec git_config_user_name);
   Step (Exec (git_config_user_email (git_email h)));
   Step (Exec (Js.lit "git status"));
   Step (Exec (Js.lit "git add ."));
   Step (Exec porcelain);
   Step (Exec git_commit)].

(** After a commit that went well. *)
Definition V2_pushed (h : Host) (pr : PullRequest) : list slot :=
  V2_begin h
  ++ Step (Exec (Js.lit "git push -f origin " ++ BRANCH_NAME (CONFIG h)))
     :: pull_request_steps h pr.

(** After a commit that failed. *)
Definition V2_unstaged (h : Host) : list slot :=
  V2_begin h ++ [Step (Exec (Js.lit "git diff --staged --name-only"))].

(** The repository of variant 3: that of the client's context, if any. *)
Definition V3_repo (h : Host) : Value * Value :=
  match host_octokit_context_repo h with
  | Ok context_repo =>
      default (VStr (Js.lit "default-owner"), VStr (Js.lit "default-repo")) context_repo
  | Throw _ => (VStr (Js.lit "default-owner"), VStr (Js.lit "default-repo"))
  end.

(** The ways variant 3 reaches the branch: the branch exists and is
    pulled; or one of the three commands fails and the branch is created. *)
Definition V3_setups (h : Host) : list (list slot) :=
  let verify := Step (Exec (Js.lit "git rev-parse --verify " ++ BRANCH_NAME (CONFIG h))) in
  let checkout := Step (Exec (Js.lit "git checkout " ++ BRANCH_NAME (CONFIG h))) in
  let pull := Step (Exec (Js.lit "git pull origin " ++ BRANCH_NAME (CONFIG h))) in
  let create := Step (Exec (Js.lit "git checkout -b " ++ BRANCH_NAME (CONFIG h))) in
  [[verify; checkout; pull];
   [verify; create];
   [verify; checkout; create];
   [verify; checkout; pull; create]].

(** The course of variant 3, for one of these ways. *)
Definition V3_script (h : Host) (setup : list slot) : list slot :=
  Step (Fetch (JSON_URL (CONFIG h))) :: setup
  ++ [Loop;
      Step (Exec git_config_user_name);
      Step (Exec (git_config_user_email (git_email h)));
      Step (Exec (Js.lit "git add ."));
      Step (Exec git_commit);
      Step (Exec (Js.lit "git push origin " ++ BRANCH_NAME (CONFIG h)));
      Step (PullsList (fst (V3_repo h)) (snd (V3_repo h))
              (text_of h (fst (V3_repo h)) ++ Js.lit ":" ++ BRANCH_NAME (CONFIG h)));
      Step (PullsCreate (fst (V3_repo h)) (snd (V3_repo h)) (BRANCH_NAME (CONFIG h))
              (Js.lit "main") (Js.lit "Update supporters list")
              (Js.lit "This PR updates the supporters list."))].

(** ** A run in which everything answers well *)

(** The events of the loop on a file that is rewritten. *)
Definition file_events (log : list N -> Event) (p out : Value -> list N) (f : Value)
  : list Event :=
  [ReadFile f; WriteFile f (out f);
   log (Js.lit "Updated " ++ p f ++ Js.lit " with supporter names.")].

(** Git, the file system and the API answer well: every command ends
    with some output, every write succeeds, no pull request is open, the
    creation answers [pr], auto-merge is granted. *)
Definition cooperative (h : Host) (pr : PullRequest) : Prop :=
  (exists output, forall command t, host_exec h command t = Ok (output command))
  /\ (forall f content t, host_writeFile h f content t = Ok tt)
  /\ host_new_Octokit h = Ok tt
  /\ (forall owner repo head t, host_pulls_list h owner repo head t = Ok [])
  /\ (forall owner repo head t, host_pulls_create h owner repo head t = Ok pr)
  /\ (forall id method t, host_graphql h id method t = Ok tt).

(** The roster passes the checks and its last tier has members of the
    given names. *)
Definition names_served (h : Host) (data : Value) (names : list N) : Prop :=
  exists tiers lastTier name_list,
    tiers_of h data = Ok (VArr tiers)
    /\ Forall (has_members h) tiers
    /\ last tiers = Some lastTier
    /\ is_tier h lastTier name_list
    /\ names = Js.join separator name_list.

(** The markers are free of syntax characters. *)
Definition plain_markers (h : Host) : Prop :=
  plain (START_MARKER (CONFIG h)) = true
  /\ plain (END_MARKER (CONFIG h)) = true
  /\ END_MARKER (CONFIG h) <> [].

(** The file has the path [p f] and the text [text f], which passes the
    guard, and of which [out f] is the substitution as the specification
    words it. *)
Definition file_ready (h : Host) (names : list N) (p text out : Value -> list N)
    (f : Value) : Prop :=
  ToString h f = Ok (p f)
  /\ (forall t, host_readFile h f t = Ok (text f))
  /\ markers_not_found h (text f) = false
  /\ spec_substitute (START_MARKER (CONFIG h)) (END_MARKER (CONFIG h)) names (text f)
     = Some (out f).

(** The whole run of variant 1. *)
Definition V1_whole_run (h : Host) (files : list Value) (p out : Value -> list N)
    (pr : PullRequest) : list Event :=
  [Fetch (JSON_URL (CONFIG h));
   Exec (Js.lit "git checkout -B " ++ BRANCH_NAME (CONFIG h));
   Exec (Js.lit "git reset --hard origin/main")]
  ++ flat_map (file_events Info p out) files
  ++ [Exec git_config_user_name;
      Exec (git_config_user_email (git_email h));
      Exec (Js.lit "git add .");
      Exec git_commit;
      Exec (Js.lit "git push -f origin " ++ BRANCH_NAME (CONFIG h));
      PullsList (repository_part h 0) (repository_part h 1)
        (text_of h (repository_part h 0) ++ Js.lit ":" ++ BRANCH_NAME (CONFIG h));
      PullsCreate (repository_part h 0) (repository_part h 1) (BRANCH_NAME (CONFIG h))
        (Js.lit "main") (Js.lit "Update supporters list")
        (Js.lit "This PR updates the supporters list.");
      EnableAutoMerge (node_id pr) (Js.lit "MERGE");
      Info (Js.lit "Auto-merge enabled for PR: " ++ html_url pr);
      Info (Js.lit "Pull request created: " ++ html_url pr)].

(** A run of variant 3 that goes well, up to the push. *)
Definition V3_up_to_the_push (h : Host) (files : list Value)
    (p out : Value -> list N) : list Event :=
  [Fetch (JSON_URL (CONFIG h));
   Exec (Js.lit "git rev-parse --verify " ++ BRANCH_NAME (CONFIG h));
   Exec (Js.lit "git checkout " ++ BRANCH_NAME (CONFIG h));
   Exec (Js.lit "git pull origin " ++ BRANCH_NAME (CONFIG h))]
  ++ flat_map (file_events ConsoleLog p out) files
  ++ [Exec git_config_user_name;
      Exec (git_config_user_email (git_email h));
      Exec (Js.lit "git add .");
      Exec git_commit;
      Exec (Js.lit "git push origin " ++ BRANCH_NAME (CONFIG h))].

(** Git answers every command with the output [output] gives it. *)
Definition git_answers (h : Host) (output : list N -> ExecOutput) : Prop :=
  forall command t, host_exec h command t = Ok (output command).

(** What variant 2 records of a command that went well. *)
Definition V2_exec_log (output : list N -> ExecOutput) (command : list N) : list Event :=
  [Debug (Js.lit "Executing: " ++ command);
   Exec command;
   Debug (Js.lit "Command stdout: " ++ Js.trim (stdout (output command)))]
  ++ match stderr (output command) with
     | [] => []
     | _ => [Debug (Js.lit "Command stderr: " ++ Js.trim (stderr (output command)))]
     end.

(** The events of the loop of variant 2 on a file that is rewritten. *)
Definition V2_file_events (h : Host) (p text out : Value -> list N) (f : Value)
  : list Event :=
  [Info (Js.lit "Processing file: " ++ p f);
   Debug (Js.lit "Reading file: " ++ p f);
   ReadFile f;
   Debug (Js.lit "Markers - start: "
          ++ Js.of_Z (Js.indexOf (text f) (START_MARKER (CONFIG h)))
          ++ Js.lit ", end: "
          ++ Js.of_Z (Js.indexOf (text f) (END_MARKER (CONFIG h))));
   WriteFile f (out f);
   Info (Js.lit "Updated " ++ p f ++ Js.lit " with supporter names.")].

(** How a run of variant 2 opens, up to the loop over the files. *)
Definition V2_opening (h : Host) (output : list N -> ExecOutput)
    (files : list Value) (data : Value) : list Event :=
  let branch := BRANCH_NAME (CONFIG h) in
  [Info (Js.lit "Starting patron update process");
   Debug (Js.lit "Environment: "
          ++ V2.stringify h (match host_env h !! Js.lit "GITHUB_REPOSITORY" with
                             | Some r => VStr r
                             | None => VUndefined
                             end));
   Debug (Js.lit "Files to update: " ++ V2.stringify h (VArr files));
   Debug (Js.lit "Fetching supporter data from: " ++ JSON_URL (CONFIG h));
   Fetch (JSON_URL (CONFIG h));
   Debug (Js.lit "Received supporter data: "
          ++ take 200 (host_JSON_stringify h data) ++ Js.lit "...");
   Info (Js.lit "Setting up git branch: " ++ branch)]
  ++ V2_exec_log output (Js.lit "git checkout -B " ++ branch)
  ++ [Info (Js.lit "Successfully checked out branch: " ++ branch)].

(** The whole run of variant 2, with what it logs. *)
Definition V2_whole_run (h : Host) (output : list N -> ExecOutput)
    (files : list Value) (data : Value) (p text out : Value -> list N)
    (pr : PullRequest) : list Event :=
  let branch := BRANCH_NAME (CONFIG h) in
  let owner := repository_part h 0 in
  let repo := repository_part h 1 in
  let o := text_of h owner in
  let r := text_of h repo in
  V2_opening h output files data
  ++ flat_map (V2_file_events h p text out) files
  ++ [Info (Js.lit "Setting up git configuration with email: " ++ git_email h)]
  ++ V2_exec_log output git_config_user_name
  ++ V2_exec_log output (git_config_user_email (git_email h))
  ++ V2_exec_log output (Js.lit "git status")
  ++ [Debug (Js.lit "Git status before add: "
             ++ stdout (output (Js.lit "git status")))]
  ++ V2_exec_log output (Js.lit "git add .")
  ++ V2_exec_log output porcelain
  ++ [Debug (Js.lit "Git porcelain status: " ++ stdout (output porcelain));
      Info (Js.lit "Changes detected: "
            ++ Js.of_nat (length (Js.split Js.LF (stdout (output porcelain))))
            ++ Js.lit " files modified");
      Info (Js.lit "Attempting to commit changes")]
  ++ V2_exec_log output git_commit
  ++ [Info (Js.lit "Commit successful");
      Info (Js.lit "Pushing to remote branch: " ++ branch)]
  ++ V2_exec_log output (Js.lit "git push -f origin " ++ branch)
  ++ [Info (Js.lit "Push successful");
      Debug (Js.lit "Repository: " ++ o ++ Js.lit "/" ++ r);
      Info (Js.lit "Creating/updating PR for branch " ++ branch
            ++ Js.lit " in " ++ o ++ Js.lit "/" ++ r);
      PullsList owner repo (o ++ Js.lit ":" ++ branch);
      Debug (Js.lit "Found " ++ Js.of_nat 0 ++ Js.lit " existing PRs");
      Info (Js.lit "Creating new PR for branch " ++ branch);
      PullsCreate owner repo branch (Js.lit "main")
        (Js.lit "Update supporters list")
        (Js.lit "This PR updates the supporters list.");
      Debug (Js.lit "Enabling auto-merge for PR ID: " ++ node_id pr);
      EnableAutoMerge (node_id pr) (Js.lit "MERGE");
      Info (Js.lit "Auto-merge enabled for PR: " ++ html_url pr);
      Info (Js.lit "Pull request created: " ++ html_url pr);
      Info (Js.lit "Process completed successfully")].

(** ** A run that finds no file to change *)




(** * Properties *)

(** ** Strings: prefixes and first occurrences *)

Section StringFacts.

Lemma eqb_eq (a b : list N) : Js.eqb a b = true <-> a = b.
Proof.
  revert b; induction a as [|x a IH]; intros [|y b]; simpl; split; try done.
  - intros [Hxy Hab]%andb_true_iff. apply N.eqb_eq in Hxy. apply IH in Hab.
    by subst.
  - intros [= -> ->]. rewrite N.eqb_refl. by apply IH.
Qed.

Lemma eqb_refl (a : list N) : Js.eqb a a = true.
Proof. by apply eqb_eq. Qed.

Lemma starts_with_spec (p s : list N) :
  Js.starts_with p s = true <-> exists r, s = p ++ r.
Proof.
  revert s; induction p as [|x p IH]; intros s; simpl.
  - split; [intros _; by exists s | done].
  - destruct s as [|y s].
    + split; [done | intros [r Hr]; discriminate].
    + rewrite andb_true_iff, N.eqb_eq, IH. split.
      * intros [-> [r ->]]. by exists r.
      * intros [r [= -> ->]]. split; [done | by exists r].
Qed.

Lemma starts_with_app (p r : list N) : Js.starts_with p (p ++ r) = true.
Proof. apply starts_with_spec. by exists r. Qed.

Lemma starts_with_length (p s : list N) :
  Js.starts_with p s = true -> (length p <= length s)%nat.
Proof. intros [r ->]%starts_with_spec. rewrite length_app. lia. Qed.

(** Whether [p] starts [s] is decided by the first [length p] code units. *)
Lemma starts_with_take (p s : list N) :
  Js.starts_with p (take (length p) s) = Js.starts_with p s.
Proof.
  revert s; induction p as [|x p IH]; intros [|y s]; simpl; try done.
  by rewrite IH.
Qed.

Lemma starts_with_agree (p s1 s2 : list N) (j n : nat) :
  take n s1 = take n s2 -> (j + length p <= n)%nat ->
  Js.starts_with p (drop j s1) = Js.starts_with p (drop j s2).
Proof.
  intros Heq Hle.
  rewrite <- (starts_with_take p (drop j s1)), <- (starts_with_take p (drop j s2)).
  f_equal.
  rewrite !take_drop_commute.
  f_equal.
  replace (j + length p)%nat with (Nat.min (j + length p) n) by lia.
  by rewrite <- !take_take, Heq.
Qed.

Lemma find_index_bound (p s : list N) (i : nat) :
  Js.find_index p s = Some i -> (i + length p <= length s)%nat.
Proof.
  revert i; induction s as [|c s IH]; intros i; simpl.
  - destruct (Js.starts_with p []) eqn:E; [|done].
    intros [= <-]. apply starts_with_length in E. simpl in *. lia.
  - destruct (Js.starts_with p (c :: s)) eqn:E.
    + intros [= <-]. apply starts_with_length in E. simpl in *. lia.
    + destruct (Js.find_index p s) as [k|]; simpl; [|done].
      intros [= <-]. specialize (IH k eq_refl). lia.
Qed.

Lemma find_index_Some (p s : list N) (i : nat) :
  Js.find_index p s = Some i <->
  Js.starts_with p (drop i s) = true /\ (i <= length s)%nat /\
  forall j, (j < i)%nat -> Js.starts_with p (drop j s) = false.
Proof.
  revert i; induction s as [|c s IH]; intros i.
  - simpl. destruct (Js.starts_with p []) eqn:E.
    + split.
      * intros [= <-]. simpl. repeat split; [done | lia | lia].
      * intros (_ & Hi & _). simpl in Hi. by replace i with 0%nat by lia.
    + split; [done|]. intros (H1 & _ & _). rewrite drop_nil in H1. congruence.
  - cbn [Js.find_index]. destruct (Js.starts_with p (c :: s)) eqn:E.
    + split.
      * intros [= <-]. simpl. repeat split; [done | lia | lia].
      * intros (_ & _ & Hj). destruct i as [|i]; [done|].
        specialize (Hj 0%nat ltac:(lia)). simpl in Hj. congruence.
    + destruct i as [|i].
      * split.
        -- destruct (Js.find_index p s); done.
        -- intros (H1 & _). simpl in H1. congruence.
      * specialize (IH i). split.
        -- destruct (Js.find_index p s) as [k|] eqn:Ek; simpl; [|done].
           intros [= ->]. destruct IH as [IH _]. specialize (IH eq_refl).
           destruct IH as (H1 & H2 & H3). simpl. repeat split; [done | lia |].
           intros [|j] Hj; simpl; [done | apply H3; lia].
        -- intros (H1 & H2 & H3). simpl in H1, H2.
           destruct IH as [_ IH]. rewrite IH; [done|].
           repeat split; [done | lia |].
           intros j Hj. apply (H3 (S j)). lia.
Qed.

(** An occurrence somewhere gives a first occurrence no later. *)
Lemma find_index_exists (p s : list N) (i : nat) :
  Js.starts_with p (drop i s) = true -> (i <= length s)%nat ->
  exists j, Js.find_index p s = Some j /\ (j <= i)%nat.
Proof.
  revert i; induction s as [|c s IH]; intros i H Hi.
  - simpl in Hi. replace i with 0%nat in H by lia. simpl in *. rewrite H.
    exists 0%nat. split; [done | lia].
  - cbn [Js.find_index]. destruct (Js.starts_with p (c :: s)) eqn:E.
    + exists 0%nat. split; [done | lia].
    + destruct i as [|i]; [simpl in H; congruence|].
      simpl in H, Hi. destruct (IH i H ltac:(lia)) as (j & -> & Hj).
      exists (S j). split; [done | lia].
Qed.

Lemma find_index_None (p s : list N) (i : nat) :
  Js.find_index p s = None -> (i <= length s)%nat ->
  Js.starts_with p (drop i s) = false.
Proof.
  intros Hn Hi. destruct (Js.starts_with p (drop i s)) eqn:E; [|done].
  destruct (find_index_exists p s i E Hi) as (j & Hj & _). congruence.
Qed.

End StringFacts.

(** ** The pattern language on plain markers *)

Section PatternFacts.

Lemma plain_cons (c : N) (s : list N) :
  plain (c :: s) = true -> Re.is_syntax_char c = false /\ plain s = true.
Proof.
  unfold plain; simpl. intros [H1 H2]%andb_true_iff.
  by apply negb_true_iff in H1.
Qed.

Lemma step_plain (st : Re.pstate) (c : N) :
  Re.p_mode st = Re.MNormal -> Re.is_syntax_char c = false ->
  Re.step st c = Some (Re.PState (Re.flush st) (Re.PAtom (Re.CsChar c)) Re.MNormal).
Proof.
  intros Hm Hc. unfold Re.step, Re.quant_of, Re.atom. rewrite Hm, Hc.
  repeat (match goal with
          | |- context [c =? ?k] => destruct (N.eqb_spec c k) as [->|]
          end; try (vm_compute in Hc; discriminate)).
  done.
Qed.

Lemma run_app (st : Re.pstate) (a b : list N) :
  Re.run st (a ++ b) =
  match Re.run st a with Some st' => Re.run st' b | None => None end.
Proof.
  revert st; induction a as [|c a IH]; intros st; simpl; [done|].
  destruct (Re.step st c); [apply IH | done].
Qed.

Lemma st_terms_flush (st : Re.pstate) (p : Re.pend) (m : Re.pmode) :
  Re.st_terms (Re.PState (Re.flush st) p m) = Re.st_terms st ++ Re.pend_terms p.
Proof.
  unfold Re.st_terms, Re.flush. simpl. by rewrite rev_app_distr, rev_involutive.
Qed.

Lemma run_plain (s : list N) (st : Re.pstate) :
  Re.p_mode st = Re.MNormal -> plain s = true ->
  exists st', Re.run st s = Some st' /\ Re.p_mode st' = Re.MNormal
              /\ Re.st_terms st' = Re.st_terms st ++ lits s.
Proof.
  revert st; induction s as [|c s IH]; intros st Hm Hp.
  - exists st. simpl. by rewrite app_nil_r.
  - apply plain_cons in Hp as [Hc Hp]. simpl. rewrite (step_plain st c Hm Hc).
    destruct (IH (Re.PState (Re.flush st) (Re.PAtom (Re.CsChar c)) Re.MNormal)
                eq_refl Hp) as (st' & Hrun & Hm' & Ht).
    exists st'. repeat split; [done | done |].
    rewrite Ht, st_terms_flush. simpl. by rewrite <- app_assoc.
Qed.

Lemma run_gap (st : Re.pstate) :
  Re.p_mode st = Re.MNormal ->
  exists st', Re.run st (Js.lit "\s*[\s\S]*?\s*") = Some st'
              /\ Re.p_mode st' = Re.MNormal
              /\ Re.st_terms st' = Re.st_terms st ++ gap_terms.
Proof.
  destruct st as [done pend mode]. simpl. intros ->.
  eexists. split; [reflexivity|]. split; [reflexivity|].
  unfold Re.st_terms, Re.flush, gap_terms, ws, any. simpl.
  rewrite rev_app_distr, rev_involutive. by rewrite <- !app_assoc.
Qed.

(** The pattern source of two plain markers reads as the start marker,
    optional white space, a lazy run of anything, optional white space,
    and the end marker. *)
Lemma parse_pattern (a b : list N) :
  plain a = true -> plain b = true ->
  Re.parse (a ++ Js.lit "\s*[\s\S]*?\s*" ++ b) = Some (lits a ++ gap_terms ++ lits b).
Proof.
  intros Ha Hb. unfold Re.parse.
  destruct (run_plain a (Re.PState [] Re.PNone Re.MNormal) eq_refl Ha)
    as (s1 & H1 & M1 & T1).
  destruct (run_gap s1 M1) as (s2 & H2 & M2 & T2).
  destruct (run_plain b s2 M2 Hb) as (s3 & H3 & M3 & T3).
  rewrite run_app, H1. cbv beta iota. rewrite run_app, H2. cbv beta iota.
  rewrite H3, M3, T3, T2, T1. simpl. by rewrite <- !app_assoc.
Qed.

Lemma match_lits (a : list N) (p : list Re.term) (s : list N) :
  Re.match_terms (lits a ++ p) s =
  if Js.starts_with a s
  then (fun n => length a + n)%nat <$> Re.match_terms p (drop (length a) s)
  else None.
Proof.
  revert s; induction a as [|c a IH]; intros s; simpl.
  - rewrite drop_0. by destruct (Re.match_terms p s).
  - unfold Re.term_match, Re.one; simpl. destruct s as [|y s]; [done|].
    rewrite (N.eqb_sym y c). destruct (c =? y); simpl; [|done].
    rewrite IH. destruct (Js.starts_with a s); [|done].
    destruct (Re.match_terms p (drop (length a) s)); reflexivity.
Qed.

Lemma match_lits_only (b s : list N) :
  Re.match_terms (lits b) s = if Js.starts_with b s then Some (length b) else None.
Proof.
  rewrite <- (app_nil_r (lits b)), match_lits. simpl.
  destruct (Js.starts_with b s); simpl; [f_equal; lia | done].
Qed.

Section Gap.

Variables (b : list N) (b0 : N) (b' : list N).
Hypothesis Hb : b = b0 :: b'.
Hypothesis Hb0 : Js.is_space b0 = false.
Local Abbreviation k0 := (Re.match_terms (lits b)).

Lemma not_at_space (c : N) (s : list N) :
  Js.is_space c = true -> Js.starts_with b (c :: s) = false.
Proof.
  intros Hc. rewrite Hb. simpl. destruct (N.eqb_spec b0 c) as [->|]; [congruence | done].
Qed.

Lemma after_cons (c : N) (s : list N) :
  Js.starts_with b (c :: s) = false -> after b (c :: s) = S <$> after b s.
Proof.
  intros H. unfold after. cbn [Js.find_index]. rewrite H.
  by destruct (Js.find_index b s).
Qed.

Lemma after_here (s : list N) :
  Js.starts_with b s = true -> after b s = Some (length b).
Proof.
  intros H. unfold after. destruct s; cbn [Js.find_index]; by rewrite H.
Qed.

Lemma tail_space (c : N) (s : list N) :
  Js.is_space c = true ->
  Re.star_greedy ws k0 (c :: s) = S <$> Re.star_greedy ws k0 s.
Proof.
  intros Hc. cbn [Re.star_greedy]. unfold ws at 1. simpl Re.cset_mem. rewrite Hc.
  destruct (Re.star_greedy ws k0 s); [done|].
  by rewrite match_lits_only, not_at_space.
Qed.

Lemma tail_other (c : N) (s : list N) :
  Js.is_space c = false -> Re.star_greedy ws k0 (c :: s) = k0 (c :: s).
Proof. intros Hc. cbn [Re.star_greedy]. unfold ws at 1. simpl Re.cset_mem. by rewrite Hc. Qed.

Lemma tail_Some (s : list N) (n : nat) :
  Re.star_greedy ws k0 s = Some n -> after b s = Some n.
Proof.
  revert n; induction s as [|c s IH]; intros n.
  - cbn [Re.star_greedy]. rewrite match_lits_only, Hb. done.
  - destruct (Js.is_space c) eqn:Hc.
    + rewrite tail_space by done.
      destruct (Re.star_greedy ws k0 s) as [m|]; [|done]. intros [= <-].
      rewrite after_cons by (by apply not_at_space). by rewrite (IH m).
    + rewrite tail_other by done. rewrite match_lits_only.
      destruct (Js.starts_with b (c :: s)) eqn:E; [|done]. intros [= <-].
      by apply after_here.
Qed.

Lemma tail_None (s : list N) :
  Re.star_greedy ws k0 s = None -> Js.starts_with b s = false.
Proof.
  destruct s as [|c s]; [by rewrite Hb|]. destruct (Js.is_space c) eqn:Hc.
  - intros _. by apply not_at_space.
  - rewrite tail_other by done. rewrite match_lits_only.
    by destruct (Js.starts_with b (c :: s)).
Qed.

Lemma lazy_after (s : list N) :
  Re.star_lazy any (Re.star_greedy ws k0) s = after b s.
Proof.
  induction s as [|c s IH]; cbn [Re.star_lazy].
  - cbn [Re.star_greedy]. rewrite match_lits_only, Hb. done.
  - destruct (Re.star_greedy ws k0 (c :: s)) as [n|] eqn:E.
    + symmetry. by apply tail_Some.
    + apply tail_None in E. rewrite after_cons by done.
      replace (Re.cset_mem any c) with true; [by rewrite IH|].
      unfold any. simpl. by destruct (Js.is_space c).
Qed.

Lemma gap_after (s : list N) :
  Re.match_terms (gap_terms ++ lits b) s = after b s.
Proof.
  change (Re.match_terms (gap_terms ++ lits b))
    with (Re.star_greedy ws (Re.star_lazy any (Re.star_greedy ws k0))).
  induction s as [|c s IH]; cbn [Re.star_greedy].
  - apply lazy_after.
  - unfold ws at 1. simpl Re.cset_mem. destruct (Js.is_space c) eqn:Hc.
    + rewrite IH, lazy_after, after_cons by (by apply not_at_space).
      by destruct (after b s).
    + apply lazy_after.
Qed.

End Gap.

Lemma exec_first (a b : list N) (b0 : N) (b' : list N) (s : list N) (i n o : nat) :
  b = b0 :: b' -> Js.is_space b0 = false ->
  Js.find_index a s = Some i ->
  after b (drop (i + length a) s) = Some n ->
  Re.exec_from (lits a ++ gap_terms ++ lits b) s o = Some (o + i, length a + n)%nat.
Proof.
  intros Hb Hb0. revert i o; induction s as [|c s IH]; intros i o Hi Hn.
  - simpl in Hi. destruct (Js.starts_with a []) eqn:E; [|done].
    injection Hi as <-. cbn [Re.exec_from].
    rewrite match_lits, E, (gap_after b b0 b' Hb Hb0).
    simpl in Hn. rewrite Hn. simpl. do 2 f_equal; lia.
  - cbn [Js.find_index] in Hi. cbn [Re.exec_from].
    rewrite match_lits, (gap_after b b0 b' Hb Hb0).
    destruct (Js.starts_with a (c :: s)) eqn:E.
    + injection Hi as <-. simpl in Hn. rewrite Hn. simpl. do 2 f_equal; lia.
    + destruct (Js.find_index a s) as [i'|] eqn:Ei; [|done].
      injection Hi as <-. simpl in Hn. rewrite (IH i' (S o) eq_refl Hn).
      do 2 f_equal; lia.
Qed.

Lemma expand_dollar_free (matched str : list N) (position : nat)
    (captures : list (option (list N)))
    (groups : option (list (list N * option (list N)))) (t : list N) :
  dollar_free t = true ->
  Subst.expand matched str position captures groups 0 t = t.
Proof.
  induction t as [|c t IH]; [done|].
  unfold dollar_free. simpl. intros [Hc Ht]%andb_true_iff.
  rewrite Hc. simpl. f_equal. by apply IH.
Qed.

(** On plain markers, with a template free of dollar signs, [replace]
    puts the template in place of the span from the first start marker
    through the first end marker after it. *)
Lemma replace_plain (a b : list N) (s repl : list N) (i k : nat) :
  b <> [] -> Js.is_space (default 0 (head b)) = false ->
  dollar_free repl = true ->
  Js.find_index a s = Some i ->
  Js.find_index b (drop (i + length a) s) = Some k ->
  String_replace s (regexp_of (lits a ++ gap_terms ++ lits b)) repl
  = take i s ++ repl ++ drop (i + length a + k + length b) s.
Proof.
  intros Hne Hb0 Hd Hi Hk. destruct b as [|b0 b']; [done|]. simpl in Hb0.
  pose proof (find_index_bound _ _ _ Hi) as Bi.
  pose proof (find_index_bound _ _ _ Hk) as Bk. rewrite length_drop in Bk.
  unfold String_replace, regexp_of. cbn [exec].
  rewrite (exec_first a (b0 :: b') b0 b' s i (k + length (b0 :: b')) 0 eq_refl Hb0 Hi)
    by (unfold after; by rewrite Hk).
  cbn [m_index m_matched m_captures m_groups Nat.add].
  rewrite Nat.min_l by lia.
  unfold Subst.GetSubstitution. rewrite expand_dollar_free by done.
  rewrite length_take, length_drop.
  do 3 f_equal. lia.
Qed.

End PatternFacts.

(** ** Inputs are trimmed *)

Section TrimFacts.

Lemma trimStart_head (s : list N) (c : N) (r : list N) :
  Js.trimStart s = c :: r -> Js.is_space c = false.
Proof.
  induction s as [|x s IH]; simpl; [done|].
  destruct (Js.is_space x) eqn:E; [done|]. by intros [= <- _].
Qed.

Lemma trimStart_suffix (s : list N) : exists w, s = w ++ Js.trimStart s.
Proof.
  induction s as [|x s [w IH]]; simpl; [by exists []|].
  destruct (Js.is_space x).
  - exists (x :: w). simpl. by f_equal.
  - by exists [].
Qed.

Lemma trim_head (s : list N) (c : N) :
  head (Js.trim s) = Some c -> Js.is_space c = false.
Proof.
  unfold Js.trim. set (u := Js.trimStart s).
  destruct (trimStart_suffix (rev u)) as [w Hw].
  set (v := Js.trimStart (rev u)) in *.
  assert (Hu : u = rev v ++ rev w).
  { rewrite <- (rev_involutive u), Hw. by rewrite rev_app_distr. }
  intros Hc. destruct (rev v) as [|x r] eqn:Ev; [done|].
  simpl in Hc. injection Hc as ->.
  simpl in Hu. by apply (trimStart_head s c (r ++ rev w)).
Qed.

Lemma input_head (h : Host) (name : list N) :
  getInput h name <> [] -> Js.is_space (default 0 (head (getInput h name))) = false.
Proof.
  intros Hne. unfold getInput in *.
  destruct (Js.trim _) as [|c r] eqn:E; [done|].
  simpl. apply (trim_head (default [] (host_env h !! input_env_name name))).
  by rewrite E.
Qed.

End TrimFacts.

(** ** Running the effects *)

Section MonadFacts.

Lemma bind_ask {A B} (ev : Event) (answer : Trace -> outcome A) (k : A -> M B)
    (t : Trace) (a : A) :
  answer (t ++ [ev]) = Ok a -> bind (ask ev answer) k t = k a (t ++ [ev]).
Proof. intros H. unfold bind, ask. by rewrite H. Qed.

Lemma bind_ask_throw {A B} (ev : Event) (answer : Trace -> outcome A) (k : A -> M B)
    (t : Trace) (e : JsError) :
  answer (t ++ [ev]) = Throw e -> bind (ask ev answer) k t = (Throw e, t ++ [ev]).
Proof. intros H. unfold bind, ask. by rewrite H. Qed.

Lemma bind_lift {A B} (o : outcome A) (k : A -> M B) (t : Trace) (a : A) :
  o = Ok a -> bind (lift o) k t = k a t.
Proof. by intros ->. Qed.

Lemma bind_emit {B} (ev : Event) (k : unit -> M B) (t : Trace) :
  bind (emit ev) k t = k tt (t ++ [ev]).
Proof. done. Qed.

End MonadFacts.

(** ** The substitution on plain markers *)

Section Substitution.

Lemma dollar_free_app (a b : list N) :
  dollar_free (a ++ b) = dollar_free a && dollar_free b.
Proof. unfold dollar_free. apply forallb_app. Qed.

Lemma plain_dollar_free (s : list N) : plain s = true -> dollar_free s = true.
Proof.
  induction s as [|c s IH]; [done|].
  intros [Hc Hs]%plain_cons. unfold dollar_free in *. simpl. rewrite IH by done.
  destruct (N.eqb_spec c Subst.dollar) as [->|]; [|done].
  vm_compute in Hc. done.
Qed.

Lemma replacement_dollar_free (h : Host) (names : list N) :
  plain (START_MARKER (CONFIG h)) = true -> plain (END_MARKER (CONFIG h)) = true ->
  dollar_free names = true -> dollar_free (replacement_of h names) = true.
Proof.
  intros Ha Hb Hn. unfold replacement_of. rewrite !dollar_free_app.
  rewrite (plain_dollar_free _ Ha), (plain_dollar_free _ Hb), Hn. done.
Qed.

Lemma guard_passes (h : Host) (text : list N) :
  markers_not_found h text = false ->
  exists i j, Js.find_index (START_MARKER (CONFIG h)) text = Some i
              /\ Js.find_index (END_MARKER (CONFIG h)) text = Some j
              /\ (i <= j)%nat.
Proof.
  unfold markers_not_found, Js.indexOf.
  destruct (Js.find_index (START_MARKER (CONFIG h)) text) as [i|]; [|done].
  destruct (Js.find_index (END_MARKER (CONFIG h)) text) as [j|];
    [|by rewrite orb_true_r].
  intros H. exists i, j. repeat split.
  apply orb_false_elim in H as [_ H]. lia.
Qed.

Lemma substituted_plain (h : Host) (filePath : Value) (names text out : list N)
    (t : Trace) :
  plain (START_MARKER (CONFIG h)) = true ->
  plain (END_MARKER (CONFIG h)) = true ->
  END_MARKER (CONFIG h) <> [] ->
  dollar_free names = true ->
  host_readFile h filePath (t ++ [ReadFile filePath]) = Ok text ->
  markers_not_found h text = false ->
  spec_substitute (START_MARKER (CONFIG h)) (END_MARKER (CONFIG h)) names text = Some out ->
  substituted h filePath names t = Ok (Some out).
Proof.
  intros Ha Hb Hne Hn Hread Hguard Hspec.
  unfold substituted, new_RegExp, pattern_source.
  rewrite (parse_pattern _ _ Ha Hb).
  unfold V1.updateFileContent. rewrite (bind_ask _ _ _ _ _ Hread), Hguard.
  unfold ret. cbn [fst]. do 2 f_equal.
  unfold spec_substitute in Hspec.
  destruct (Js.find_index (START_MARKER (CONFIG h)) text) as [i|] eqn:Ei; [|done].
  destruct (Js.find_index (END_MARKER (CONFIG h)) _) as [k|] eqn:Ek; [|done].
  injection Hspec as <-.
  rewrite (replace_plain _ _ _ _ i k); try done.
  - unfold replacement_of. by rewrite <- !app_assoc.
  - by apply input_head.
  - by apply replacement_dollar_free.
Qed.

End Substitution.

(** ** Substituting twice *)

Section Idempotence.

(** The first occurrence of [p] is decided by the text up to its end. *)
Lemma find_index_stable (p s1 s2 : list N) (i : nat) :
  Js.find_index p s1 = Some i ->
  take (i + length p) s2 = take (i + length p) s1 ->
  Js.find_index p s2 = Some i.
Proof.
  intros H1 Heq. pose proof (find_index_bound _ _ _ H1) as B1.
  apply find_index_Some in H1 as (Hat & _ & Hbefore).
  assert (Hlen : (i + length p <= length s2)%nat).
  { apply (f_equal length) in Heq. rewrite !length_take in Heq. lia. }
  apply find_index_Some. repeat split.
  - by rewrite (starts_with_agree p s2 s1 i (i + length p)).
  - lia.
  - intros j Hj. rewrite (starts_with_agree p s2 s1 j (i + length p)) by (done || lia).
    by apply Hbefore.
Qed.

Lemma single_line_lookup (b : list N) (m : nat) :
  single_line b = true -> b !! m <> Some Js.LF.
Proof.
  revert m; induction b as [|c b IH]; intros m; [done|].
  unfold single_line. simpl. intros [Hc Hb]%andb_true_iff.
  destruct m as [|m]; simpl.
  - intros [= ->]. done.
  - by apply IH.
Qed.

Lemma starts_with_lookup (p s : list N) (j m : nat) :
  Js.starts_with p (drop j s) = true -> (m < length p)%nat ->
  p !! m = s !! (j + m)%nat.
Proof.
  intros [r Hr]%starts_with_spec Hm.
  rewrite <- lookup_drop, Hr. by rewrite lookup_app_l.
Qed.

Section Twice.

Variables (a b names text suf : list N) (i j0 : nat).
Hypothesis Hb : single_line b = true.
Hypothesis Hi : Js.find_index a text = Some i.
Hypothesis Hj0 : Js.find_index b text = Some j0.
Hypothesis Hle : (i <= j0)%nat.
Hypothesis Hbody : Js.find_index b (body_of names ++ b) = Some (length (body_of names)).

Local Abbreviation out := (take i text ++ a ++ body_of names ++ b ++ suf).

Lemma out_prefix : take (i + length a) out = take (i + length a) text.
Proof.
  pose proof (find_index_bound _ _ _ Hi) as Bi.
  apply find_index_Some in Hi as ([r Hr]%starts_with_spec & _ & _).
  rewrite app_assoc, take_app_length'.
  - rewrite <- (take_drop i text) at 2. rewrite Hr, app_assoc.
    rewrite take_app_length'; [done|]. rewrite length_app, length_take. lia.
  - rewrite length_app, length_take. lia.
Qed.

Lemma out_start : Js.find_index a out = Some i.
Proof. apply (find_index_stable a text out i Hi out_prefix). Qed.

Lemma out_drop : drop (i + length a) out = body_of names ++ b ++ suf.
Proof.
  pose proof (find_index_bound _ _ _ Hi) as Bi.
  rewrite app_assoc, drop_app_length'; [done|].
  rewrite length_app, length_take. lia.
Qed.

Lemma out_end_after :
  Js.find_index b (drop (i + length a) out) = Some (length (body_of names)).
Proof.
  rewrite out_drop. apply (find_index_stable b (body_of names ++ b)); [done|].
  rewrite app_assoc. rewrite <- length_app.
  by rewrite take_app_length, take_ge.
Qed.

Lemma out_spec : spec_substitute a b names out = Some out.
Proof.
  pose proof (find_index_bound _ _ _ Hi) as Bi.
  unfold spec_substitute. rewrite out_start, out_end_after. f_equal.
  assert (Ht : take i out = take i text).
  { rewrite take_app_length'; [done|]. rewrite length_take. lia. }
  assert (Hd : drop (i + length a + length (body_of names) + length b) out = suf).
  { rewrite <- !Nat.add_assoc, (Nat.add_assoc i), <- drop_drop, out_drop.
    rewrite app_assoc, drop_app_length'; [done|]. by rewrite length_app. }
  rewrite Ht, Hd. unfold body_of. by rewrite <- !app_assoc.
Qed.

Lemma out_end : exists j1, Js.find_index b out = Some j1 /\ (i <= j1)%nat.
Proof.
  pose proof (find_index_bound _ _ _ Hi) as Bi.
  pose proof out_end_after as Hafter.
  apply find_index_Some in Hafter as (Hat & _ & _). rewrite drop_drop in Hat.
  destruct (find_index_exists b out _ Hat) as (j1 & Hj1 & _).
  { rewrite !length_app, length_take. unfold body_of.
    rewrite !length_app. simpl. lia. }
  exists j1. split; [done|].
  destruct (decide (i <= j1)%nat) as [|Hlt]; [done|]. exfalso.
  apply find_index_Some in Hj1 as (Hat1 & _ & _).
  destruct (decide (j1 + length b <= i + length a)%nat) as [Hin|Hout].
  - rewrite (starts_with_agree b out text j1 (i + length a) out_prefix Hin) in Hat1.
    destruct (find_index_exists b text j1 Hat1 ltac:(lia)) as (j' & Hj' & Hle').
    rewrite Hj0 in Hj'. injection Hj' as <-. lia.
  - apply (single_line_lookup b (i + length a - j1) Hb).
    rewrite (starts_with_lookup b out j1 (i + length a - j1) Hat1) by lia.
    replace (j1 + (i + length a - j1))%nat with (i + length a + 0)%nat by lia.
    rewrite <- lookup_drop, out_drop. done.
Qed.

End Twice.

Lemma guard_of_indices (h : Host) (text : list N) (i j : nat) :
  Js.find_index (START_MARKER (CONFIG h)) text = Some i ->
  Js.find_index (END_MARKER (CONFIG h)) text = Some j ->
  (i <= j)%nat -> markers_not_found h text = false.
Proof.
  intros Hi Hj Hle. unfold markers_not_found, Js.indexOf. rewrite Hi, Hj.
  repeat (apply orb_false_intro); lia.
Qed.

Lemma substituted_twice (h : Host) (filePath : Value) (names text out : list N)
    (t t' : Trace) :
  plain (START_MARKER (CONFIG h)) = true ->
  plain (END_MARKER (CONFIG h)) = true ->
  END_MARKER (CONFIG h) <> [] ->
  single_line (END_MARKER (CONFIG h)) = true ->
  dollar_free names = true ->
  Js.find_index (END_MARKER (CONFIG h)) (body_of names ++ END_MARKER (CONFIG h))
    = Some (length (body_of names)) ->
  host_readFile h filePath (t ++ [ReadFile filePath]) = Ok text ->
  markers_not_found h text = false ->
  spec_substitute (START_MARKER (CONFIG h)) (END_MARKER (CONFIG h)) names text = Some out ->
  host_readFile h filePath (t' ++ [ReadFile filePath]) = Ok out ->
  substituted h filePath names t = Ok (Some out)
  /\ substituted h filePath names t' = Ok (Some out).
Proof.
  intros Ha Hb Hne Hsl Hn Hbody Hread Hguard Hspec Hread'.
  split; [by apply (substituted_plain h filePath names text)|].
  destruct (guard_passes h text Hguard) as (i & j0 & Hi & Hj0 & Hle).
  apply (substituted_plain h filePath names out); try done.
  - set (A := START_MARKER (CONFIG h)) in *. set (B := END_MARKER (CONFIG h)) in *.
    unfold spec_substitute in Hspec. rewrite Hi in Hspec.
    destruct (Js.find_index B (drop (i + length A) text)) as [k|]; [|done].
    apply (inj Some) in Hspec.
    pose proof (out_end A B names text (drop (i + length A + k + length B) text)
                  i j0 Hsl Hi Hj0 Hle Hbody) as (j1 & Hj1 & Hle1).
    pose proof (out_start A B names text (drop (i + length A + k + length B) text)
                  i j0 Hi Hle) as Hs.
    unfold body_of in Hj1, Hs. rewrite <- !app_assoc in Hj1, Hs.
    rewrite Hspec in Hj1, Hs.
    by apply (guard_of_indices h out i j1).
  - set (A := START_MARKER (CONFIG h)) in *. set (B := END_MARKER (CONFIG h)) in *.
    unfold spec_substitute in Hspec. rewrite Hi in Hspec.
    destruct (Js.find_index B (drop (i + length A) text)) as [k|]; [|done].
    apply (inj Some) in Hspec.
    pose proof (out_spec A B names text (drop (i + length A + k + length B) text)
                  i j0 Hi Hle Hbody) as Hs.
    unfold body_of in Hs. rewrite <- !app_assoc in Hs. by rewrite Hspec in Hs.
Qed.

End Idempotence.

(** ** The substitution: statements *)

(** Splitting a conjunction of closed facts, each settled by evaluation. *)
Ltac splits := repeat match goal with |- _ /\ _ => split end.

Section SubstitutionClaims.

Import Example.

(** C3 fails on the code.  With the default markers and a supporter
    named [Cash$$Money] the guard passes, yet the text returned is not
    the file with the span replaced by the markers and the names:
    [replace] reads [$$] in the replacement as one dollar sign.  (The
    markers, likewise, go into the pattern unescaped: see C10.)  On
    markers without syntax characters and names without dollar signs the
    statement holds: [substitution_replaces_first_span]. *)
Theorem dollar_signs_in_names_are_rewritten :
  let names := Js.lit "Cash$$Money" in
  let got := Js.lit "Thanks to " ++ Js.lit default_start ++ [Js.LF; Js.LF]
             ++ Js.lit "Cash$Money" ++ [Js.LF; Js.LF] ++ Js.lit default_end
             ++ Js.lit "!" in
  names_of cash_host (lastTier_of (elements (VArr cash_tiers))) = Ok names
  /\ markers_not_found cash_host cash_text = false
  /\ host_readFile cash_host README [ReadFile README] = Ok cash_text
  /\ spec_substitute (START_MARKER (CONFIG cash_host)) (END_MARKER (CONFIG cash_host))
       names cash_text
     = Some (Js.lit "Thanks to " ++ Js.lit default_start ++ [Js.LF; Js.LF]
             ++ names ++ [Js.LF; Js.LF] ++ Js.lit default_end ++ Js.lit "!")
  /\ substituted cash_host README names [] = Ok (Some got)
  /\ substituted cash_host README names []
     <> Ok (spec_substitute (START_MARKER (CONFIG cash_host))
              (END_MARKER (CONFIG cash_host)) names cash_text)
  /\ existsb (fun ev => match ev with
                        | WriteFile _ content => Js.eqb content got
                        | _ => false
                        end) (snd (V1.main cash_host [])) = true.
Proof. cbv zeta. splits; try (vm_compute; reflexivity). vm_compute. discriminate. Qed.

(** When the two markers hold no syntax character of the pattern
    language, the end marker is not empty, and the names hold no dollar
    sign: for every file text that passes the guard of
    [updateFileContent] and shows the end marker after the first start
    marker, the text returned is the file with exactly the span from the
    first start marker through the first end marker after it replaced by
    start marker, blank line, names, blank line, end marker; the text
    before and after the span is kept, so a later pair of markers is not
    touched. *)
Lemma substitution_replaces_first_span (h : Host) (filePath : Value)
    (names text out : list N) (t : Trace) :
  plain (START_MARKER (CONFIG h)) = true ->
  plain (END_MARKER (CONFIG h)) = true ->
  END_MARKER (CONFIG h) <> [] ->
  dollar_free names = true ->
  host_readFile h filePath (t ++ [ReadFile filePath]) = Ok text ->
  markers_not_found h text = false ->
  spec_substitute (START_MARKER (CONFIG h)) (END_MARKER (CONFIG h)) names text = Some out ->
  substituted h filePath names t = Ok (Some out).
Proof. apply substituted_plain. Qed.

Example substitution_replaces_first_span_two_pairs :
  substituted two_pairs_host README (Js.lit "B" ++ separator ++ Js.lit "C") []
  = Ok (Some (Js.lit "# Patrons" ++ [Js.LF] ++ Js.lit default_start
              ++ [Js.LF; Js.LF] ++ Js.lit "B" ++ separator ++ Js.lit "C"
              ++ [Js.LF; Js.LF] ++ Js.lit default_end ++ [Js.LF]
              ++ Js.lit default_start ++ Js.lit " kept " ++ Js.lit default_end)).
Proof.
  apply (substitution_replaces_first_span two_pairs_host README _ two_pairs).
  - vm_compute; reflexivity.
  - vm_compute; reflexivity.
  - vm_compute; discriminate.
  - vm_compute; reflexivity.
  - vm_compute; reflexivity.
  - vm_compute; reflexivity.
  - vm_compute; reflexivity.
Defined.

(** C4, as the specification states it, fails: when a name holds the end
    marker, the second substitution stops at the end marker inside the
    names and leaves a second end marker behind it. *)
Lemma substitution_twice_counterexample :
  let once := Js.lit "x<!--s-->" ++ [Js.LF; Js.LF] ++ echo_names
              ++ [Js.LF; Js.LF] ++ Js.lit "<!--e-->y" in
  let twice := Js.lit "x<!--s-->" ++ [Js.LF; Js.LF] ++ echo_names
               ++ [Js.LF; Js.LF] ++ Js.lit "<!--e-->"
               ++ [Js.LF; Js.LF] ++ Js.lit "<!--e-->y" in
  markers_not_found echo_host echo_text = false
  /\ substituted echo_host README echo_names [] = Ok (Some once)
  /\ host_readFile echo_host README
       ([ReadFile README; WriteFile README once] ++ [ReadFile README]) = Ok once
  /\ substituted echo_host README echo_names [ReadFile README; WriteFile README once]
     = Ok (Some twice)
  /\ once <> twice.
Proof. cbv zeta. splits; try (vm_compute; reflexivity). vm_compute. discriminate. Qed.

(** C4 (amended).  When the two markers hold no syntax character of the
    pattern language, the end marker is not empty and holds no line feed,
    the names hold no dollar sign, and the end marker does not occur in
    blank line, names, blank line, end marker before its last place: for
    every file text that passes the guard and shows the end marker after
    the first start marker, the substitution returns a text, and applied
    to that text with the same names it returns the same text again. *)
Theorem substitution_idempotent (h : Host) (filePath : Value)
    (names text out : list N) (t t' : Trace) :
  plain (START_MARKER (CONFIG h)) = true ->
  plain (END_MARKER (CONFIG h)) = true ->
  END_MARKER (CONFIG h) <> [] ->
  single_line (END_MARKER (CONFIG h)) = true ->
  dollar_free names = true ->
  Js.find_index (END_MARKER (CONFIG h)) (body_of names ++ END_MARKER (CONFIG h))
    = Some (length (body_of names)) ->
  host_readFile h filePath (t ++ [ReadFile filePath]) = Ok text ->
  markers_not_found h text = false ->
  spec_substitute (START_MARKER (CONFIG h)) (END_MARKER (CONFIG h)) names text = Some out ->
  host_readFile h filePath (t' ++ [ReadFile filePath]) = Ok out ->
  substituted h filePath names t = Ok (Some out)
  /\ substituted h filePath names t' = Ok (Some out).
Proof. apply substituted_twice. Qed.

Lemma substitution_idempotent_witness :
  let names := Js.lit "B" ++ separator ++ Js.lit "C" in
  let out := Js.lit "x<!--s-->" ++ [Js.LF; Js.LF] ++ names
             ++ [Js.LF; Js.LF] ++ Js.lit "<!--e-->y" in
  substituted echo_host README names [] = Ok (Some out)
  /\ substituted echo_host README names [ReadFile README; WriteFile README out]
     = Ok (Some out).
Proof.
  apply (substitution_idempotent echo_host README _ echo_text).
  - vm_compute; reflexivity.
  - vm_compute; reflexivity.
  - vm_compute; discriminate.
  - vm_compute; reflexivity.
  - vm_compute; reflexivity.
  - vm_compute; reflexivity.
  - vm_compute; reflexivity.
  - vm_compute; reflexivity.
  - vm_compute; reflexivity.
  - vm_compute; reflexivity.
Defined.

(** C10.  The markers go into the pattern source as they are and the
    replacement is read as a replacement pattern:
    - with markers that hold a dot, the text returned differs from the
      file with the span between the literal markers replaced;
    - with a name [$&] it differs as well, the matched text taking the
      place of the name;
    - with a start marker that holds a plus sign, [indexOf] finds both
      markers but the pattern does not match: the text comes back
      unchanged, and the loop of [main] still writes the file and sets
      [changesMade]. *)
Theorem markers_and_names_are_not_escaped :
  (plain (START_MARKER (CONFIG dotted_host)) = false
   /\ markers_not_found dotted_host dotted_text = false
   /\ spec_substitute (START_MARKER (CONFIG dotted_host))
        (END_MARKER (CONFIG dotted_host)) (Js.lit "B") dotted_text
      = Some (Js.lit "doc: <!-- patrons-start --> | <!-- patrons.start -->"
              ++ [Js.LF; Js.LF] ++ Js.lit "B" ++ [Js.LF; Js.LF]
              ++ Js.lit "<!-- patrons.end --> tail")
   /\ substituted dotted_host README (Js.lit "B") []
      = Ok (Some (Js.lit "doc: <!-- patrons.start -->"
                  ++ [Js.LF; Js.LF] ++ Js.lit "B" ++ [Js.LF; Js.LF]
                  ++ Js.lit "<!-- patrons.end --> tail")))
  /\ (dollar_free (Js.lit "$&") = false
      /\ markers_not_found two_pairs_host two_pairs = false
      /\ spec_substitute (START_MARKER (CONFIG two_pairs_host))
           (END_MARKER (CONFIG two_pairs_host)) (Js.lit "$&") two_pairs
         = Some (Js.lit "# Patrons" ++ [Js.LF] ++ Js.lit default_start
                 ++ [Js.LF; Js.LF] ++ Js.lit "$&"
                 ++ [Js.LF; Js.LF] ++ Js.lit default_end ++ [Js.LF]
                 ++ Js.lit default_start ++ Js.lit " kept " ++ Js.lit default_end)
      /\ substituted two_pairs_host README (Js.lit "$&") []
         = Ok (Some (Js.lit "# Patrons" ++ [Js.LF] ++ Js.lit default_start
                     ++ [Js.LF; Js.LF]
                     ++ Js.lit default_start ++ Js.lit " old " ++ Js.lit default_end
                     ++ [Js.LF; Js.LF] ++ Js.lit default_end ++ [Js.LF]
                     ++ Js.lit default_start ++ Js.lit " kept " ++ Js.lit default_end)))
  /\ (plain (START_MARKER (CONFIG plus_host)) = false
      /\ markers_not_found plus_host plus_text = false
      /\ substituted plus_host README (Js.lit "B") [] = Ok (Some plus_text)
      /\ processed plus_host README (Js.lit "B") false []
         = (Ok true,
            [ReadFile README; WriteFile README plus_text;
             Info (Js.lit "Updated README.md with supporter names.")])).
Proof. splits; vm_compute; reflexivity. Qed.

End SubstitutionClaims.

(** ** The names of the last tier *)

Section Names.

Lemma member_names (h : Host) (members : list Value) (names : list (list N)) :
  Forall2 (is_member h) members names ->
  mapO (fun m => Get h m (Js.lit "name")) members = Ok (map VStr names).
Proof.
  induction 1 as [|m n members names Hm _ IH]; [done|].
  cbn [mapO]. unfold is_member in Hm. rewrite Hm. cbn [obind]. by rewrite IH.
Qed.

Lemma join_strings (h : Host) (names : list (list N)) (sep : list N) :
  Array_join h (map VStr names) sep = Ok (Js.join sep names).
Proof.
  unfold Array_join.
  assert (H : mapO (fun v => match v with
                             | VUndefined | VNull => Ok []
                             | _ => ToString h v
                             end) (map VStr names) = Ok names).
  { induction names as [|n names IH]; [done|]. simpl. by rewrite IH. }
  by rewrite H.
Qed.

Lemma names_of_tier (h : Host) (v : Value) (names : list (list N)) :
  is_tier h v names -> names_of h v = Ok (Js.join separator names).
Proof.
  intros (members & Hget & Hall). unfold names_of. rewrite Hget. cbn [obind].
  rewrite (member_names h members names Hall). cbn [obind]. apply join_strings.
Qed.

(** C7.  When the roster's [tiers] is a sequence whose last element is a
    tier with members of the given names, the string that [main] puts
    between the markers is these names, in the order of the document,
    separated by space, middle dot, space. *)
Theorem names_are_last_tier_joined (h : Host) (data : Value) (tiers : list Value)
    (lastTier : Value) (names : list (list N)) :
  tiers_of h data = Ok (VArr tiers) ->
  last tiers = Some lastTier ->
  is_tier h lastTier names ->
  names_of h (lastTier_of (elements (VArr tiers))) = Ok (Js.join [32; 183; 32] names).
Proof.
  intros _ Hlast Htier. unfold lastTier_of. simpl. rewrite Hlast. simpl.
  by apply names_of_tier.
Qed.

Lemma names_are_last_tier_joined_witness :
  names_of Example.two_pairs_host (lastTier_of (elements (VArr Example.bare_tiers)))
  = Ok (Js.lit "B" ++ [32; 183; 32] ++ Js.lit "C").
Proof.
  apply (names_are_last_tier_joined Example.two_pairs_host Example.bare_roster
           Example.bare_tiers
           (VObj [(Js.lit "members",
                   VArr [Example.member (Js.lit "B"); Example.member (Js.lit "C")])])
           [Js.lit "B"; Js.lit "C"]).
  - reflexivity.
  - reflexivity.
  - eexists. split; [reflexivity|]. repeat constructor.
Defined.

End Names.

(** ** The default of [fail-on-missing-markers] *)

Section Defaults.

(** The script itself supplies no default: without the environment
    variable the flag is off. *)
Lemma flag_needs_the_variable (h : Host) :
  host_env h !! input_env_name (Js.lit "fail-on-missing-markers") = None ->
  FAIL_ON_MISSING_MARKERS (CONFIG h) = false.
Proof.
  intros H. unfold CONFIG, getInput. cbn [FAIL_ON_MISSING_MARKERS]. by rewrite H.
Qed.

Lemma runner_sets_flag (supplied : gmap (list N) (list N)) :
  supplied !! Js.lit "fail-on-missing-markers" = None ->
  runner_env supplied !! input_env_name (Js.lit "fail-on-missing-markers")
  = Some (Js.lit "true").
Proof.
  intros H. unfold runner_env, action_inputs. cbn [omap list_omap].
  rewrite H.
  destruct (supplied !! Js.lit "files-to-update");
    destruct (supplied !! Js.lit "start-marker");
    destruct (supplied !! Js.lit "end-marker");
    destruct (supplied !! Js.lit "git-email"); vm_compute; reflexivity.
Qed.

(** C2.  When the workflow does not supply [fail-on-missing-markers], the
    runner hands the script the declared default and
    [CONFIG.FAIL_ON_MISSING_MARKERS] is true; missing or misordered
    markers are then fatal for the file: for every file whose text fails
    the guard on the markers, [updateFileContent] throws the error
    "Markers are missing or misordered in <file>", in each variant, after
    the read and before any substitution. *)
Theorem fail_on_missing_markers_defaults_to_true (h : Host)
    (supplied : gmap (list N) (list N)) :
  runner_env supplied ⊆ host_env h ->
  supplied !! Js.lit "fail-on-missing-markers" = None ->
  FAIL_ON_MISSING_MARKERS (CONFIG h) = true
  /\ forall (filePath : Value) (pattern : RegExp) (replacement p text : list N)
        (t : Trace),
      ToString h filePath = Ok p ->
      (forall t0, host_readFile h filePath t0 = Ok text) ->
      markers_not_found h text = true ->
      V1.updateFileContent h filePath pattern replacement t
      = (Throw (new_Error h (Js.lit "Markers are missing or misordered in " ++ p)),
         t ++ [ReadFile filePath])
      /\ V3.updateFileContent h filePath pattern replacement t
         = (Throw (new_Error h (Js.lit "Markers are missing or misordered in " ++ p)),
            t ++ [ReadFile filePath])
      /\ V2.updateFileContent h filePath pattern replacement t
         = (Throw (new_Error h (Js.lit "Markers are missing or misordered in " ++ p)),
            t ++ [Debug (Js.lit "Reading file: " ++ p);
                  ReadFile filePath;
                  Debug (Js.lit "Markers - start: "
                         ++ Js.of_Z (Js.indexOf text (START_MARKER (CONFIG h)))
                         ++ Js.lit ", end: "
                         ++ Js.of_Z (Js.indexOf text (END_MARKER (CONFIG h))))]).
Proof.
  intros Hsub Hnone.
  assert (Hflag : FAIL_ON_MISSING_MARKERS (CONFIG h) = true).
  { pose proof (runner_sets_flag supplied Hnone) as Hset.
    apply (lookup_weaken _ _ _ _ Hset) in Hsub.
    unfold CONFIG, getInput. cbn [FAIL_ON_MISSING_MARKERS]. rewrite Hsub.
    vm_compute. reflexivity. }
  split; [exact Hflag|].
  intros filePath pattern replacement p text t Hp Hread Hguard. splits.
  - unfold V1.updateFileContent.
    rewrite (bind_ask _ _ _ _ _ (Hread _)), Hguard, Hflag.
    by rewrite (bind_lift _ _ _ _ Hp).
  - unfold V3.updateFileContent, V1.updateFileContent.
    rewrite (bind_ask _ _ _ _ _ (Hread _)), Hguard, Hflag.
    by rewrite (bind_lift _ _ _ _ Hp).
  - unfold V2.updateFileContent, core_debug.
    rewrite (bind_lift _ _ _ _ Hp), bind_emit.
    rewrite (bind_ask _ _ _ _ _ (Hread _)), bind_emit, Hguard, Hflag.
    unfold throw. by rewrite <- !app_assoc.
Qed.

Lemma fail_on_missing_markers_defaults_to_true_witness :
  FAIL_ON_MISSING_MARKERS (CONFIG Example.defaulted_host) = true
  /\ markers_not_found Example.defaulted_host Example.plain_readme = true
  /\ V1.updateFileContent Example.defaulted_host Example.README (regexp_of []) [] []
     = (Throw (new_Error Example.defaulted_host
                 (Js.lit "Markers are missing or misordered in "
                  ++ Js.lit "README.md")),
        [] ++ [ReadFile Example.README])
  /\ V3.updateFileContent Example.defaulted_host Example.README (regexp_of []) [] []
     = (Throw (new_Error Example.defaulted_host
                 (Js.lit "Markers are missing or misordered in "
                  ++ Js.lit "README.md")),
        [] ++ [ReadFile Example.README])
  /\ V2.updateFileContent Example.defaulted_host Example.README (regexp_of []) [] []
     = (Throw (new_Error Example.defaulted_host
                 (Js.lit "Markers are missing or misordered in "
                  ++ Js.lit "README.md")),
        [] ++ [Debug (Js.lit "Reading file: " ++ Js.lit "README.md");
               ReadFile Example.README;
               Debug (Js.lit "Markers - start: "
                      ++ Js.of_Z (Js.indexOf Example.plain_readme
                                    (START_MARKER (CONFIG Example.defaulted_host)))
                      ++ Js.lit ", end: "
                      ++ Js.of_Z (Js.indexOf Example.plain_readme
                                    (END_MARKER (CONFIG Example.defaulted_host))))]).
Proof.
  assert (Hguard : markers_not_found Example.defaulted_host Example.plain_readme = true)
    by (vm_compute; reflexivity).
  destruct (fail_on_missing_markers_defaults_to_true Example.defaulted_host
              Example.supplied_inputs) as [Hflag Hthrow].
  - simpl. reflexivity.
  - vm_compute. reflexivity.
  - split; [exact Hflag|]. split; [exact Hguard|].
    apply (Hthrow Example.README (regexp_of []) [] (Js.lit "README.md")
             Example.plain_readme []).
    + reflexivity.
    + intros t0. reflexivity.
    + exact Hguard.
Defined.

End Defaults.

(** ** The run: the recovery branch, the empty roster *)

Section Run.

(** C9.  In variant 1 neither [originalBranch] nor [branchName] is bound
    where the catch block of [main] runs; whenever the [try] block
    throws, the block marks the run as failed and then itself throws the
    ReferenceError for [originalBranch], before any git command. *)
Theorem recovery_branch_raises (h : Host) (t t' : Trace) (error : JsError) :
  V1.main_try h t = (Throw error, t') ->
  existsb (Js.eqb (Js.lit "originalBranch")) V1.catch_scope = false
  /\ existsb (Js.eqb (Js.lit "branchName")) V1.catch_scope = false
  /\ V1.main h t
     = (Throw (ReferenceError h (Js.lit "originalBranch")),
        t' ++ [SetFailed (e_message error)]).
Proof.
  intros Htry. splits; [vm_compute; reflexivity | vm_compute; reflexivity |].
  unfold V1.main, try_catch. rewrite Htry. reflexivity.
Qed.

Lemma recovery_branch_raises_witness :
  V1.main (Example.with_files (VArr []) Example.two_pairs_host) []
  = (Throw (ReferenceError (Example.with_files (VArr []) Example.two_pairs_host)
              (Js.lit "originalBranch")),
     [] ++ [SetFailed (Js.lit "No files specified in 'files-to-update'.")]).
Proof.
  apply (recovery_branch_raises (Example.with_files (VArr []) Example.two_pairs_host)
           [] [] (new_Error (Example.with_files (VArr []) Example.two_pairs_host)
                    (Js.lit "No files specified in 'files-to-update'."))).
  vm_compute. reflexivity.
Defined.

Section EmptyRoster.

Variables (h : Host) (t : Trace) (file : Value) (files : list Value)
          (res : Response) (data : Value).
Hypothesis Hfetch :
  host_fetch h (JSON_URL (CONFIG h)) (t ++ [Fetch (JSON_URL (CONFIG h))]) = Ok res.
Hypothesis Hok : ok res = true.
Hypothesis Hjson : json res = Ok data.
Hypothesis Htiers : tiers_of h data = Ok (VArr []).

(** Variants 1 and 2 stop at the empty roster with a warning. *)
Lemma V1_empty_roster :
  host_yaml_load h (or_else (getInput h (Js.lit "files-to-update")) (Js.lit "[]"))
  = Ok (VArr (file :: files)) ->
  V1.main h t
  = (Ok tt, t ++ [Fetch (JSON_URL (CONFIG h));
                  Warning (Js.lit "No supporters found in the supporter data.")]).
Proof.
  intros Hyaml. unfold V1.main, try_catch, V1.main_try.
  rewrite (bind_lift _ _ _ _ Hyaml). cbn [isArray negb elements length orb Nat.eqb].
  unfold V1.fetchSupporterData.
  unfold bind at 1. unfold bind at 1. unfold ask. rewrite Hfetch, Hok. cbn [negb].
  unfold lift at 1. rewrite Hjson.
  rewrite (bind_lift _ _ _ _ Htiers). cbn [isArray negb elements length Nat.eqb].
  unfold core_warning, emit. by rewrite <- app_assoc.
Qed.

(** Variant 3 has no such stop: the last element of the empty sequence
    is [undefined], reading its [members] throws, and the run is marked
    as failed. *)
Lemma V3_empty_roster :
  host_JSON_parse h (or_else (getInput h (Js.lit "files-to-update")) (Js.lit "[]"))
  = Ok (VArr (file :: files)) ->
  V3.main h t
  = (Ok tt, t ++ [Fetch (JSON_URL (CONFIG h)); SetFailed members_of_undefined]).
Proof.
  intros Hparse. unfold V3.main, try_catch, V3.main_try.
  rewrite (bind_lift _ _ _ _ Hparse). cbn [isArray negb elements length orb Nat.eqb].
  unfold V3.fetchSupporterData, V1.fetchSupporterData.
  unfold bind at 1. unfold bind at 1. unfold ask. rewrite Hfetch, Hok. cbn [negb].
  unfold lift at 1. rewrite Hjson.
  rewrite (bind_lift _ _ _ _ Htiers). cbn [isArray negb elements length Nat.eqb].
  unfold bind at 1. unfold lift at 1. cbn [some_tier_without_members].
  unfold bind at 1. unfold lift at 1. cbn.
  unfold core_setFailed, emit. rewrite <- app_assoc. reflexivity.
Qed.

End EmptyRoster.

End Run.

(** ** Rules for [post] *)

Section PostRules.

Context {A B : Type}.

Lemma post_ret (a : A) (t : Trace) (Q : outcome A -> list Event -> Prop) :
  Q (Ok a) [] -> post (ret a) t Q.
Proof. intros H. exists []. by rewrite app_nil_r. Qed.

Lemma post_throw (e : JsError) (t : Trace) (Q : outcome A -> list Event -> Prop) :
  Q (Throw e) [] -> post (throw e) t Q.
Proof. intros H. exists []. by rewrite app_nil_r. Qed.

Lemma post_lift (o : outcome A) (t : Trace) (Q : outcome A -> list Event -> Prop) :
  Q o [] -> post (lift o) t Q.
Proof. intros H. exists []. by rewrite app_nil_r. Qed.

Lemma post_ask (ev : Event) (answer : Trace -> outcome A) (t : Trace)
    (Q : outcome A -> list Event -> Prop) :
  Q (answer (t ++ [ev])) [ev] -> post (ask ev answer) t Q.
Proof. intros H. by exists [ev]. Qed.

Lemma post_mono (m : M A) (t : Trace) (Q Q' : outcome A -> list Event -> Prop) :
  post m t Q -> (forall r events, Q r events -> Q' r events) -> post m t Q'.
Proof. intros (events & H1 & H2) Himp. exists events. split; [done | by apply Himp]. Qed.

Lemma post_bind (m : M A) (k : A -> M B) (t : Trace)
    (Q : outcome B -> list Event -> Prop) :
  post m t (fun r events =>
              match r with
              | Ok a => post (k a) (t ++ events)
                          (fun r' events' => Q r' (events ++ events'))
              | Throw e => Q (Throw e) events
              end) ->
  post (bind m k) t Q.
Proof.
  intros (events & H1 & H2). unfold post, bind.
  destruct (m t) as [[a|e] t1]; simpl in *; subst t1.
  - destruct H2 as (events' & H3 & H4). exists (events ++ events').
    by rewrite H3, app_assoc.
  - by exists events.
Qed.

Lemma post_try_catch (m : M A) (handler : JsError -> M A) (t : Trace)
    (Q : outcome A -> list Event -> Prop) :
  post m t (fun r events =>
              match r with
              | Ok a => Q (Ok a) events
              | Throw e => post (handler e) (t ++ events)
                             (fun r' events' => Q r' (events ++ events'))
              end) ->
  post (try_catch m handler) t Q.
Proof.
  intros (events & H1 & H2). unfold post, try_catch.
  destruct (m t) as [[a|e] t1]; simpl in *; subst t1.
  - by exists events.
  - destruct H2 as (events' & H3 & H4). exists (events ++ events').
    by rewrite H3, app_assoc.
Qed.

End PostRules.

Lemma post_emit (ev : Event) (t : Trace) (Q : outcome unit -> list Event -> Prop) :
  Q (Ok tt) [ev] -> post (emit ev) t Q.
Proof. intros H. by exists [ev]. Qed.

(** A computation already specified, followed by another. *)
Lemma post_seq {A B} (m : M A) (k : A -> M B) (t : Trace)
    (Q1 : outcome A -> list Event -> Prop) (Q : outcome B -> list Event -> Prop) :
  post m t Q1 ->
  (forall r events, Q1 r events ->
     match r with
     | Ok a => post (k a) (t ++ events) (fun r' events' => Q r' (events ++ events'))
     | Throw e => Q (Throw e) events
     end) ->
  post (bind m k) t Q.
Proof.
  intros H1 H2. apply post_bind. apply (post_mono _ _ _ _ H1). exact H2.
Qed.

Lemma none_app (p : Event -> bool) (a b : list Event) :
  none p (a ++ b) <-> none p a /\ none p b.
Proof. unfold none. rewrite existsb_app. apply orb_false_iff. Qed.

Lemma none_nil (p : Event -> bool) : none p [].
Proof. done. Qed.

Ltac mstep :=
  lazymatch goal with
  | |- post (bind _ _) _ _ => apply post_bind
  | |- post (ret _) _ _ => apply post_ret
  | |- post (throw _) _ _ => apply post_throw
  | |- post (lift _) _ _ => apply post_lift
  | |- post (emit _) _ _ => apply post_emit
  | |- post (ask _ _) _ _ => apply post_ask
  | |- post (try_catch _ _) _ _ => apply post_try_catch
  | |- post (core_debug _) _ _ => apply post_emit
  | |- post (core_info _) _ _ => apply post_emit
  | |- post (core_warning _) _ _ => apply post_emit
  | |- post (core_error _) _ _ => apply post_emit
  | |- post (core_setFailed _) _ _ => apply post_emit
  | |- post (console_log _) _ _ => apply post_emit
  | |- post (console_error _) _ _ => apply post_emit
  | |- post (if ?b then _ else _) _ _ => destruct b eqn:?
  | |- post (match ?x with _ => _ end) _ _ => destruct x eqn:?
  | |- match ?x with _ => _ end => destruct x eqn:?
  end.

Ltac msteps := repeat (mstep; cbv beta).

Lemma only_app (p : Event -> bool) (a b : list Event) :
  only p (a ++ b) <-> only p a /\ only p b.
Proof. unfold only. rewrite forallb_app. apply andb_true_iff. Qed.

Lemma only_none (p q : Event -> bool) (events : list Event) :
  (forall ev, p ev = true -> q ev = false) -> only p events -> none q events.
Proof.
  intros Hpq. unfold only, none. induction events as [|ev events IH]; [done|].
  simpl. intros [H1 H2]%andb_true_iff. by rewrite (Hpq ev H1), IH.
Qed.

(** The side conditions on the events: unions of finite lists. *)
Ltac events :=
  repeat match goal with
         | H : _ /\ _ |- _ => destruct H
         | H : none _ (_ ++ _) |- _ => apply none_app in H
         | |- _ /\ _ => split
         | |- none _ (_ ++ _) => apply none_app
         | |- only _ (_ ++ _) => apply only_app
         end;
  try (assumption || reflexivity || discriminate);
  try match goal with
      | H : only is_file_event ?e |- none _ ?e =>
          apply (only_none is_file_event _ e); [by intros [] | exact H]
      end.

(** ** Variant 1: enabling auto-merge never fails the run *)

Section AutoMerge.

Variable h : Host.

Lemma V1_process_file_post (pattern : RegExp) (replacement : list N)
    (changesMade : bool) (filePath : Value) (t : Trace) :
  post (V1.process_file h pattern replacement changesMade filePath) t
       (fun _ events => only is_file_event events).
Proof.
  unfold V1.process_file, V1.updateFileContent.
  msteps; try reflexivity.
Qed.

Lemma V1_process_files_post (pattern : RegExp) (replacement : list N)
    (filesToUpdate : list Value) (changesMade : bool) (t : Trace) :
  post (V1.process_files h pattern replacement changesMade filesToUpdate) t
       (fun _ events => only is_file_event events).
Proof.
  revert changesMade t; induction filesToUpdate as [|f fs IH]; intros changesMade t; simpl.
  - by apply post_ret.
  - eapply post_seq; [apply V1_process_file_post|].
    intros [changed|e] events Hev; [|done].
    eapply post_mono; [apply IH|]. intros r events' Hev'. cbv beta.
    apply only_app. by split.
Qed.
Ltac quiet :=
  unfold quiet_unless_done in *;
  repeat match goal with
         | H : _ /\ _ |- _ => destruct H
         | H : _ \/ _ |- _ => destruct H
         end;
  subst; (split; [events | first [left; reflexivity | right; events]]).

Lemma V1_createOrUpdatePR_post (branchName : list N) (owner repo : Value) (t : Trace) :
  post (V1.createOrUpdatePR h branchName owner repo) t quiet_unless_done.
Proof. unfold V1.createOrUpdatePR. msteps; quiet. Qed.

Ltac v1_step :=
  first
    [ mstep
    | lazymatch goal with
      | |- post (V1.process_files _ _ _ _ _) _ _ =>
          eapply post_mono; [apply V1_process_files_post | intros ? ? ?]
      | |- post (V1.createOrUpdatePR _ _ _ _) _ _ =>
          eapply post_mono; [apply V1_createOrUpdatePR_post | intros ? ? ?]
      end ].

Lemma V1_main_try_post (t : Trace) : post (V1.main_try h) t quiet_unless_done.
Proof.
  unfold V1.main_try, V1.fetchSupporterData, V1.setupGitBranch, V1.execAsync.
  repeat (v1_step; cbv beta); quiet.
Qed.

Lemma originalBranch_unbound :
  existsb (Js.eqb (Js.lit "originalBranch")) V1.catch_scope = false.
Proof. vm_compute. reflexivity. Qed.

Lemma V1_main_post (t : Trace) :
  post (V1.main h) t
       (fun r events =>
          existsb is_EnableAutoMerge events = true ->
          r = Ok tt /\ failed events = false).
Proof.
  unfold V1.main. apply post_try_catch.
  eapply post_mono; [apply V1_main_try_post|].
  intros [[]|e] events [Hf Ha].
  - intros _. by split.
  - destruct Ha as [|Ha]; [done|].
    unfold V1.identifier. rewrite originalBranch_unbound.
    msteps. intros Hin. exfalso.
    rewrite !existsb_app, Ha in Hin. simpl in Hin. done.
Qed.

Lemma V1_auto_merge_refused (branchName : list N) (owner repo : Value) (t : Trace)
    (o : list N) (pr : PullRequest) (error : JsError) :
  ToString h owner = Ok o ->
  (forall t0, host_pulls_list h owner repo (o ++ Js.lit ":" ++ branchName) t0 = Ok []) ->
  (forall t0, host_pulls_create h owner repo branchName t0 = Ok pr) ->
  (forall t0, host_graphql h (node_id pr) (Js.lit "MERGE") t0 = Throw error) ->
  V1.createOrUpdatePR h branchName owner repo t
  = (Ok tt,
     t ++ [PullsList owner repo (o ++ Js.lit ":" ++ branchName);
           PullsCreate owner repo branchName (Js.lit "main")
             (Js.lit "Update supporters list")
             (Js.lit "This PR updates the supporters list.");
           EnableAutoMerge (node_id pr) (Js.lit "MERGE");
           Warning (Js.lit "Failed to enable auto-merge: " ++ e_message error);
           Info (Js.lit "Pull request created: " ++ html_url pr)]).
Proof.
  intros Ho Hlist Hcreate Hgraphql. unfold V1.createOrUpdatePR.
  rewrite (bind_lift _ _ _ _ Ho). cbv zeta.
  rewrite (bind_ask _ _ _ _ _ (Hlist _)). cbn [length Nat.eqb].
  rewrite (bind_ask _ _ _ _ _ (Hcreate _)).
  unfold bind at 1. unfold try_catch. rewrite (bind_ask_throw _ _ _ _ _ (Hgraphql _)).
  unfold core_warning, core_info, emit. by rewrite <- !app_assoc.
Qed.

(** Variant 1 never asks for the staging status. *)
Lemma V1_createOrUpdatePR_no_status (branchName : list N) (owner repo : Value)
    (t : Trace) :
  post (V1.createOrUpdatePR h branchName owner repo) t
       (fun _ events => none (is_Exec porcelain) events).
Proof. unfold V1.createOrUpdatePR. msteps; events. Qed.

Lemma V1_main_no_status (t : Trace) :
  post (V1.main h) t (fun _ events => ran porcelain events = false).
Proof.
  unfold V1.main, V1.main_try, V1.fetchSupporterData, V1.setupGitBranch, V1.execAsync,
    V1.identifier.
  rewrite originalBranch_unbound.
  repeat (first
            [ lazymatch goal with
              | |- post (V1.process_files _ _ _ _ _) _ _ =>
                  eapply post_mono; [apply V1_process_files_post | intros ? ? ?]
              | |- post (V1.createOrUpdatePR _ _ _ _) _ _ =>
                  eapply post_mono; [apply V1_createOrUpdatePR_no_status | intros ? ? ?]
              end
            | mstep ]; cbv beta).
  all: change (ran porcelain ?e = false) with (none (is_Exec porcelain) e); events.
Qed.

(** Variant 2 catches the failure in the same way; its handler goes on to
    render the error for a debug line. *)
Lemma V2_createOrUpdatePR_post (branchName : list N) (owner repo : Value) (t : Trace) :
  (forall e, exists s, host_stringify_error h e = Ok s) ->
  post (V2.createOrUpdatePR h branchName owner repo) t quiet_unless_done.
Proof.
  intros Hs. unfold V2.createOrUpdatePR.
  msteps; try quiet.
  all: match goal with
       | H : host_stringify_error h ?e = Throw _ |- _ =>
           destruct (Hs e) as [s Hse]; congruence
       end.
Qed.

End AutoMerge.

(** C8.  In variant 1, when the pull request has just been created and
    the call that enables auto-merge fails, [createOrUpdatePR] catches
    the error where it is raised, logs the warning with the error's
    message, goes on to announce the pull request and returns; and in
    any run of [main] whose events show that call, [main] returns
    without an error and without marking the run as failed. *)
Theorem auto_merge_failure_is_a_warning (h : Host) (branchName : list N)
    (owner repo : Value) (t : Trace) (o : list N) (pr : PullRequest)
    (error : JsError) :
  ToString h owner = Ok o ->
  (forall t0, host_pulls_list h owner repo (o ++ Js.lit ":" ++ branchName) t0 = Ok []) ->
  (forall t0, host_pulls_create h owner repo branchName t0 = Ok pr) ->
  (forall t0, host_graphql h (node_id pr) (Js.lit "MERGE") t0 = Throw error) ->
  V1.createOrUpdatePR h branchName owner repo t
  = (Ok tt,
     t ++ [PullsList owner repo (o ++ Js.lit ":" ++ branchName);
           PullsCreate owner repo branchName (Js.lit "main")
             (Js.lit "Update supporters list")
             (Js.lit "This PR updates the supporters list.");
           EnableAutoMerge (node_id pr) (Js.lit "MERGE");
           Warning (Js.lit "Failed to enable auto-merge: " ++ e_message error);
           Info (Js.lit "Pull request created: " ++ html_url pr)])
  /\ forall t1, post (V1.main h) t1
                  (fun r events =>
                     existsb is_EnableAutoMerge events = true ->
                     r = Ok tt /\ failed events = false).
Proof.
  intros Ho Hlist Hcreate Hgraphql. split.
  - by apply V1_auto_merge_refused.
  - intros t1. apply V1_main_post.
Qed.

Lemma auto_merge_failure_is_a_warning_witness :
  V1.createOrUpdatePR Example.refusing_host (Js.lit "update/patrons")
    VUndefined VUndefined []
  = (Ok tt,
     [] ++ [PullsList VUndefined VUndefined (Js.lit "undefined" ++ Js.lit ":" ++ Js.lit "update/patrons");
            PullsCreate VUndefined VUndefined (Js.lit "update/patrons") (Js.lit "main")
              (Js.lit "Update supporters list")
              (Js.lit "This PR updates the supporters list.");
            EnableAutoMerge (Js.lit "PR_1") (Js.lit "MERGE");
            Warning (Js.lit "Failed to enable auto-merge: "
                     ++ Js.lit "Auto merge is not allowed for this repository");
            Info (Js.lit "Pull request created: " ++ Js.lit "https://example.test/pull/1")])
  /\ fst (V1.main Example.refusing_host []) = Ok tt
  /\ failed (snd (V1.main Example.refusing_host [])) = false
  /\ existsb is_EnableAutoMerge (snd (V1.main Example.refusing_host [])) = true.
Proof.
  destruct (auto_merge_failure_is_a_warning Example.refusing_host
              (Js.lit "update/patrons") VUndefined VUndefined []
              (Js.lit "undefined")
              {| node_id := Js.lit "PR_1"; html_url := Js.lit "https://example.test/pull/1" |}
              Example.refused) as [Hcall _].
  - reflexivity.
  - intros t0. reflexivity.
  - intros t0. reflexivity.
  - intros t0. reflexivity.
  - split; [exact Hcall|]. splits; vm_compute; reflexivity.
Defined.

(** ** The empty roster *)

(** Variant 2 stops at the empty roster as variant 1 does, after its
    diagnostics: no failure, no file written, no pull request. *)
Lemma V2_empty_roster (h : Host) (file : Value) (files : list Value)
    (res : Response) (data : Value) (t : Trace) :
  host_yaml_load h (or_else (getInput h (Js.lit "files-to-update")) (Js.lit "[]"))
  = Ok (VArr (file :: files)) ->
  (forall t0, host_fetch h (JSON_URL (CONFIG h)) t0 = Ok res) ->
  ok res = true ->
  json res = Ok data ->
  tiers_of h data = Ok (VArr []) ->
  post (V2.main h) t
       (fun r events =>
          r = Ok tt /\ failed events = false
          /\ none is_WriteFile events /\ none is_PullsCreate events).
Proof.
  intros Hyaml Hfetch Hok Hjson Htiers.
  unfold V2.main, V2.main_try, V2.fetchSupporterData. rewrite Hyaml.
  destruct data; try discriminate Htiers.
  repeat (mstep; cbv beta iota; rewrite ?Hfetch, ?Hok, ?Hjson, ?Htiers; cbv beta iota);
    simplify_eq; done.
Qed.

(** C6 fails in variant 3.  When the roster's [tiers] is the empty
    sequence, variant 3, which has no stop for it, reads [members] of
    [undefined]; the TypeError reaches the handler of [main] and the run
    is marked as failed (no file is written and no pull request opened).
    Variants 1 and 2 stop with a warning ([V1_empty_roster],
    [V2_empty_roster]). *)
Theorem variant3_fails_on_empty_roster (h : Host) (t : Trace) (file : Value)
    (files : list Value) (res : Response) (data : Value) :
  host_JSON_parse h (or_else (getInput h (Js.lit "files-to-update")) (Js.lit "[]"))
  = Ok (VArr (file :: files)) ->
  host_fetch h (JSON_URL (CONFIG h)) (t ++ [Fetch (JSON_URL (CONFIG h))]) = Ok res ->
  ok res = true ->
  json res = Ok data ->
  tiers_of h data = Ok (VArr []) ->
  V3.main h t
  = (Ok tt, t ++ [Fetch (JSON_URL (CONFIG h)); SetFailed members_of_undefined])
  /\ failed [Fetch (JSON_URL (CONFIG h)); SetFailed members_of_undefined] = true.
Proof.
  intros Hparse Hfetch Hok Hjson Htiers. split; [|reflexivity].
  by apply (V3_empty_roster h t file files res data).
Qed.

Lemma variant3_fails_on_empty_roster_witness :
  V3.main Example.empty_roster_host []
  = (Ok tt,
     [] ++ [Fetch (JSON_URL (CONFIG Example.empty_roster_host));
            SetFailed members_of_undefined])
  /\ failed [Fetch (JSON_URL (CONFIG Example.empty_roster_host));
             SetFailed members_of_undefined] = true.
Proof.
  apply (variant3_fails_on_empty_roster Example.empty_roster_host [] Example.README []
           {| ok := true; status := 200; json := Ok (Example.roster []) |}
           (Example.roster [])); reflexivity.
Defined.

(** ** Missing markers *)

Section MissingMarkers.

Variables (h : Host) (pattern : RegExp) (replacement : list N) (filePath : Value)
          (p text : list N) (t : Trace).
Hypothesis Hfail : FAIL_ON_MISSING_MARKERS (CONFIG h) = true.
Hypothesis Hpath : ToString h filePath = Ok p.
Hypothesis Hread : host_readFile h filePath (t ++ [ReadFile filePath]) = Ok text.
Hypothesis Hmissing : markers_not_found h text = true.

Lemma V1_marker_error :
  V1.updateFileContent h filePath pattern replacement t
  = (Throw (new_Error h (Js.lit "Markers are missing or misordered in " ++ p)),
     t ++ [ReadFile filePath]).
Proof.
  unfold V1.updateFileContent. rewrite (bind_ask _ _ _ _ _ Hread), Hmissing, Hfail.
  by rewrite (bind_lift _ _ _ _ Hpath).
Qed.

Lemma V1_marker_error_caught (changesMade : bool) :
  V1.process_file h pattern replacement changesMade filePath t
  = (Ok changesMade,
     t ++ [ReadFile filePath;
           ErrorLog (Js.lit "Failed to process " ++ p ++ Js.lit ": "
                     ++ Js.lit "Markers are missing or misordered in " ++ p)]).
Proof.
  unfold V1.process_file, try_catch. unfold bind at 1. rewrite V1_marker_error.
  rewrite (bind_lift _ _ _ _ Hpath). unfold core_error. rewrite bind_emit.
  unfold ret. by rewrite <- app_assoc.
Qed.

End MissingMarkers.

(** C1, as the specification states it, fails: with the flag set and a
    file without markers, [main] of each variant returns without an
    error and without marking the run as failed; the error is logged by
    the loop over the files. *)
Lemma missing_markers_counterexample :
  FAIL_ON_MISSING_MARKERS (CONFIG Example.unmarked_host) = true
  /\ markers_not_found Example.unmarked_host Example.unmarked_text = true
  /\ V1.main Example.unmarked_host []
     = (Ok tt,
        [Fetch (Js.lit "https://vsbmeza3.com/supporters.json");
         Exec (Js.lit "git checkout -B update/patrons");
         Exec (Js.lit "git reset --hard origin/main");
         ReadFile Example.README;
         ErrorLog (Js.lit "Failed to process README.md: Markers are missing or misordered in README.md");
         Info (Js.lit "No changes detected. Skipping pull request creation.")])
  /\ failed (snd (V1.main Example.unmarked_host [])) = false
  /\ fst (V2.main Example.unmarked_host []) = Ok tt
  /\ failed (snd (V2.main Example.unmarked_host [])) = false
  /\ fst (V3.main Example.unmarked_host []) = Ok tt
  /\ failed (snd (V3.main Example.unmarked_host [])) = false.
Proof. splits; vm_compute; reflexivity. Qed.

(** C1 (amended).  With [fail-on-missing-markers] set, when the text of
    a target file lacks a marker or shows the first start marker after
    the first end marker, [updateFileContent] throws the error "Markers
    are missing or misordered in" the file; the loop over the files
    catches it, logs it as an error, leaves [changesMade] as it was and
    goes on with the next file.  The error does not reach the handler of
    [main]. *)
Theorem marker_error_is_caught_and_logged (h : Host) (pattern : RegExp)
    (replacement : list N) (filePath : Value) (rest : list Value)
    (p text : list N) (changesMade : bool) (t : Trace) :
  FAIL_ON_MISSING_MARKERS (CONFIG h) = true ->
  ToString h filePath = Ok p ->
  host_readFile h filePath (t ++ [ReadFile filePath]) = Ok text ->
  markers_not_found h text = true ->
  V1.updateFileContent h filePath pattern replacement t
  = (Throw (new_Error h (Js.lit "Markers are missing or misordered in " ++ p)),
     t ++ [ReadFile filePath])
  /\ V1.process_files h pattern replacement changesMade (filePath :: rest) t
     = V1.process_files h pattern replacement changesMade rest
         (t ++ [ReadFile filePath;
                ErrorLog (Js.lit "Failed to process " ++ p ++ Js.lit ": "
                          ++ Js.lit "Markers are missing or misordered in " ++ p)]).
Proof.
  intros Hfail Hpath Hread Hmissing. split.
  - by apply (V1_marker_error h pattern replacement filePath p text).
  - cbn [V1.process_files]. unfold bind at 1.
    by rewrite (V1_marker_error_caught h pattern replacement filePath p text t
                  Hfail Hpath Hread Hmissing changesMade).
Qed.

Lemma marker_error_is_caught_and_logged_witness :
  let h := Example.unmarked_host in
  let pattern := regexp_of [] in
  V1.updateFileContent h Example.README pattern [] []
  = (Throw (new_Error h (Js.lit "Markers are missing or misordered in "
                         ++ Js.lit "README.md")),
     [] ++ [ReadFile Example.README])
  /\ V1.process_files h pattern [] false [Example.README] []
     = V1.process_files h pattern [] false []
         ([] ++ [ReadFile Example.README;
                 ErrorLog (Js.lit "Failed to process " ++ Js.lit "README.md" ++ Js.lit ": "
                           ++ Js.lit "Markers are missing or misordered in "
                           ++ Js.lit "README.md")]).
Proof.
  apply (marker_error_is_caught_and_logged Example.unmarked_host (regexp_of []) []
           Example.README [] (Js.lit "README.md") Example.unmarked_text false []).
  - vm_compute; reflexivity.
  - reflexivity.
  - reflexivity.
  - vm_compute; reflexivity.
Defined.

(** ** Variant 2: the commit follows the staging status *)

Section StagingStatus.

Variable h : Host.

Lemma ran_app (c : list N) (a b : list Event) :
  ran c (a ++ b) = ran c a || ran c b.
Proof. apply existsb_app. Qed.

Lemma none_ran (c : list N) (events : list Event) :
  none (is_Exec c) events -> ran c events = false.
Proof. done. Qed.

Lemma V2_execAsync_post (command : list N) (t : Trace) :
  Js.eqb command git_commit = false ->
  post (V2.execAsync h command) t
       (fun r events =>
          none (is_Exec git_commit) events
          /\ forall out, r = Ok out -> exists t0, host_exec h command t0 = Ok out).
Proof.
  intros Hc. unfold V2.execAsync.
  msteps; (split; [unfold none; simpl; by rewrite ?Hc | intros out [= <-]; eauto]) || (split; [unfold none; simpl; by rewrite ?Hc | done]).
Qed.

Lemma V2_process_file_post (pattern : RegExp) (replacement : list N)
    (changesMade : bool) (filePath : Value) (t : Trace) :
  post (V2.process_file h pattern replacement changesMade filePath) t
       (fun _ events => only is_file_event events).
Proof.
  unfold V2.process_file, V2.updateFileContent.
  msteps; reflexivity.
Qed.

Lemma V2_process_files_post (pattern : RegExp) (replacement : list N)
    (filesToUpdate : list Value) (changesMade : bool) (t : Trace) :
  post (V2.process_files h pattern replacement changesMade filesToUpdate) t
       (fun _ events => only is_file_event events).
Proof.
  revert changesMade t; induction filesToUpdate as [|f fs IH]; intros changesMade t; simpl.
  - by apply post_ret.
  - eapply post_seq; [apply V2_process_file_post|].
    intros [changed|e] events Hev; [|done].
    eapply post_mono; [apply IH|]. intros r events' Hev'. cbv beta.
    apply only_app. by split.
Qed.

(** Whatever follows the look at the staging status only appends events. *)
Lemma V2_commit_tail_post (porcelainStatus : list N) (t : Trace) :
  post (V2.commit_push_pr h porcelainStatus ;;
        core_info (Js.lit "Process completed successfully")) t
       (fun _ _ => True).
Proof.
  unfold V2.commit_push_pr, V2.createOrUpdatePR, V2.execAsync.
  msteps; exact I.
Qed.

Ltac v2_step :=
  first
    [ lazymatch goal with
      | |- post (bind (V2.execAsync _ _) _) _ _ =>
          eapply post_seq; [apply V2_execAsync_post; reflexivity | intros [?|?] ? [? ?]]
      | |- post (bind (V2.process_files _ _ _ _ _) _) _ _ =>
          eapply post_seq; [apply V2_process_files_post | intros [?|?] ? ?]
      | |- post (bind (V2.commit_push_pr _ _) _) _ _ =>
          eapply post_mono; [apply V2_commit_tail_post | intros ? ? _]
      end
    | mstep ].

(** No commit among events that are known to hold none. *)
Ltac no_commit :=
  let Hran := fresh "Hran" in
  intros Hran; exfalso;
  rewrite ?ran_app in Hran;
  repeat match goal with
         | H : none (is_Exec git_commit) ?e |- _ =>
             rewrite (none_ran git_commit e H) in Hran; clear H
         | H : only is_file_event ?e |- _ =>
             rewrite (none_ran git_commit e
                        (only_none is_file_event (is_Exec git_commit) e
                           ltac:(by intros []) H)) in Hran;
             clear H
         end;
  simpl in Hran; discriminate.

Lemma V2_main_try_post (t : Trace) :
  post (V2.main_try h) t (fun _ events => commit_needs_pending h events).
Proof.
  unfold V2.main_try, V2.fetchSupporterData, V2.setupGitBranch.
  repeat (v2_step; cbv beta iota).
  all: unfold commit_needs_pending.
  all: try no_commit.
  all: intros _;
    match goal with
    | Hp : forall out, Ok ?a = Ok out ->
             exists t0, host_exec h (Js.lit "git status --porcelain") t0 = Ok out,
      Ht : Js.trim (stdout ?a) = _ :: _ |- _ =>
        destruct (Hp a eq_refl) as [t0 Ht0]; exists t0, a;
        split; [exact Ht0 | rewrite Ht; discriminate]
    end.
Qed.

(** In every run of variant 2 the commit is attempted only after the
    staging status has shown pending changes. *)
Lemma V2_main_post (t : Trace) :
  post (V2.main h) t (fun _ events => commit_needs_pending h events).
Proof.
  unfold V2.main. apply post_try_catch.
  eapply post_mono; [apply V2_main_try_post|].
  intros [[]|e] events Hc; [done|].
  msteps. unfold commit_needs_pending in *. rewrite !ran_app. simpl.
  rewrite !orb_false_r. exact Hc.
Qed.

End StagingStatus.

(** C5 fails in variants 1 and 3.  Variant 1 never asks for the staging
    status, in any run.  When the file already shows the names, so that
    the substitution returns the text it read, the status after staging
    is empty and git refuses the commit: variants 1 and 3 still set
    [changesMade], attempt the commit and end as failed; variant 2, on
    the same input, asks for the status, attempts no commit and ends
    well ([V2_main_post] states it for every run). *)
Theorem commit_follows_the_flag_in_variant1 :
  (forall h t, post (V1.main h) t (fun _ events => ran porcelain events = false))
  /\ (forall t, host_exec Example.settled_host porcelain t = Ok Example.quiet)
  /\ substituted Example.settled_host Example.README
       (Js.lit "B" ++ separator ++ Js.lit "C") []
     = Ok (Some Example.settled_text)
  /\ ran git_commit (snd (V1.main Example.settled_host [])) = true
  /\ failed (snd (V1.main Example.settled_host [])) = true
  /\ ran git_commit (snd (V3.main Example.settled_host [])) = true
  /\ failed (snd (V3.main Example.settled_host [])) = true
  /\ ran porcelain (snd (V2.main Example.settled_host [])) = true
  /\ ran git_commit (snd (V2.main Example.settled_host [])) = false
  /\ fst (V2.main Example.settled_host []) = Ok tt
  /\ failed (snd (V2.main Example.settled_host [])) = false.
Proof.
  split; [intros h t; apply V1_main_no_status|].
  split; [intros t; reflexivity|].
  splits; vm_compute; reflexivity.
Qed.

(** * Further properties of the script *)

(** ** Failing early: no files, no roster *)

Section EarlyFailures.

Variables (h : Host) (t : Trace).

Lemma V1_main_of_throw (error : JsError) (t' : Trace) :
  V1.main_try h t = (Throw error, t') ->
  V1.main h t = (Throw (ReferenceError h (Js.lit "originalBranch")),
                 t' ++ [SetFailed (e_message error)]).
Proof. intros Htry. unfold V1.main, try_catch. by rewrite Htry. Qed.

Lemma V3_main_of_throw (error : JsError) (t' : Trace) :
  V3.main_try h t = (Throw error, t') ->
  V3.main h t = (Ok tt, t' ++ [SetFailed (e_message error)]).
Proof. intros Htry. unfold V3.main, try_catch. by rewrite Htry. Qed.

Lemma V1_try_no_files (filesToUpdate : Value) :
  host_yaml_load h (files_input h) = Ok filesToUpdate ->
  no_files filesToUpdate = true ->
  V1.main_try h t = (Throw (new_Error h no_files_message), t).
Proof.
  intros Hload Hno. unfold V1.main_try. fold (files_input h).
  rewrite (bind_lift _ _ _ _ Hload). fold (no_files filesToUpdate). by rewrite Hno.
Qed.

Lemma V3_try_no_files (filesToUpdate : Value) :
  host_JSON_parse h (files_input h) = Ok filesToUpdate ->
  no_files filesToUpdate = true ->
  V3.main_try h t = (Throw (new_Error h no_files_message), t).
Proof.
  intros Hload Hno. unfold V3.main_try. fold (files_input h).
  rewrite (bind_lift _ _ _ _ Hload). fold (no_files filesToUpdate). by rewrite Hno.
Qed.

End EarlyFailures.

(** X1.  When the parsed [files-to-update] is not an array or is empty,
    each variant marks the run as failed with "No files specified in
    'files-to-update'." and does nothing else: no fetch, no git command,
    no file read or written, no pull request.  (Variant 2 has logged its
    start and two debug lines before.) *)
Theorem no_files_no_work (h : Host) (t : Trace) (filesToUpdate : Value) :
  no_files filesToUpdate = true ->
  (host_yaml_load h (files_input h) = Ok filesToUpdate ->
   snd (V1.main h t) = t ++ [SetFailed no_files_message]
   /\ exists logged,
        snd (V2.main h t) = t ++ logged ++ [SetFailed no_files_message]
        /\ only is_log logged)
  /\ (host_JSON_parse h (files_input h) = Ok filesToUpdate ->
      V3.main h t = (Ok tt, t ++ [SetFailed no_files_message])).
Proof.
  intros Hno. split.
  - intros Hload. split.
    + by rewrite (V1_main_of_throw h t _ _ (V1_try_no_files h t _ Hload Hno)).
    + unfold V2.main, try_catch, V2.main_try. fold (files_input h).
      unfold core_info, core_debug, core_error, core_setFailed.
      rewrite !bind_emit, (bind_lift _ _ _ _ Hload), bind_emit.
      fold (no_files filesToUpdate). rewrite Hno.
      unfold throw. rewrite !bind_emit.
      unfold emit. cbn [snd]. rewrite <- !app_assoc. cbn [app].
      eexists [_; _; _; _; _]. split; [reflexivity|]. reflexivity.
  - intros Hload.
    by rewrite (V3_main_of_throw h t _ _ (V3_try_no_files h t _ Hload Hno)).
Qed.

Lemma no_files_no_work_witness :
  (host_yaml_load (Example.with_files (VArr []) Example.two_pairs_host)
     (files_input (Example.with_files (VArr []) Example.two_pairs_host)) = Ok (VArr []) ->
   snd (V1.main (Example.with_files (VArr []) Example.two_pairs_host) [])
   = [] ++ [SetFailed no_files_message]
   /\ exists logged,
        snd (V2.main (Example.with_files (VArr []) Example.two_pairs_host) [])
        = [] ++ logged ++ [SetFailed no_files_message]
        /\ only is_log logged)
  /\ (host_JSON_parse (Example.with_files (VArr []) Example.two_pairs_host)
        (files_input (Example.with_files (VArr []) Example.two_pairs_host)) = Ok (VArr []) ->
      V3.main (Example.with_files (VArr []) Example.two_pairs_host) []
      = (Ok tt, [] ++ [SetFailed no_files_message])).
Proof.
  apply (no_files_no_work (Example.with_files (VArr []) Example.two_pairs_host) []
           (VArr [])).
  reflexivity.
Defined.

Lemma only_log_harmless (l : list Event) : only is_log l -> only is_harmless l.
Proof.
  unfold only. rewrite !forallb_forall. intros H ev Hev. unfold is_harmless.
  by rewrite (H ev Hev).
Qed.

Section RosterFailures.

Variables (h : Host) (filesToUpdate : list Value).
Hypothesis Hfiles : files_given h filesToUpdate.

Lemma files_pass : no_files (VArr filesToUpdate) = false.
Proof. destruct Hfiles as [Hne _]. by destruct filesToUpdate. Qed.

Lemma V1_try_after_files (t : Trace) :
  V1.main_try h t
  = (data <- V1.fetchSupporterData h (JSON_URL (CONFIG h)) ;;
     tiers <- lift (tiers_of h data) ;;
     if negb (isArray tiers) then throw (new_Error h bad_tiers_message)
     else
     if (length (elements tiers) =? 0)%nat then
       core_warning (Js.lit "No supporters found in the supporter data.")
     else
     bad <- lift (some_tier_without_members h (elements tiers)) ;;
     if bad then throw (new_Error h bad_data_message)
     else V1_rest h filesToUpdate (elements tiers)) t.
Proof.
  destruct Hfiles as (_ & Hload & _). unfold V1.main_try. fold (files_input h).
  rewrite (bind_lift _ _ _ _ Hload). fold (no_files (VArr filesToUpdate)).
  rewrite files_pass. reflexivity.
Qed.

Lemma V2_try_after_files (t : Trace) :
  exists logged,
    V2.main_try h t
    = (data <- V2.fetchSupporterData h (JSON_URL (CONFIG h)) ;;
       tiers <- lift (tiers_of h data) ;;
       if negb (isArray tiers) then throw (new_Error h bad_tiers_message)
       else
       if (length (elements tiers) =? 0)%nat then
         core_warning (Js.lit "No supporters found in the supporter data.")
       else
       bad <- lift (some_tier_without_members h (elements tiers)) ;;
       if bad then throw (new_Error h bad_data_message)
       else V2_rest h filesToUpdate (elements tiers)) (t ++ logged)
    /\ only is_log logged.
Proof.
  destruct Hfiles as (_ & Hload & _). unfold V2.main_try. fold (files_input h).
  unfold core_info at 1. unfold core_debug at 1 2.
  rewrite !bind_emit, (bind_lift _ _ _ _ Hload), bind_emit.
  fold (no_files (VArr filesToUpdate)). rewrite files_pass.
  rewrite <- !app_assoc. cbn [app]. eexists [_; _; _]. split; reflexivity.
Qed.

Lemma V3_try_after_files (t : Trace) :
  V3.main_try h t
  = (data <- V3.fetchSupporterData h (JSON_URL (CONFIG h)) ;;
     tiers <- lift (tiers_of h data) ;;
     bad <- (if negb (isArray tiers) then ret true
             else lift (some_tier_without_members h (elements tiers))) ;;
     if bad then throw (new_Error h bad_data_message)
     else V3_rest h filesToUpdate (elements tiers)) t.
Proof.
  destruct Hfiles as (_ & _ & Hload). unfold V3.main_try. fold (files_input h).
  rewrite (bind_lift _ _ _ _ Hload). fold (no_files (VArr filesToUpdate)).
  rewrite files_pass. reflexivity.
Qed.

Lemma bind_ok {A B} (m : M A) (k : A -> M B) (t t' : Trace) (a : A) :
  m t = (Ok a, t') -> bind m k t = k a t'.
Proof. intros H. unfold bind. by rewrite H. Qed.

Lemma bind_throw {A B} (m : M A) (k : A -> M B) (t t' : Trace) (e : JsError) :
  m t = (Throw e, t') -> bind m k t = (Throw e, t').
Proof. intros H. unfold bind. by rewrite H. Qed.

Lemma bind_assoc {A B C} (m : M A) (f : A -> M B) (k : B -> M C) (t : Trace) :
  bind (bind m f) k t = bind m (fun x => bind (f x) k) t.
Proof. unfold bind. by destruct (m t) as [[a|e] t']. Qed.

Lemma V2_main_of_throw (error : JsError) (t t' : Trace) :
  V2.main_try h t = (Throw error, t') ->
  V2.main h t
  = (Ok tt, t' ++ [ErrorLog (Js.lit "Failed with error: " ++ e_message error);
                   Debug (Js.lit "Error stack: " ++ e_stack error);
                   SetFailed (e_message error)]).
Proof.
  intros Htry. unfold V2.main, try_catch. rewrite Htry.
  unfold core_error, core_debug, core_setFailed. rewrite !bind_emit.
  unfold emit. by rewrite <- !app_assoc.
Qed.

Section Fetch.

Variables (answer : outcome Response) (t : Trace).
Hypothesis Hanswer : roster_answer h answer.

Lemma V1_fetch_fails (e : JsError) :
  fetch_failure h answer = Some e ->
  V1.fetchSupporterData h (JSON_URL (CONFIG h)) t
  = (Throw e, t ++ [Fetch (JSON_URL (CONFIG h))]).
Proof.
  intros He. unfold V1.fetchSupporterData, bind, ask. rewrite Hanswer.
  destruct answer as [res|e']; unfold fetch_failure in He; cbv beta iota;
    [|congruence].
  destruct (ok res); cbn [negb]; cbv beta iota.
  - unfold lift. destruct (json res); cbv beta iota; congruence.
  - unfold throw. cbv beta iota. apply (inj Some) in He. by rewrite <- He.
Qed.

Lemma V2_fetch_fails (e : JsError) :
  fetch_failure h answer = Some e ->
  V2.fetchSupporterData h (JSON_URL (CONFIG h)) t
  = (Throw e, t ++ [Debug (Js.lit "Fetching supporter data from: " ++ JSON_URL (CONFIG h));
                    Fetch (JSON_URL (CONFIG h))]).
Proof.
  intros He. unfold V2.fetchSupporterData, core_debug. rewrite bind_emit.
  unfold bind, ask. rewrite Hanswer, <- app_assoc. cbn [app].
  destruct answer as [res|e']; unfold fetch_failure in He; cbv beta iota;
    [|congruence].
  destruct (ok res); cbn [negb]; cbv beta iota.
  - unfold lift. destruct (json res); cbv beta iota; congruence.
  - unfold throw. cbv beta iota. apply (inj Some) in He. by rewrite <- He.
Qed.

Lemma V1_fetch_serves (res : Response) (data : Value) :
  answer = Ok res -> ok res = true -> json res = Ok data ->
  V1.fetchSupporterData h (JSON_URL (CONFIG h)) t
  = (Ok data, t ++ [Fetch (JSON_URL (CONFIG h))]).
Proof.
  intros Hres Hok Hjson. unfold V1.fetchSupporterData, bind, ask.
  by rewrite Hanswer, Hres, Hok, Hjson.
Qed.

Lemma V2_fetch_serves (res : Response) (data : Value) :
  answer = Ok res -> ok res = true -> json res = Ok data -> data <> VUndefined ->
  V2.fetchSupporterData h (JSON_URL (CONFIG h)) t
  = (Ok data,
     t ++ [Debug (Js.lit "Fetching supporter data from: " ++ JSON_URL (CONFIG h));
           Fetch (JSON_URL (CONFIG h));
           Debug (Js.lit "Received supporter data: "
                  ++ take 200 (host_JSON_stringify h data) ++ Js.lit "...")]).
Proof.
  intros Hres Hok Hjson Hdata. unfold V2.fetchSupporterData, core_debug.
  rewrite bind_emit. unfold bind at 1. unfold ask. rewrite Hanswer, Hres, Hok.
  cbn [negb]. rewrite (bind_lift _ _ _ _ Hjson).
  destruct data; try done; rewrite bind_emit; unfold ret;
    by rewrite <- !app_assoc.
Qed.

End Fetch.

End RosterFailures.

(** X2.  When the request for the roster fails (the request is rejected,
    the status is outside 200-299, or the body is not JSON), each variant
    marks the run as failed with the message of that error, "HTTP
    <status>" for a bad status, and has done nothing but ask and log: no
    git command, no file read or written, no pull request. *)
Theorem failed_request_stops_the_run (h : Host) (filesToUpdate : list Value)
    (answer : outcome Response) (e : JsError) (t : Trace) :
  files_given h filesToUpdate ->
  roster_answer h answer ->
  fetch_failure h answer = Some e ->
  snd (V1.main h t) = t ++ [Fetch (JSON_URL (CONFIG h)); SetFailed (e_message e)]
  /\ V3.main h t = (Ok tt, t ++ [Fetch (JSON_URL (CONFIG h)); SetFailed (e_message e)])
  /\ exists logged,
       V2.main h t = (Ok tt, t ++ logged ++ [SetFailed (e_message e)])
       /\ only is_harmless logged.
Proof.
  intros Hfiles Hanswer He. splits.
  - rewrite (V1_main_of_throw h t e (t ++ [Fetch (JSON_URL (CONFIG h))])).
    + cbn [snd]. by rewrite <- app_assoc.
    + rewrite (V1_try_after_files h _ Hfiles).
      apply bind_throw, (V1_fetch_fails h answer t Hanswer e He).
  - rewrite (V3_main_of_throw h t e (t ++ [Fetch (JSON_URL (CONFIG h))])).
    + by rewrite <- app_assoc.
    + rewrite (V3_try_after_files h _ Hfiles).
      apply bind_throw, (V1_fetch_fails h answer t Hanswer e He).
  - destruct (V2_try_after_files h _ Hfiles t) as (logged & Htry & Hlogged).
    rewrite (V2_main_of_throw h e t _
               (eq_trans Htry (bind_throw _ _ _ _ _
                                 (V2_fetch_fails h answer _ Hanswer e He)))).
    eexists (logged ++ [_; _; _; _]). split.
    + by rewrite <- !app_assoc.
    + apply only_app. split; [by apply only_log_harmless|reflexivity].
Qed.

Lemma failed_request_stops_the_run_witness :
  snd (V1.main Example.not_found_host [])
  = [] ++ [Fetch (JSON_URL (CONFIG Example.not_found_host));
           SetFailed (Js.lit "HTTP 404")]
  /\ V3.main Example.not_found_host []
     = (Ok tt, [] ++ [Fetch (JSON_URL (CONFIG Example.not_found_host));
                      SetFailed (Js.lit "HTTP 404")])
  /\ exists logged,
       V2.main Example.not_found_host []
       = (Ok tt, [] ++ logged ++ [SetFailed (Js.lit "HTTP 404")])
       /\ only is_harmless logged.
Proof.
  apply (failed_request_stops_the_run Example.not_found_host [Example.README]
           (Ok {| ok := false; status := 404; json := Ok VNull |})
           (new_Error Example.not_found_host (Js.lit "HTTP 404")) []).
  - split; [done|]. split; reflexivity.
  - intros t. reflexivity.
  - reflexivity.
Defined.


(** ** The checks on the roster *)

Lemma tiers_not_array (h : Host) (data : Value) :
  (forall tiers, tiers_of h data <> Ok (VArr tiers)) ->
  exists v, tiers_of h data = Ok v /\ isArray v = false.
Proof.
  intros Hno. destruct data as [| |b|r|s|l|props]; cbn [tiers_of Get] in *;
    try (eexists; split; [reflexivity|reflexivity]).
  destruct (default VUndefined (assoc (Js.lit "tiers") props)) as [| |b|r|s|l|props'] eqn:Hv;
    try (eexists; split; [reflexivity|reflexivity]).
  by destruct (Hno l).
Qed.

Lemma tiers_pass_all (h : Host) (tiers : list Value) :
  Forall (has_members h) tiers -> some_tier_without_members h tiers = Ok false.
Proof.
  induction 1 as [|tier tiers [ms Hms] _ IH]; cbn [some_tier_without_members]; [done|].
  by rewrite Hms.
Qed.

Lemma first_bad_tier (h : Host) (good rest : list Value) (tier members : Value) :
  Forall (has_members h) good ->
  Get h tier (Js.lit "members") = Ok members ->
  isArray members = false ->
  some_tier_without_members h (good ++ tier :: rest) = Ok true.
Proof.
  intros Hgood Hget Hnot. induction Hgood as [|x good [ms Hx] _ IH]; cbn [app some_tier_without_members].
  - by rewrite Hget; cbn [obind]; rewrite Hnot.
  - by rewrite Hx.
Qed.

(** X3.  A roster whose [tiers] is not an array (or a roster that is
    [null], through [data?.tiers]) stops each variant before any git
    command or file access, with "Supporter tiers are missing or
    malformed." in variants 1 and 2 and "Supporter data is missing or
    malformed." in variant 3. *)
Theorem roster_without_tiers_stops_the_run (h : Host) (filesToUpdate : list Value)
    (data : Value) (t : Trace) :
  files_given h filesToUpdate ->
  roster_served h data ->
  (forall tiers, tiers_of h data <> Ok (VArr tiers)) ->
  snd (V1.main h t) = t ++ [Fetch (JSON_URL (CONFIG h)); SetFailed bad_tiers_message]
  /\ V3.main h t = (Ok tt, t ++ [Fetch (JSON_URL (CONFIG h)); SetFailed bad_data_message])
  /\ (data <> VUndefined ->
      exists logged,
        V2.main h t = (Ok tt, t ++ logged ++ [SetFailed bad_tiers_message])
        /\ only is_harmless logged).
Proof.
  intros Hfiles (res & Hanswer & Hok & Hjson) Hno.
  destruct (tiers_not_array h data Hno) as (v & Hv & Harr). splits.
  - rewrite (V1_main_of_throw h t (new_Error h bad_tiers_message)
               (t ++ [Fetch (JSON_URL (CONFIG h))])).
    + cbn [snd]. by rewrite <- app_assoc.
    + rewrite (V1_try_after_files h _ Hfiles).
      rewrite (bind_ok _ _ _ _ _ (V1_fetch_serves h _ t Hanswer res data eq_refl Hok Hjson)).
      by rewrite (bind_lift _ _ _ _ Hv), Harr.
  - rewrite (V3_main_of_throw h t (new_Error h bad_data_message)
               (t ++ [Fetch (JSON_URL (CONFIG h))])).
    + by rewrite <- app_assoc.
    + rewrite (V3_try_after_files h _ Hfiles).
      rewrite (bind_ok _ _ _ _ _ (V1_fetch_serves h _ t Hanswer res data eq_refl Hok Hjson)).
      by rewrite (bind_lift _ _ _ _ Hv), Harr.
  - intros Hdata.
    destruct (V2_try_after_files h _ Hfiles t) as (logged & Htry & Hlogged).
    pose proof (V2_fetch_serves h _ (t ++ logged) Hanswer res data eq_refl Hok Hjson Hdata)
      as Hfetch.
    rewrite (bind_ok _ _ _ _ _ Hfetch), (bind_lift _ _ _ _ Hv), Harr in Htry.
    rewrite (V2_main_of_throw h _ t _ Htry).
    eexists (logged ++ [_; _; _; _; _]). split.
    + rewrite <- !app_assoc. reflexivity.
    + apply only_app. split; [by apply only_log_harmless|reflexivity].
Qed.

Lemma roster_without_tiers_stops_the_run_witness :
  snd (V1.main Example.null_roster_host [])
  = [] ++ [Fetch (JSON_URL (CONFIG Example.null_roster_host));
           SetFailed bad_tiers_message]
  /\ V3.main Example.null_roster_host []
     = (Ok tt, [] ++ [Fetch (JSON_URL (CONFIG Example.null_roster_host));
                      SetFailed bad_data_message])
  /\ (VNull <> VUndefined ->
      exists logged,
        V2.main Example.null_roster_host []
        = (Ok tt, [] ++ logged ++ [SetFailed bad_tiers_message])
        /\ only is_harmless logged).
Proof.
  apply (roster_without_tiers_stops_the_run Example.null_roster_host
           [Example.README] VNull []).
  - split; [done|]. split; reflexivity.
  - exists {| ok := true; status := 200; json := Ok VNull |}.
    split; [intros t; reflexivity|]. split; reflexivity.
  - intros tiers. cbn [tiers_of]. discriminate.
Defined.

(** X4.  A roster in which some tier has no array of members, every tier
    before it having one, stops each variant with "Supporter data is
    missing or malformed." before any git command or file access. *)
Theorem tier_without_members_stops_the_run (h : Host) (filesToUpdate : list Value)
    (data : Value) (good rest : list Value) (tier members : Value) (t : Trace) :
  files_given h filesToUpdate ->
  roster_served h data ->
  tiers_of h data = Ok (VArr (good ++ tier :: rest)) ->
  Forall (has_members h) good ->
  Get h tier (Js.lit "members") = Ok members ->
  isArray members = false ->
  snd (V1.main h t) = t ++ [Fetch (JSON_URL (CONFIG h)); SetFailed bad_data_message]
  /\ V3.main h t = (Ok tt, t ++ [Fetch (JSON_URL (CONFIG h)); SetFailed bad_data_message])
  /\ exists logged,
       V2.main h t = (Ok tt, t ++ logged ++ [SetFailed bad_data_message])
       /\ only is_harmless logged.
Proof.
  intros Hfiles (res & Hanswer & Hok & Hjson) Htiers Hgood Hget Hnot.
  pose proof (first_bad_tier h good rest tier members Hgood Hget Hnot) as Hbad.
  assert (Hlen : (length (good ++ tier :: rest) =? 0)%nat = false)
    by (rewrite length_app; cbn [length]; apply Nat.eqb_neq; lia).
  assert (Hdata : data <> VUndefined) by (intros ->; discriminate Htiers).
  splits.
  - rewrite (V1_main_of_throw h t (new_Error h bad_data_message)
               (t ++ [Fetch (JSON_URL (CONFIG h))])).
    + cbn [snd]. by rewrite <- app_assoc.
    + rewrite (V1_try_after_files h _ Hfiles).
      rewrite (bind_ok _ _ _ _ _ (V1_fetch_serves h _ t Hanswer res data eq_refl Hok Hjson)).
      rewrite (bind_lift _ _ _ _ Htiers). cbn [isArray negb elements].
      by rewrite Hlen, (bind_lift _ _ _ _ Hbad).
  - rewrite (V3_main_of_throw h t (new_Error h bad_data_message)
               (t ++ [Fetch (JSON_URL (CONFIG h))])).
    + by rewrite <- app_assoc.
    + rewrite (V3_try_after_files h _ Hfiles).
      rewrite (bind_ok _ _ _ _ _ (V1_fetch_serves h _ t Hanswer res data eq_refl Hok Hjson)).
      rewrite (bind_lift _ _ _ _ Htiers). cbn [isArray negb elements].
      by rewrite (bind_lift _ _ _ _ Hbad).
  - destruct (V2_try_after_files h _ Hfiles t) as (logged & Htry & Hlogged).
    pose proof (V2_fetch_serves h _ (t ++ logged) Hanswer res data eq_refl Hok Hjson Hdata)
      as Hfetch.
    rewrite (bind_ok _ _ _ _ _ Hfetch), (bind_lift _ _ _ _ Htiers) in Htry.
    cbn [isArray negb elements] in Htry.
    rewrite Hlen, (bind_lift _ _ _ _ Hbad) in Htry.
    rewrite (V2_main_of_throw h _ t _ Htry).
    eexists (logged ++ [_; _; _; _; _]). split.
    + rewrite <- !app_assoc. reflexivity.
    + apply only_app. split; [by apply only_log_harmless|reflexivity].
Qed.

Lemma tier_without_members_stops_the_run_witness :
  snd (V1.main Example.broken_tier_host [])
  = [] ++ [Fetch (JSON_URL (CONFIG Example.broken_tier_host));
           SetFailed bad_data_message]
  /\ V3.main Example.broken_tier_host []
     = (Ok tt, [] ++ [Fetch (JSON_URL (CONFIG Example.broken_tier_host));
                      SetFailed bad_data_message])
  /\ exists logged,
       V2.main Example.broken_tier_host []
       = (Ok tt, [] ++ logged ++ [SetFailed bad_data_message])
       /\ only is_harmless logged.
Proof.
  apply (tier_without_members_stops_the_run Example.broken_tier_host
           [Example.README] (Example.roster Example.broken_tiers)
           [Example.tier (Js.lit "Tier 1") [Example.member (Js.lit "A")]] []
           (VObj [(Js.lit "name", VStr (Js.lit "Tier 2"));
                  (Js.lit "members", VStr (Js.lit "B"))])
           (VStr (Js.lit "B")) []).
  - split; [done|]. split; reflexivity.
  - exists {| ok := true; status := 200;
                json := Ok (Example.roster Example.broken_tiers) |}.
    split; [intros t; reflexivity|]. split; reflexivity.
  - reflexivity.
  - constructor; [|constructor]. exists [Example.member (Js.lit "A")]. reflexivity.
  - reflexivity.
  - reflexivity.
Defined.

(** X5.  The check [tiers.some(tier => !Array.isArray(tier.members))]
    answers [false] exactly when every tier has an array of members. *)
Theorem tiers_pass_iff_all_have_members (h : Host) (tiers : list Value) :
  some_tier_without_members h tiers = Ok false <-> Forall (has_members h) tiers.
Proof.
  induction tiers as [|tier tiers IH]; cbn [some_tier_without_members].
  - split; [constructor|done].
  - split.
    + destruct (Get h tier (Js.lit "members")) as [v|e] eqn:Hget; cbn [obind]; [|done].
      destruct v; cbn [isArray negb]; try done.
      intros H. constructor; [by eexists|by apply IH].
    + intros H. apply (tiers_pass_all h (tier :: tiers) H).
Qed.

(** ** The names of the last tier *)

Lemma pieces_of_members (h : Host) (members : list Value) (pieces : list (list N)) :
  Forall2 (name_piece h) members pieces ->
  exists names,
    mapO (fun m => Get h m (Js.lit "name")) members = Ok names
    /\ mapO (fun v => match v with
                      | VUndefined | VNull => Ok []
                      | _ => ToString h v
                      end) names = Ok pieces.
Proof.
  induction 1 as [|m p members pieces Hm _ (names & Hnames & Hpieces)].
  - by exists [].
  - cbn [mapO]. rewrite Hnames.
    destruct Hm as [Hm|[-> [Hm|Hm]]]; rewrite Hm; cbn [obind];
      eexists; (split; [reflexivity|]); cbn [mapO ToString obind]; by rewrite Hpieces.
Qed.

(** X6.  The names put between the markers are the [name]s of the
    members of the tier joined by space, middle dot, space, where a member
    without a [name], or with [name: null], contributes the empty string:
    its separators stay.  A tier without members gives the empty string. *)
Theorem nameless_members_leave_gaps (h : Host) (tier : Value) (members : list Value)
    (pieces : list (list N)) :
  Get h tier (Js.lit "members") = Ok (VArr members) ->
  Forall2 (name_piece h) members pieces ->
  names_of h tier = Ok (Js.join separator pieces).
Proof.
  intros Hget Hall. unfold names_of. rewrite Hget. cbn [obind].
  destruct (pieces_of_members h members pieces Hall) as (names & Hnames & Hpieces).
  rewrite Hnames. cbn [obind]. unfold Array_join. by rewrite Hpieces.
Qed.

Lemma nameless_members_leave_gaps_witness :
  names_of Example.two_pairs_host
    (Example.tier (Js.lit "Tier 2") Example.patchy_members)
  = Ok (Js.join separator [Js.lit "A"; []; []; Js.lit "B"]).
Proof.
  apply (nameless_members_leave_gaps Example.two_pairs_host
           (Example.tier (Js.lit "Tier 2") Example.patchy_members)
           Example.patchy_members [Js.lit "A"; []; []; Js.lit "B"]).
  - reflexivity.
  - constructor; [left; reflexivity|].
    constructor; [right; split; [reflexivity|left; reflexivity]|].
    constructor; [right; split; [reflexivity|right; reflexivity]|].
    constructor; [left; reflexivity|]. constructor.
Defined.

Lemma null_member_throws (h : Host) (named rest : list Value) :
  Forall (fun m => exists v, Get h m (Js.lit "name") = Ok v) named ->
  exists e,
    mapO (fun m => Get h m (Js.lit "name")) (named ++ VNull :: rest) = Throw e
    /\ e_message e = name_of_null.
Proof.
  induction 1 as [|m named [v Hv] _ (e & He & Hmsg)]; cbn [app mapO].
  - eexists. split; reflexivity.
  - rewrite Hv, He. cbn [obind]. by exists e.
Qed.

Lemma last_not_nil {A} (l : list A) (x : A) : last l = Some x -> l <> [].
Proof. by intros H ->. Qed.

(** X7.  The checks on the roster do not look inside the members: when
    the last tier lists [null] among its members, reading its [name]
    throws, and each variant ends marked as failed with "Cannot read
    properties of null (reading 'name')", before any git command or file
    access. *)
Theorem null_member_stops_the_run (h : Host) (filesToUpdate : list Value)
    (data : Value) (tiers : list Value) (lastTier : Value)
    (named rest : list Value) (t : Trace) :
  files_given h filesToUpdate ->
  roster_served h data ->
  tiers_of h data = Ok (VArr tiers) ->
  Forall (has_members h) tiers ->
  last tiers = Some lastTier ->
  Get h lastTier (Js.lit "members") = Ok (VArr (named ++ VNull :: rest)) ->
  Forall (fun m => exists v, Get h m (Js.lit "name") = Ok v) named ->
  snd (V1.main h t) = t ++ [Fetch (JSON_URL (CONFIG h)); SetFailed name_of_null]
  /\ V3.main h t = (Ok tt, t ++ [Fetch (JSON_URL (CONFIG h)); SetFailed name_of_null])
  /\ exists logged,
       V2.main h t = (Ok tt, t ++ logged ++ [SetFailed name_of_null])
       /\ only is_harmless logged.
Proof.
  intros Hfiles (res & Hanswer & Hok & Hjson) Htiers Hall Hlast Hget Hnamed.
  apply tiers_pass_all in Hall.
  destruct (null_member_throws h named rest Hnamed) as (e & He & Hmsg).
  assert (Hnames : names_of h (lastTier_of tiers) = Throw e).
  { unfold lastTier_of, names_of. rewrite Hlast.
    change (default VUndefined (Some lastTier)) with lastTier. rewrite Hget.
    cbn [obind]. by rewrite He. }
  assert (Hlen : (length tiers =? 0)%nat = false).
  { apply Nat.eqb_neq. pose proof (last_not_nil _ _ Hlast). by destruct tiers. }
  assert (Hdata : data <> VUndefined) by (intros ->; discriminate Htiers).
  assert (Hrest1 : forall t', V1_rest h filesToUpdate tiers t' = (Throw e, t')).
  { intros t'. unfold V1_rest. cbv zeta. unfold bind at 1, lift. by rewrite Hnames. }
  assert (Hrest2 : forall t', V2_rest h filesToUpdate tiers t' = (Throw e, t')).
  { intros t'. unfold V2_rest. cbv zeta. unfold bind at 1, lift. by rewrite Hnames. }
  assert (Hrest3 : forall t', V3_rest h filesToUpdate tiers t' = (Throw e, t')).
  { intros t'. unfold V3_rest. cbv zeta. unfold bind at 1, lift. by rewrite Hnames. }
  rewrite <- Hmsg. splits.
  - rewrite (V1_main_of_throw h t e (t ++ [Fetch (JSON_URL (CONFIG h))])).
    + cbn [snd]. by rewrite <- app_assoc.
    + rewrite (V1_try_after_files h _ Hfiles).
      rewrite (bind_ok _ _ _ _ _ (V1_fetch_serves h _ t Hanswer res data eq_refl Hok Hjson)).
      rewrite (bind_lift _ _ _ _ Htiers). cbn [isArray negb elements].
      by rewrite Hlen, (bind_lift _ _ _ _ Hall).
  - rewrite (V3_main_of_throw h t e (t ++ [Fetch (JSON_URL (CONFIG h))])).
    + by rewrite <- app_assoc.
    + rewrite (V3_try_after_files h _ Hfiles).
      rewrite (bind_ok _ _ _ _ _ (V1_fetch_serves h _ t Hanswer res data eq_refl Hok Hjson)).
      rewrite (bind_lift _ _ _ _ Htiers). cbn [isArray negb elements].
      by rewrite (bind_lift _ _ _ _ Hall).
  - destruct (V2_try_after_files h _ Hfiles t) as (logged & Htry & Hlogged).
    pose proof (V2_fetch_serves h _ (t ++ logged) Hanswer res data eq_refl Hok Hjson Hdata)
      as Hfetch.
    rewrite (bind_ok _ _ _ _ _ Hfetch), (bind_lift _ _ _ _ Htiers) in Htry.
    cbn [isArray negb elements] in Htry.
    rewrite Hlen, (bind_lift _ _ _ _ Hall), Hrest2 in Htry.
    rewrite (V2_main_of_throw h _ t _ Htry).
    eexists (logged ++ [_; _; _; _; _]). split.
    + rewrite <- !app_assoc. reflexivity.
    + apply only_app. split; [by apply only_log_harmless|reflexivity].
Qed.

Lemma null_member_stops_the_run_witness :
  snd (V1.main Example.null_member_host [])
  = [] ++ [Fetch (JSON_URL (CONFIG Example.null_member_host)); SetFailed name_of_null]
  /\ V3.main Example.null_member_host []
     = (Ok tt, [] ++ [Fetch (JSON_URL (CONFIG Example.null_member_host));
                      SetFailed name_of_null])
  /\ exists logged,
       V2.main Example.null_member_host []
       = (Ok tt, [] ++ logged ++ [SetFailed name_of_null])
       /\ only is_harmless logged.
Proof.
  apply (null_member_stops_the_run Example.null_member_host [Example.README]
           (Example.roster Example.null_member_tiers) Example.null_member_tiers
           (Example.tier (Js.lit "Tier 2") [Example.member (Js.lit "B"); VNull])
           [Example.member (Js.lit "B")] [] []).
  - split; [done|]. split; reflexivity.
  - exists {| ok := true; status := 200;
              json := Ok (Example.roster Example.null_member_tiers) |}.
    split; [intros t; reflexivity|]. split; reflexivity.
  - reflexivity.
  - constructor; [|constructor; [|constructor]].
    + exists [Example.member (Js.lit "A")]. reflexivity.
    + exists [Example.member (Js.lit "B"); VNull]. reflexivity.
  - reflexivity.
  - reflexivity.
  - constructor; [|constructor]. exists (VStr (Js.lit "B")). reflexivity.
Defined.

(** ** The empty roster in variants 1 and 2 *)

(** X8.  When the roster's [tiers] is the empty array, variants 1 and 2
    end well with the warning "No supporters found in the supporter
    data.": the run is not marked as failed, no git command runs, no file
    is read or written, no pull request is opened. *)
Theorem empty_roster_is_only_a_warning (h : Host) (filesToUpdate : list Value)
    (data : Value) (t : Trace) :
  files_given h filesToUpdate ->
  roster_served h data ->
  tiers_of h data = Ok (VArr []) ->
  V1.main h t
  = (Ok tt, t ++ [Fetch (JSON_URL (CONFIG h));
                  Warning (Js.lit "No supporters found in the supporter data.")])
  /\ exists logged,
       V2.main h t
       = (Ok tt, t ++ logged
                 ++ [Warning (Js.lit "No supporters found in the supporter data.")])
       /\ only is_harmless logged.
Proof.
  intros Hfiles (res & Hanswer & Hok & Hjson) Htiers.
  assert (Hdata : data <> VUndefined) by (intros ->; discriminate Htiers).
  split.
  - unfold V1.main, try_catch. rewrite (V1_try_after_files h _ Hfiles).
    rewrite (bind_ok _ _ _ _ _ (V1_fetch_serves h _ t Hanswer res data eq_refl Hok Hjson)).
    rewrite (bind_lift _ _ _ _ Htiers). cbn [isArray negb elements length Nat.eqb].
    unfold core_warning, emit. by rewrite <- app_assoc.
  - destruct (V2_try_after_files h _ Hfiles t) as (logged & Htry & Hlogged).
    pose proof (V2_fetch_serves h _ (t ++ logged) Hanswer res data eq_refl Hok Hjson Hdata)
      as Hfetch.
    rewrite (bind_ok _ _ _ _ _ Hfetch), (bind_lift _ _ _ _ Htiers) in Htry.
    cbn [isArray negb elements length Nat.eqb] in Htry.
    unfold V2.main, try_catch. rewrite Htry. unfold core_warning, emit.
    eexists (logged ++ [_; _; _]). split.
    + rewrite <- !app_assoc. reflexivity.
    + apply only_app. split; [by apply only_log_harmless|reflexivity].
Qed.

Lemma empty_roster_is_only_a_warning_witness :
  V1.main Example.empty_roster_host []
  = (Ok tt, [] ++ [Fetch (JSON_URL (CONFIG Example.empty_roster_host));
                   Warning (Js.lit "No supporters found in the supporter data.")])
  /\ exists logged,
       V2.main Example.empty_roster_host []
       = (Ok tt, [] ++ logged
                 ++ [Warning (Js.lit "No supporters found in the supporter data.")])
       /\ only is_harmless logged.
Proof.
  apply (empty_roster_is_only_a_warning Example.empty_roster_host [Example.README]
           (Example.roster []) []).
  - split; [done|]. split; reflexivity.
  - exists {| ok := true; status := 200; json := Ok (Example.roster []) |}.
    split; [intros t; reflexivity|]. split; reflexivity.
  - reflexivity.
Defined.

(** ** One file of the loop *)

Section Skipped.

Variables (h : Host) (pattern : RegExp) (replacement : list N) (changesMade : bool)
          (filePath : Value) (p text : list N) (t : Trace).
Hypothesis Hflag : FAIL_ON_MISSING_MARKERS (CONFIG h) = false.
Hypothesis Hp : ToString h filePath = Ok p.
Hypothesis Hread : forall t0, host_readFile h filePath t0 = Ok text.
Hypothesis Hguard : markers_not_found h text = true.

Lemma V1_file_skipped :
  V1.process_file h pattern replacement changesMade filePath t
  = (Ok changesMade, t ++ [ReadFile filePath]).
Proof using Hflag Hread Hguard.
  unfold V1.process_file, V1.updateFileContent, try_catch.
  rewrite (bind_ok _ _ t (t ++ [ReadFile filePath]) None); [done|].
  rewrite (bind_ask _ _ _ _ _ (Hread _)). by rewrite Hguard, Hflag.
Qed.

Lemma V3_file_skipped :
  V3.process_file h pattern replacement changesMade filePath t
  = (Ok changesMade, t ++ [ReadFile filePath]).
Proof using Hflag Hread Hguard.
  unfold V3.process_file, V3.updateFileContent, V1.updateFileContent, try_catch.
  rewrite (bind_ok _ _ t (t ++ [ReadFile filePath]) None); [done|].
  rewrite (bind_ask _ _ _ _ _ (Hread _)). by rewrite Hguard, Hflag.
Qed.

Lemma V2_file_skipped :
  V2.process_file h pattern replacement changesMade filePath t
  = (Ok changesMade,
     t ++ [Info (Js.lit "Processing file: " ++ p);
           Debug (Js.lit "Reading file: " ++ p);
           ReadFile filePath;
           Debug (Js.lit "Markers - start: "
                  ++ Js.of_Z (Js.indexOf text (START_MARKER (CONFIG h)))
                  ++ Js.lit ", end: "
                  ++ Js.of_Z (Js.indexOf text (END_MARKER (CONFIG h))));
           Warning (Js.lit "Markers not found in " ++ p ++ Js.lit ", skipping")]).
Proof using Hflag Hp Hread Hguard.
  unfold V2.process_file, V2.updateFileContent, try_catch.
  rewrite (bind_lift _ _ _ _ Hp). unfold core_info, core_debug, core_warning.
  rewrite bind_emit.
  rewrite !bind_assoc, (bind_lift _ _ _ _ Hp), !bind_assoc, bind_emit.
  rewrite !bind_assoc, (bind_ask _ _ _ _ _ (Hread _)), !bind_assoc, bind_emit.
  rewrite Hguard, Hflag, !bind_assoc, bind_emit. unfold ret, bind. cbn [truthy].
  by rewrite <- !app_assoc.
Qed.

End Skipped.

(** X9.  With [fail-on-missing-markers] off, a file whose markers are
    missing or out of order is skipped: it is read, not written, and
    [changesMade] keeps its value.  Variants 1 and 3 say nothing; variant
    2 warns "Markers not found in <file>, skipping". *)
Theorem unmarked_file_is_skipped (h : Host) (pattern : RegExp) (replacement : list N)
    (changesMade : bool) (filePath : Value) (p text : list N) (t : Trace) :
  FAIL_ON_MISSING_MARKERS (CONFIG h) = false ->
  ToString h filePath = Ok p ->
  (forall t0, host_readFile h filePath t0 = Ok text) ->
  markers_not_found h text = true ->
  V1.process_file h pattern replacement changesMade filePath t
  = (Ok changesMade, t ++ [ReadFile filePath])
  /\ V3.process_file h pattern replacement changesMade filePath t
     = (Ok changesMade, t ++ [ReadFile filePath])
  /\ V2.process_file h pattern replacement changesMade filePath t
     = (Ok changesMade,
        t ++ [Info (Js.lit "Processing file: " ++ p);
              Debug (Js.lit "Reading file: " ++ p);
              ReadFile filePath;
              Debug (Js.lit "Markers - start: "
                     ++ Js.of_Z (Js.indexOf text (START_MARKER (CONFIG h)))
                     ++ Js.lit ", end: "
                     ++ Js.of_Z (Js.indexOf text (END_MARKER (CONFIG h))));
              Warning (Js.lit "Markers not found in " ++ p ++ Js.lit ", skipping")]).
Proof.
  intros Hflag Hp Hread Hguard. splits.
  - by apply (V1_file_skipped h _ _ _ _ text).
  - by apply (V3_file_skipped h _ _ _ _ text).
  - by apply V2_file_skipped.
Qed.

Lemma unmarked_file_is_skipped_witness :
  V1.process_file Example.lenient_host (regexp_of []) [] false Example.README []
  = (Ok false, [] ++ [ReadFile Example.README])
  /\ V3.process_file Example.lenient_host (regexp_of []) [] false Example.README []
     = (Ok false, [] ++ [ReadFile Example.README])
  /\ V2.process_file Example.lenient_host (regexp_of []) [] false Example.README []
     = (Ok false,
        [] ++ [Info (Js.lit "Processing file: " ++ Js.lit "README.md");
               Debug (Js.lit "Reading file: " ++ Js.lit "README.md");
               ReadFile Example.README;
               Debug (Js.lit "Markers - start: "
                      ++ Js.of_Z (Js.indexOf Example.unmarked_text
                                    (START_MARKER (CONFIG Example.lenient_host)))
                      ++ Js.lit ", end: "
                      ++ Js.of_Z (Js.indexOf Example.unmarked_text
                                    (END_MARKER (CONFIG Example.lenient_host))));
               Warning (Js.lit "Markers not found in " ++ Js.lit "README.md"
                        ++ Js.lit ", skipping")]).
Proof.
  apply (unmarked_file_is_skipped Example.lenient_host (regexp_of []) [] false
           Example.README (Js.lit "README.md") Example.unmarked_text []).
  - vm_compute. reflexivity.
  - reflexivity.
  - intros t0. reflexivity.
  - vm_compute. reflexivity.
Defined.

(** ** The pull request *)

(** X10.  In variants 1 and 2, when the list of open pull requests from
    the branch is not empty, no pull request is created and auto-merge is
    not asked for: [createOrUpdatePR] only reports that the pull request
    exists (variant 2 with the address of the first one). *)
Theorem open_pull_request_is_left_alone (h : Host) (branchName : list N)
    (owner repo : Value) (o r : list N) (first : PullRequest)
    (others : list PullRequest) (t : Trace) :
  ToString h owner = Ok o ->
  ToString h repo = Ok r ->
  (forall t0, host_pulls_list h owner repo (o ++ Js.lit ":" ++ branchName) t0
              = Ok (first :: others)) ->
  V1.createOrUpdatePR h branchName owner repo t
  = (Ok tt, t ++ [PullsList owner repo (o ++ Js.lit ":" ++ branchName);
                  Info (Js.lit "Pull request already exists.")])
  /\ V2.createOrUpdatePR h branchName owner repo t
     = (Ok tt,
        t ++ [Info (Js.lit "Creating/updating PR for branch " ++ branchName
                    ++ Js.lit " in " ++ o ++ Js.lit "/" ++ r);
              PullsList owner repo (o ++ Js.lit ":" ++ branchName);
              Debug (Js.lit "Found " ++ Js.of_nat (S (length others))
                     ++ Js.lit " existing PRs");
              Info (Js.lit "Pull request already exists: " ++ html_url first)]).
Proof.
  intros Ho Hr Hlist. splits.
  - unfold V1.createOrUpdatePR.
    rewrite (bind_lift _ _ _ _ Ho), (bind_ask _ _ _ _ _ (Hlist _)).
    cbn [length Nat.eqb]. unfold core_info, emit. by rewrite <- app_assoc.
  - unfold V2.createOrUpdatePR, core_info, core_debug.
    rewrite (bind_lift _ _ _ _ Ho), (bind_lift _ _ _ _ Hr), bind_emit.
    rewrite (bind_ask _ _ _ _ _ (Hlist _)), bind_emit.
    unfold emit. cbn [length]. by rewrite <- !app_assoc.
Qed.

Lemma open_pull_request_is_left_alone_witness :
  V1.createOrUpdatePR Example.reconciled_host (Js.lit "update/patrons")
    (VStr (Js.lit "meza")) (VStr (Js.lit "action-patrons")) []
  = (Ok tt, [] ++ [PullsList (VStr (Js.lit "meza")) (VStr (Js.lit "action-patrons"))
                     (Js.lit "meza" ++ Js.lit ":" ++ Js.lit "update/patrons");
                   Info (Js.lit "Pull request already exists.")])
  /\ V2.createOrUpdatePR Example.reconciled_host (Js.lit "update/patrons")
       (VStr (Js.lit "meza")) (VStr (Js.lit "action-patrons")) []
     = (Ok tt,
        [] ++ [Info (Js.lit "Creating/updating PR for branch " ++ Js.lit "update/patrons"
                     ++ Js.lit " in " ++ Js.lit "meza" ++ Js.lit "/"
                     ++ Js.lit "action-patrons");
               PullsList (VStr (Js.lit "meza")) (VStr (Js.lit "action-patrons"))
                 (Js.lit "meza" ++ Js.lit ":" ++ Js.lit "update/patrons");
               Debug (Js.lit "Found " ++ Js.of_nat 1 ++ Js.lit " existing PRs");
               Info (Js.lit "Pull request already exists: "
                     ++ html_url Example.open_pr)]).
Proof.
  apply (open_pull_request_is_left_alone Example.reconciled_host (Js.lit "update/patrons")
           (VStr (Js.lit "meza")) (VStr (Js.lit "action-patrons"))
           (Js.lit "meza") (Js.lit "action-patrons") Example.open_pr [] []).
  - reflexivity.
  - reflexivity.
  - intros t0. reflexivity.
Defined.

(** ** The loop over the files *)

Section Loop.

Variables (h : Host) (pattern : RegExp) (replacement : list N).

Lemma truthy_not_empty (content : list N) : truthy (Some content) = true -> content <> [].
Proof. by destruct content. Qed.

Ltac written :=
  try (exfalso;
       match goal with H : truthy _ = true |- _ => cbn in H; discriminate H end);
  repeat match goal with
         | |- Forall _ (_ ++ _) => apply Forall_app; split
         | |- Forall _ [] => constructor
         | |- Forall _ [_] => constructor; [|constructor]
         end;
  cbn [write_of default from_option id];
  first [ exact I
        | split; [assumption | split; [by apply truthy_not_empty | eauto 6]] ].

Lemma V1_writes (files : list Value) (changesMade : bool) (filePath : Value) (t : Trace) :
  In filePath files ->
  post (V1.process_file h pattern replacement changesMade filePath) t
       (fun _ events => Forall (write_of h pattern replacement files) events).
Proof.
  intros Hin. unfold V1.process_file, V1.updateFileContent.
  msteps; written.
Qed.

Lemma V2_writes (files : list Value) (changesMade : bool) (filePath : Value) (t : Trace) :
  In filePath files ->
  post (V2.process_file h pattern replacement changesMade filePath) t
       (fun _ events => Forall (write_of h pattern replacement files) events).
Proof.
  intros Hin. unfold V2.process_file, V2.updateFileContent.
  msteps; written.
Qed.

Lemma V3_writes (files : list Value) (changesMade : bool) (filePath : Value) (t : Trace) :
  In filePath files ->
  post (V3.process_file h pattern replacement changesMade filePath) t
       (fun _ events => Forall (write_of h pattern replacement files) events).
Proof.
  intros Hin. unfold V3.process_file, V3.updateFileContent, V1.updateFileContent.
  msteps; written.
Qed.

Lemma write_of_more (files : list Value) (f : Value) (events : list Event) :
  Forall (write_of h pattern replacement files) events ->
  Forall (write_of h pattern replacement (f :: files)) events.
Proof.
  intros HF. apply (Forall_impl _ _ _ HF). intros [] H; try exact I.
  destruct H as (Hin & H). split; [by right|exact H].
Qed.

Ltac loop_writes file_lemma :=
  let IH := fresh "IH" in
  intros files; induction files as [|f files IH]; intros changesMade t;
  cbn [V1.process_files V2.process_files V3.process_files];
  [ apply post_ret; constructor
  | eapply post_seq; [apply (file_lemma (f :: files)); by left|];
    intros [changed|e] events Hev; [|exact Hev];
    eapply post_mono; [apply IH|];
    intros r events' Hev'; cbv beta;
    apply Forall_app; split; [exact Hev | by apply write_of_more] ].

Lemma V1_loop_writes :
  forall files changesMade t,
  post (V1.process_files h pattern replacement changesMade files) t
       (fun _ events => Forall (write_of h pattern replacement files) events).
Proof. loop_writes V1_writes. Qed.

Lemma V2_loop_writes :
  forall files changesMade t,
  post (V2.process_files h pattern replacement changesMade files) t
       (fun _ events => Forall (write_of h pattern replacement files) events).
Proof. loop_writes V2_writes. Qed.

Lemma V3_loop_writes :
  forall files changesMade t,
  post (V3.process_files h pattern replacement changesMade files) t
       (fun _ events => Forall (write_of h pattern replacement files) events).
Proof. loop_writes V3_writes. Qed.

(** *** The loop goes on after a failure *)

Ltac reads Hp :=
  repeat (mstep; cbv beta; rewrite ?Hp);
  try discriminate;
  (split; [by eexists | reflexivity]).

Lemma V1_reads (changesMade : bool) (filePath : Value) (p : list N) (t : Trace) :
  ToString h filePath = Ok p ->
  post (V1.process_file h pattern replacement changesMade filePath) t
       (read_each_once [filePath]).
Proof.
  intros Hp. unfold V1.process_file, V1.updateFileContent, read_each_once.
  reads Hp.
Qed.

Lemma V2_reads (changesMade : bool) (filePath : Value) (p : list N) (t : Trace) :
  ToString h filePath = Ok p ->
  post (V2.process_file h pattern replacement changesMade filePath) t
       (read_each_once [filePath]).
Proof.
  intros Hp. unfold V2.process_file, V2.updateFileContent, read_each_once.
  reads Hp.
Qed.

Lemma V3_reads (changesMade : bool) (filePath : Value) (p : list N) (t : Trace) :
  ToString h filePath = Ok p ->
  post (V3.process_file h pattern replacement changesMade filePath) t
       (read_each_once [filePath]).
Proof.
  intros Hp.
  unfold V3.process_file, V3.updateFileContent, V1.updateFileContent, read_each_once.
  reads Hp.
Qed.

Ltac loop_reads file_lemma :=
  let IH := fresh "IH" in
  intros files Hall; induction Hall as [|f files [p Hp] _ IH]; intros changesMade t;
  cbn [V1.process_files V2.process_files V3.process_files];
  [ apply post_ret; split; [by eexists | reflexivity]
  | eapply post_seq; [apply (file_lemma changesMade f p t Hp)|];
    intros r events [[changed ->] Hev];
    eapply post_mono; [apply IH|];
    intros r' events' [Hr' Hev']; cbv beta;
    split; [exact Hr'|];
    rewrite filter_app, Hev, Hev'; reflexivity ].

Lemma V1_loop_reads :
  forall files, Forall (fun f => exists p, ToString h f = Ok p) files ->
  forall changesMade t,
  post (V1.process_files h pattern replacement changesMade files) t
       (read_each_once files).
Proof. loop_reads V1_reads. Qed.

Lemma V2_loop_reads :
  forall files, Forall (fun f => exists p, ToString h f = Ok p) files ->
  forall changesMade t,
  post (V2.process_files h pattern replacement changesMade files) t
       (read_each_once files).
Proof. loop_reads V2_reads. Qed.

Lemma V3_loop_reads :
  forall files, Forall (fun f => exists p, ToString h f = Ok p) files ->
  forall changesMade t,
  post (V3.process_files h pattern replacement changesMade files) t
       (read_each_once files).
Proof. loop_reads V3_reads. Qed.

End Loop.

(** X11.  Whatever the host answers, the loop over the files writes only
    to files of the list, never an empty text, and only the result of
    [replace] on a text the file was read as and that passed the guard on
    the markers. *)
Theorem loop_writes_only_substitutions (h : Host) (pattern : RegExp)
    (replacement : list N) (filesToUpdate : list Value) (changesMade : bool)
    (t : Trace) :
  post (V1.process_files h pattern replacement changesMade filesToUpdate) t
       (fun _ events => Forall (write_of h pattern replacement filesToUpdate) events)
  /\ post (V2.process_files h pattern replacement changesMade filesToUpdate) t
          (fun _ events => Forall (write_of h pattern replacement filesToUpdate) events)
  /\ post (V3.process_files h pattern replacement changesMade filesToUpdate) t
          (fun _ events => Forall (write_of h pattern replacement filesToUpdate) events).
Proof.
  splits; [apply V1_loop_writes | apply V2_loop_writes | apply V3_loop_writes].
Qed.

(** X12.  A failure on one file does not end the loop: when every path
    of the list has a string form, the loop runs to its end whatever the
    host answers to the reads and writes, and each file of the list is
    read exactly once, in the order of the list. *)
Theorem loop_survives_failures (h : Host) (pattern : RegExp) (replacement : list N)
    (filesToUpdate : list Value) (changesMade : bool) (t : Trace) :
  Forall (fun f => exists p, ToString h f = Ok p) filesToUpdate ->
  post (V1.process_files h pattern replacement changesMade filesToUpdate) t
       (read_each_once filesToUpdate)
  /\ post (V2.process_files h pattern replacement changesMade filesToUpdate) t
          (read_each_once filesToUpdate)
  /\ post (V3.process_files h pattern replacement changesMade filesToUpdate) t
          (read_each_once filesToUpdate).
Proof.
  intros Hall. splits;
    [by apply V1_loop_reads | by apply V2_loop_reads | by apply V3_loop_reads].
Qed.

Lemma loop_survives_failures_witness :
  post (V1.process_files Example.unmarked_host (regexp_of []) [] false
          [Example.README; VNum (Js.lit "7")]) []
       (read_each_once [Example.README; VNum (Js.lit "7")])
  /\ post (V2.process_files Example.unmarked_host (regexp_of []) [] false
             [Example.README; VNum (Js.lit "7")]) []
          (read_each_once [Example.README; VNum (Js.lit "7")])
  /\ post (V3.process_files Example.unmarked_host (regexp_of []) [] false
             [Example.README; VNum (Js.lit "7")]) []
          (read_each_once [Example.README; VNum (Js.lit "7")]).
Proof.
  apply (loop_survives_failures Example.unmarked_host (regexp_of []) [] 
           [Example.README; VNum (Js.lit "7")] false []).
  constructor; [by eexists|]. constructor; [by eexists|]. constructor.
Defined.

(** ** The course of a run *)

Section Course.

Lemma accepts_reports (script : list slot) (wrote : bool) (a b : list Event) :
  accepts script wrote a -> only is_report b -> accepts script wrote (a ++ b).
Proof.
  intros Ha Hb. revert script wrote Ha.
  induction a as [|ev a IH]; intros script wrote Ha; cbn [app].
  - clear Ha. induction b as [|ev b IHb]; [exact I|].
    apply andb_prop in Hb as [Hev Hb]. cbn [accepts]. rewrite Hev. by apply IHb.
  - cbn [accepts] in *. destruct (is_report ev); [by apply IH|].
    destruct (is_file_access ev).
    + destruct script as [|[e|] script]; try done. by apply IH.
    + destruct script as [|[e|] script]; try done.
      * destruct Ha as [-> Ha]. split; [done|by apply IH].
      * destruct script as [|[e|] script]; try done.
        destruct Ha as (-> & -> & Ha). split; [done|]. split; [done|by apply IH].
Qed.

(** The events of the loop, at the place of the loop. *)
Lemma accepts_loop (script : list slot) (wrote : bool) (files rest : list Event) :
  only is_file_event files ->
  accepts (Loop :: script) (wrote || existsb is_WriteFile files) rest ->
  accepts (Loop :: script) wrote (files ++ rest).
Proof.
  revert wrote. induction files as [|ev files IH]; intros wrote Hfiles Hrest; cbn [app].
  - cbn [existsb] in Hrest. by rewrite orb_false_r in Hrest.
  - apply andb_prop in Hfiles as [Hev Hfiles]. cbn [existsb] in Hrest.
    rewrite orb_assoc in Hrest. specialize (IH _ Hfiles Hrest).
    destruct ev; try discriminate Hev;
      cbn [accepts is_report is_log is_SetFailed is_file_access is_WriteFile orb] in *;
      rewrite ?orb_false_r in *; exact IH.
Qed.

Variable h : Host.

Ltac looped :=
  unfold loop_result;
  repeat match goal with
         | |- only _ (_ ++ _) => apply only_app; split
         | |- _ /\ _ => split
         end;
  try reflexivity;
  try (intros [= ?]; subst);
  try discriminate;
  rewrite ?existsb_app; cbn [existsb is_WriteFile orb];
  rewrite ?orb_true_r; auto.

Lemma V1_file_result (pattern : RegExp) (replacement : list N) (changesMade : bool)
    (filePath : Value) (t : Trace) :
  post (V1.process_file h pattern replacement changesMade filePath) t
       (loop_result changesMade).
Proof. unfold V1.process_file, V1.updateFileContent. msteps; looped. Qed.

Lemma V2_file_result (pattern : RegExp) (replacement : list N) (changesMade : bool)
    (filePath : Value) (t : Trace) :
  post (V2.process_file h pattern replacement changesMade filePath) t
       (loop_result changesMade).
Proof. unfold V2.process_file, V2.updateFileContent. msteps; looped. Qed.

Lemma V3_file_result (pattern : RegExp) (replacement : list N) (changesMade : bool)
    (filePath : Value) (t : Trace) :
  post (V3.process_file h pattern replacement changesMade filePath) t
       (loop_result changesMade).
Proof.
  unfold V3.process_file, V3.updateFileContent, V1.updateFileContent. msteps; looped.
Qed.

Ltac loop_results file_lemma :=
  let IH := fresh "IH" in
  intros pattern replacement files;
  induction files as [|f files IH]; intros changesMade t;
  cbn [V1.process_files V2.process_files V3.process_files];
  [ apply post_ret; split; [reflexivity | intros Hr; left; congruence]
  | eapply post_seq; [apply file_lemma|];
    intros [changed|e] events [Hev Hch]; [|split; [exact Hev | discriminate]];
    eapply post_mono; [apply IH|];
    intros r events' [Hev' Hch']; cbv beta;
    split; [apply only_app; by split|];
    intros Hr; rewrite existsb_app;
    destruct (Hch' Hr) as [Hc | Hw]; [|right; rewrite Hw; apply orb_true_r];
    subst changed;
    destruct (Hch eq_refl) as [Hc | Hw]; [by left | right; by rewrite Hw] ].

Lemma V1_loop_result :
  forall pattern replacement files changesMade t,
  post (V1.process_files h pattern replacement changesMade files) t
       (loop_result changesMade).
Proof. loop_results V1_file_result. Qed.

Lemma V2_loop_result :
  forall pattern replacement files changesMade t,
  post (V2.process_files h pattern replacement changesMade files) t
       (loop_result changesMade).
Proof. loop_results V2_file_result. Qed.

Lemma V3_loop_result :
  forall pattern replacement files changesMade t,
  post (V3.process_files h pattern replacement changesMade files) t
       (loop_result changesMade).
Proof. loop_results V3_file_result. Qed.

Ltac course_step loop_lemma :=
  first
    [ lazymatch goal with
      | |- post (V1.process_files _ _ _ _ _) _ _ =>
          eapply post_mono; [apply loop_lemma | intros ? ? [? ?]]
      | |- post (V2.process_files _ _ _ _ _) _ _ =>
          eapply post_mono; [apply loop_lemma | intros ? ? [? ?]]
      | |- post (V3.process_files _ _ _ _ _) _ _ =>
          eapply post_mono; [apply loop_lemma | intros ? ? [? ?]]
      end
    | mstep ].

(** The events at hand against the script at hand. *)
Ltac follow :=
  cbn [app];
  repeat first
    [ progress cbn [accepts is_report is_log is_SetFailed is_file_access
                    is_WriteFile orb app]
    | match goal with
      | |- True => exact I
      | |- _ /\ _ => split
      | |- ?x = ?x => reflexivity
      | |- accepts (Loop :: _) _ (_ ++ _) => apply accepts_loop; [assumption|]
      | |- accepts (Loop :: _) _ ?e =>
          is_var e; rewrite <- (app_nil_r e); apply accepts_loop; [assumption|exact I]
      | H : Ok true = Ok true -> false = true \/ existsb is_WriteFile ?e = true
        |- context [existsb is_WriteFile ?e] =>
          destruct (H eq_refl) as [? | ->]; [discriminate|]
      end ].

Ltac course script :=
  lazymatch goal with
  | pr : PullRequest |- _ => exists pr
  | _ => exists no_pr
  end;
  unfold script, pull_request_steps, text_of, git_email;
  repeat match goal with
         | H : ToString _ _ = Ok _ |- _ => rewrite H
         end;
  follow.

Lemma V1_course_try (t : Trace) :
  post (V1.main_try h) t
       (fun _ events => exists pr, accepts (V1_script h pr) false events).
Proof.
  unfold V1.main_try, V1.fetchSupporterData, V1.setupGitBranch, V1.createOrUpdatePR,
    V1.execAsync.
  repeat (course_step V1_loop_result; cbv beta).
  all: course V1_script.
Qed.

(** *** Variant 2, whose commands report *)

Lemma accepts_after_reports (script : list slot) (wrote : bool) (a rest : list Event) :
  only is_report a -> accepts script wrote rest -> accepts script wrote (a ++ rest).
Proof.
  intros Ha Hrest. induction a as [|ev a IH]; [exact Hrest|].
  apply andb_prop in Ha as [Hev Ha]. cbn [app accepts]. rewrite Hev. by apply IH.
Qed.

Lemma accepts_step (ev : Event) (script : list slot) (wrote : bool)
    (events rest : list Event) :
  step_events ev events ->
  is_report ev = false -> is_file_access ev = false ->
  accepts script wrote rest ->
  accepts (Step ev :: script) wrote (events ++ rest).
Proof.
  intros (a & b & -> & Ha & Hb) Hr Hf Hrest. rewrite <- app_assoc.
  apply accepts_after_reports; [exact Ha|]. cbn [app accepts]. rewrite Hr, Hf.
  split; [reflexivity|]. by apply accepts_after_reports.
Qed.

Lemma accepts_step_after_loop (ev : Event) (script : list slot)
    (events rest : list Event) :
  step_events ev events ->
  is_report ev = false -> is_file_access ev = false ->
  accepts script true rest ->
  accepts (Loop :: Step ev :: script) true (events ++ rest).
Proof.
  intros (a & b & -> & Ha & Hb) Hr Hf Hrest. rewrite <- app_assoc.
  apply accepts_after_reports; [exact Ha|]. cbn [app accepts]. rewrite Hr, Hf.
  split; [reflexivity|]. split; [reflexivity|]. by apply accepts_after_reports.
Qed.

Ltac one_step :=
  cbn [app];
  first [ by eexists [], _
        | by eexists [_], _
        | by eexists [_; _], _ ].

Lemma V2_exec_events (command : list N) (t : Trace) :
  post (V2.execAsync h command) t (fun _ events => step_events (Exec command) events).
Proof. unfold V2.execAsync. msteps; one_step. Qed.

Lemma V2_fetch_events (url : list N) (t : Trace) :
  post (V2.fetchSupporterData h url) t (fun _ events => step_events (Fetch url) events).
Proof. unfold V2.fetchSupporterData. msteps; one_step. Qed.

Ltac v2_course_step :=
  first
    [ lazymatch goal with
      | |- post (bind (V2.execAsync _ _) _) _ _ =>
          eapply post_seq; [apply V2_exec_events | intros [?|?] ? ?]
      | |- post (bind (V2.fetchSupporterData _ _) _) _ _ =>
          eapply post_seq; [apply V2_fetch_events | intros [?|?] ? ?]
      | |- post (V2.process_files _ _ _ _ _) _ _ =>
          eapply post_mono; [apply V2_loop_result | intros ? ? [? ?]]
      end
    | mstep ].

Ltac follow2 :=
  cbn [app];
  repeat first
    [ progress cbn [accepts is_report is_log is_SetFailed is_file_access
                    is_WriteFile orb app]
    | progress rewrite <- ?(@app_assoc Event)
    | match goal with
      | |- True => exact I
      | |- _ /\ _ => split
      | |- ?x = ?x => reflexivity
      | H : step_events ?ev ?e |- accepts (Step _ :: _) _ (?e ++ _) =>
          apply (accepts_step ev); [exact H | reflexivity | reflexivity |]
      | H : step_events ?ev ?e |- accepts (Step _ :: _) _ ?e =>
          rewrite <- (app_nil_r e);
          apply (accepts_step ev); [exact H | reflexivity | reflexivity | exact I]
      | H : step_events ?ev ?e |- accepts (Loop :: Step _ :: _) true (?e ++ _) =>
          apply (accepts_step_after_loop ev); [exact H | reflexivity | reflexivity |]
      | H : step_events ?ev ?e |- accepts (Loop :: Step _ :: _) true ?e =>
          rewrite <- (app_nil_r e);
          apply (accepts_step_after_loop ev);
          [exact H | reflexivity | reflexivity | exact I]
      | |- accepts (Loop :: _) _ (_ ++ _) => apply accepts_loop; [assumption|]
      | |- accepts (Loop :: _) _ ?e =>
          is_var e; rewrite <- (app_nil_r e); apply accepts_loop; [assumption|exact I]
      | H : Ok true = Ok true -> false = true \/ existsb is_WriteFile ?e = true
        |- context [existsb is_WriteFile ?e] =>
          destruct (H eq_refl) as [? | ->]; [discriminate|]
      end ].

Ltac course2 :=
  lazymatch goal with
  | pr : PullRequest |- _ => exists pr
  | _ => exists no_pr
  end;
  unfold V2_pushed, V2_unstaged, V2_begin, pull_request_steps, text_of, git_email;
  repeat match goal with
         | H : ToString _ _ = Ok _ |- _ => rewrite H
         end;
  first [ solve [left; follow2] | solve [right; follow2] ].

Lemma V2_course_try (t : Trace) :
  post (V2.main_try h) t
       (fun _ events =>
          exists pr, accepts (V2_pushed h pr) false events
                     \/ accepts (V2_unstaged h) false events).
Proof.
  unfold V2.main_try, V2.setupGitBranch, V2.commit_push_pr, V2.createOrUpdatePR.
  repeat (v2_course_step; cbv beta iota).
  all: course2.
Qed.

(** *** Variant 3 *)

Ltac follow3 :=
  unfold V3_script, V3_repo, text_of, git_email;
  repeat first
    [ progress cbn [fst snd]
    | match goal with
      | H : host_octokit_context_repo _ = _ |- _ => rewrite H
      | H : default _ _ = _ |- _ => rewrite H
      | H : ToString _ _ = Ok _ |- _ => rewrite H
      end ];
  solve [follow].

Ltac course3 :=
  unfold V3_setups; cbv zeta;
  first
    [ eexists; split; [left; reflexivity | follow3]
    | eexists; split; [right; left; reflexivity | follow3]
    | eexists; split; [right; right; left; reflexivity | follow3]
    | eexists; split; [right; right; right; left; reflexivity | follow3] ].

Lemma V3_course_try (t : Trace) :
  post (V3.main_try h) t
       (fun _ events =>
          exists setup, In setup (V3_setups h) /\ accepts (V3_script h setup) false events).
Proof.
  unfold V3.main_try, V3.fetchSupporterData, V1.fetchSupporterData, V3.setupGitBranch,
    V3.createOrUpdatePR, V3.execAsync, V1.execAsync.
  repeat (course_step V3_loop_result; cbv beta).
  all: course3.
Qed.

End Course.

(** X13.  Every run of variant 1, whatever the host answers, follows one
    course as far as it goes: the roster is fetched; the branch is checked
    out and reset; only then are files read and written; git is
    configured, the changes are staged, committed and pushed with force,
    only after a file was written; the open pull requests are listed, one
    is created, auto-merge is asked for.  No step is taken twice or out of
    its turn, no other command is run, in particular none of the commands
    of the recovery branch. *)
Theorem variant1_follows_its_course (h : Host) (t : Trace) :
  post (V1.main h) t
       (fun _ events => exists pr, accepts (V1_script h pr) false events).
Proof.
  unfold V1.main. apply post_try_catch.
  eapply post_mono; [apply V1_course_try|].
  intros [[]|e] events [pr Hpr]; [by exists pr|].
  unfold V1.identifier. rewrite originalBranch_unbound.
  msteps. exists pr. by apply accepts_reports.
Qed.

(** X14.  Every run of variant 2 follows its course as far as it goes:
    fetch; checkout; the files; configuration, [git status], staging,
    [git status --porcelain], commit, only after a file was written; then
    either the push with force and the pull request with auto-merge, or,
    after a commit that failed, the look at the staged names and nothing
    more. *)
Theorem variant2_follows_its_course (h : Host) (t : Trace) :
  post (V2.main h) t
       (fun _ events =>
          exists pr, accepts (V2_pushed h pr) false events
                     \/ accepts (V2_unstaged h) false events).
Proof.
  unfold V2.main. apply post_try_catch.
  eapply post_mono; [apply V2_course_try|].
  intros [[]|e] events [pr Hpr]; [by exists pr|].
  msteps. exists pr.
  destruct Hpr as [Hpr|Hpr]; [left|right]; by apply accepts_reports.
Qed.

(** X15.  Every run of variant 3 follows its course as far as it goes:
    fetch; the branch is verified, checked out and pulled, or created
    with [git checkout -b] after the first of these that failed; the
    files; configuration, staging, commit and a push without force, only
    after a file was written; the list of pull requests and the creation
    of one, in the repository of the client's context.  Auto-merge is
    never asked for. *)
Theorem variant3_follows_its_course (h : Host) (t : Trace) :
  post (V3.main h) t
       (fun _ events =>
          exists setup, In setup (V3_setups h)
                        /\ accepts (V3_script h setup) false events).
Proof.
  unfold V3.main. apply post_try_catch.
  eapply post_mono; [apply V3_course_try|].
  intros [[]|e] events (setup & Hin & Hsetup); [by exists setup|].
  msteps. exists setup. split; [exact Hin|]. by apply accepts_reports.
Qed.

(** The script is strict: a commit that no write precedes, or a step out
    of its turn, is not accepted. *)
Example accepts_is_strict (h : Host) (pr : PullRequest) (f : Value) :
  ~ accepts (V1_script h pr) false
      [Fetch (JSON_URL (CONFIG h));
       Exec (Js.lit "git checkout -B " ++ BRANCH_NAME (CONFIG h));
       Exec (Js.lit "git reset --hard origin/main");
       ReadFile f;
       Exec git_config_user_name]
  /\ ~ accepts (V1_script h pr) false
         [Fetch (JSON_URL (CONFIG h)); ReadFile f].
Proof.
  split.
  - cbn. intros (_ & _ & _ & Hw & _). discriminate Hw.
  - cbn. intros (_ & []).
Qed.

(** ** A file that passes the guard *)

Section Written.

Variables (h : Host) (pattern : RegExp) (replacement : list N) (changesMade : bool)
          (filePath : Value) (p text : list N) (t : Trace).
Hypothesis Hp : ToString h filePath = Ok p.
Hypothesis Hread : forall t0, host_readFile h filePath t0 = Ok text.
Hypothesis Hguard : markers_not_found h text = false.
Hypothesis Hcontent : String_replace text pattern replacement <> [].
Hypothesis Hwrite : forall content t0, host_writeFile h filePath content t0 = Ok tt.

Lemma replaced_is_truthy :
  truthy (Some (String_replace text pattern replacement)) = true.
Proof using Hcontent. by destruct (String_replace text pattern replacement). Qed.

Lemma V1_file_written :
  V1.process_file h pattern replacement changesMade filePath t
  = (Ok true,
     t ++ [ReadFile filePath;
           WriteFile filePath (String_replace text pattern replacement);
           Info (Js.lit "Updated " ++ p ++ Js.lit " with supporter names.")]).
Proof using Hp Hread Hguard Hcontent Hwrite.
  unfold V1.process_file, V1.updateFileContent, try_catch.
  rewrite !bind_assoc, (bind_ask _ _ _ _ _ (Hread _)), Hguard. unfold ret at 1.
  unfold bind at 1. rewrite replaced_is_truthy.
  change (default [] (Some (String_replace text pattern replacement)))
    with (String_replace text pattern replacement).
  rewrite (bind_ask _ _ _ _ _ (Hwrite _ _)), (bind_lift _ _ _ _ Hp).
  unfold core_info. rewrite bind_emit. unfold ret. by rewrite <- !app_assoc.
Qed.

Lemma V3_file_written :
  V3.process_file h pattern replacement changesMade filePath t
  = (Ok true,
     t ++ [ReadFile filePath;
           WriteFile filePath (String_replace text pattern replacement);
           ConsoleLog (Js.lit "Updated " ++ p ++ Js.lit " with supporter names.")]).
Proof using Hp Hread Hguard Hcontent Hwrite.
  unfold V3.process_file, V3.updateFileContent, V1.updateFileContent, try_catch.
  rewrite !bind_assoc, (bind_ask _ _ _ _ _ (Hread _)), Hguard. unfold ret at 1.
  unfold bind at 1. rewrite replaced_is_truthy.
  change (default [] (Some (String_replace text pattern replacement)))
    with (String_replace text pattern replacement).
  rewrite (bind_ask _ _ _ _ _ (Hwrite _ _)), (bind_lift _ _ _ _ Hp).
  unfold console_log. rewrite bind_emit. unfold ret. by rewrite <- !app_assoc.
Qed.

Lemma V2_file_written :
  V2.process_file h pattern replacement changesMade filePath t
  = (Ok true,
     t ++ [Info (Js.lit "Processing file: " ++ p);
           Debug (Js.lit "Reading file: " ++ p);
           ReadFile filePath;
           Debug (Js.lit "Markers - start: "
                  ++ Js.of_Z (Js.indexOf text (START_MARKER (CONFIG h)))
                  ++ Js.lit ", end: "
                  ++ Js.of_Z (Js.indexOf text (END_MARKER (CONFIG h))));
           WriteFile filePath (String_replace text pattern replacement);
           Info (Js.lit "Updated " ++ p ++ Js.lit " with supporter names.")]).
Proof using Hp Hread Hguard Hcontent Hwrite.
  unfold V2.process_file, V2.updateFileContent, try_catch.
  rewrite (bind_lift _ _ _ _ Hp). unfold core_info, core_debug.
  rewrite bind_emit.
  rewrite !bind_assoc, (bind_lift _ _ _ _ Hp), !bind_assoc, bind_emit.
  rewrite !bind_assoc, (bind_ask _ _ _ _ _ (Hread _)), !bind_assoc, bind_emit.
  rewrite Hguard. unfold ret at 1. unfold bind at 1. rewrite replaced_is_truthy.
  change (default [] (Some (String_replace text pattern replacement)))
    with (String_replace text pattern replacement).
  rewrite (bind_ask _ _ _ _ _ (Hwrite _ _)), bind_emit.
  unfold ret. by rewrite <- !app_assoc.
Qed.

End Written.

(** X16.  A file that is read and passes the guard on the markers is
    written and counts as a change whenever the text returned by
    [replace] is not empty, whether or not that text differs from the
    text read: when the pattern finds no match, the file is written back
    as it was, reported as updated, and [changesMade] is set. *)
Theorem guarded_file_is_written_and_counted (h : Host) (pattern : RegExp)
    (replacement : list N) (changesMade : bool) (filePath : Value)
    (p text : list N) (t : Trace) :
  ToString h filePath = Ok p ->
  (forall t0, host_readFile h filePath t0 = Ok text) ->
  markers_not_found h text = false ->
  String_replace text pattern replacement <> [] ->
  (forall content t0, host_writeFile h filePath content t0 = Ok tt) ->
  V1.process_file h pattern replacement changesMade filePath t
  = (Ok true,
     t ++ [ReadFile filePath;
           WriteFile filePath (String_replace text pattern replacement);
           Info (Js.lit "Updated " ++ p ++ Js.lit " with supporter names.")])
  /\ V3.process_file h pattern replacement changesMade filePath t
     = (Ok true,
        t ++ [ReadFile filePath;
              WriteFile filePath (String_replace text pattern replacement);
              ConsoleLog (Js.lit "Updated " ++ p ++ Js.lit " with supporter names.")])
  /\ V2.process_file h pattern replacement changesMade filePath t
     = (Ok true,
        t ++ [Info (Js.lit "Processing file: " ++ p);
              Debug (Js.lit "Reading file: " ++ p);
              ReadFile filePath;
              Debug (Js.lit "Markers - start: "
                     ++ Js.of_Z (Js.indexOf text (START_MARKER (CONFIG h)))
                     ++ Js.lit ", end: "
                     ++ Js.of_Z (Js.indexOf text (END_MARKER (CONFIG h))));
              WriteFile filePath (String_replace text pattern replacement);
              Info (Js.lit "Updated " ++ p ++ Js.lit " with supporter names.")])
  /\ (exec pattern text = None -> String_replace text pattern replacement = text).
Proof.
  intros Hp Hread Hguard Hcontent Hwrite. splits.
  - by apply V1_file_written.
  - by apply V3_file_written.
  - by apply V2_file_written.
  - intros Hnone. unfold String_replace. by rewrite Hnone.
Qed.

Lemma guarded_file_is_written_and_counted_witness :
  V1.process_file Example.settled_host Example.stale_pattern [] false Example.README []
  = (Ok true,
     [] ++ [ReadFile Example.README;
            WriteFile Example.README
              (String_replace Example.settled_text Example.stale_pattern []);
            Info (Js.lit "Updated " ++ Js.lit "README.md"
                  ++ Js.lit " with supporter names.")])
  /\ V3.process_file Example.settled_host Example.stale_pattern [] false
       Example.README []
     = (Ok true,
        [] ++ [ReadFile Example.README;
               WriteFile Example.README
                 (String_replace Example.settled_text Example.stale_pattern []);
               ConsoleLog (Js.lit "Updated " ++ Js.lit "README.md"
                           ++ Js.lit " with supporter names.")])
  /\ V2.process_file Example.settled_host Example.stale_pattern [] false
       Example.README []
     = (Ok true,
        [] ++ [Info (Js.lit "Processing file: " ++ Js.lit "README.md");
               Debug (Js.lit "Reading file: " ++ Js.lit "README.md");
               ReadFile Example.README;
               Debug (Js.lit "Markers - start: "
                      ++ Js.of_Z (Js.indexOf Example.settled_text
                                    (START_MARKER (CONFIG Example.settled_host)))
                      ++ Js.lit ", end: "
                      ++ Js.of_Z (Js.indexOf Example.settled_text
                                    (END_MARKER (CONFIG Example.settled_host))));
               WriteFile Example.README
                 (String_replace Example.settled_text Example.stale_pattern []);
               Info (Js.lit "Updated " ++ Js.lit "README.md"
                     ++ Js.lit " with supporter names.")])
  /\ (exec Example.stale_pattern Example.settled_text = None ->
      String_replace Example.settled_text Example.stale_pattern []
      = Example.settled_text).
Proof.
  apply (guarded_file_is_written_and_counted Example.settled_host Example.stale_pattern
           [] false Example.README (Js.lit "README.md") Example.settled_text []).
  - reflexivity.
  - intros t0. reflexivity.
  - vm_compute. reflexivity.
  - vm_compute. discriminate.
  - intros content t0. reflexivity.
Defined.

Lemma bind_ret {A B} (a : A) (k : A -> M B) (t : Trace) : bind (ret a) k t = k a t.
Proof. done. Qed.

Lemma try_ok {A} (m : M A) (handler : JsError -> M A) (t t' : Trace) (a : A) :
  m t = (Ok a, t') -> try_catch m handler t = (Ok a, t').
Proof. intros H. unfold try_catch. by rewrite H. Qed.

(** ** A run in which everything answers well *)

Section WholeRun.

Variables (h : Host) (names : list N) (p text out : Value -> list N).
Hypothesis Hplain : plain_markers h.
Hypothesis Hnames : dollar_free names = true.

Lemma pattern_of_plain_markers :
  new_RegExp h (pattern_source h)
  = Ok (regexp_of (lits (START_MARKER (CONFIG h)) ++ gap_terms
                   ++ lits (END_MARKER (CONFIG h)))).
Proof using Hplain.
  destruct Hplain as (Ha & Hb & _). unfold new_RegExp, pattern_source.
  by rewrite (parse_pattern _ _ Ha Hb).
Qed.

Lemma spec_substitute_not_empty (a b s result : list N) :
  spec_substitute a b names s = Some result -> result <> [].
Proof.
  unfold spec_substitute. destruct (Js.find_index a s) as [i|]; [|done].
  destruct (Js.find_index b _) as [k|]; [|done]. intros [= <-] H.
  apply app_eq_nil in H as [_ H]. apply app_eq_nil in H as [_ H].
  discriminate H.
Qed.

Lemma ready_file_replaced (f : Value) :
  file_ready h names p text out f ->
  String_replace (text f)
    (regexp_of (lits (START_MARKER (CONFIG h)) ++ gap_terms
                ++ lits (END_MARKER (CONFIG h))))
    (replacement_of h names)
  = out f.
Proof using Hplain Hnames.
  intros (_ & Hread & Hguard & Hspec). destruct Hplain as (Ha & Hb & Hne).
  pose proof (substituted_plain h f names (text f) (out f) [] Ha Hb Hne Hnames
                (Hread _) Hguard Hspec) as Hsub.
  unfold substituted in Hsub. rewrite pattern_of_plain_markers in Hsub.
  unfold V1.updateFileContent in Hsub.
  rewrite (bind_ask _ _ _ _ _ (Hread _)), Hguard in Hsub.
  unfold ret in Hsub. cbn [fst] in Hsub. congruence.
Qed.

Lemma V1_loop_whole (files : list Value) (changesMade : bool) (t : Trace) :
  Forall (file_ready h names p text out) files ->
  (forall f content t0, host_writeFile h f content t0 = Ok tt) ->
  V1.process_files h
    (regexp_of (lits (START_MARKER (CONFIG h)) ++ gap_terms
                ++ lits (END_MARKER (CONFIG h))))
    (replacement_of h names) changesMade files t
  = (Ok (match files with [] => changesMade | _ => true end),
     t ++ flat_map (file_events Info p out) files).
Proof using Hplain Hnames.
  intros Hall Hwrite. revert changesMade t.
  induction Hall as [|f files Hf _ IH];
    intros changesMade t; cbn [V1.process_files flat_map].
  - unfold ret. by rewrite app_nil_r.
  - pose proof (ready_file_replaced f Hf) as Hout.
    destruct Hf as (Hp & Hread & Hguard & Hspec).
    rewrite (bind_ok _ _ _ _ _
               (V1_file_written h _ _ changesMade f (p f) (text f) t Hp Hread Hguard
                  ltac:(rewrite Hout; by eapply spec_substitute_not_empty)
                  (Hwrite f))).
    rewrite IH, Hout. unfold file_events. rewrite <- !app_assoc.
    by destruct files.
Qed.

Lemma V3_loop_whole (files : list Value) (changesMade : bool) (t : Trace) :
  Forall (file_ready h names p text out) files ->
  (forall f content t0, host_writeFile h f content t0 = Ok tt) ->
  V3.process_files h
    (regexp_of (lits (START_MARKER (CONFIG h)) ++ gap_terms
                ++ lits (END_MARKER (CONFIG h))))
    (replacement_of h names) changesMade files t
  = (Ok (match files with [] => changesMade | _ => true end),
     t ++ flat_map (file_events ConsoleLog p out) files).
Proof using Hplain Hnames.
  intros Hall Hwrite. revert changesMade t.
  induction Hall as [|f files Hf _ IH];
    intros changesMade t; cbn [V3.process_files flat_map].
  - unfold ret. by rewrite app_nil_r.
  - pose proof (ready_file_replaced f Hf) as Hout.
    destruct Hf as (Hp & Hread & Hguard & Hspec).
    rewrite (bind_ok _ _ _ _ _
               (V3_file_written h _ _ changesMade f (p f) (text f) t Hp Hread Hguard
                  ltac:(rewrite Hout; by eapply spec_substitute_not_empty)
                  (Hwrite f))).
    rewrite IH, Hout. unfold file_events. rewrite <- !app_assoc.
    by destruct files.
Qed.

Lemma V2_loop_whole (files : list Value) (changesMade : bool) (t : Trace) :
  Forall (file_ready h names p text out) files ->
  (forall f content t0, host_writeFile h f content t0 = Ok tt) ->
  V2.process_files h
    (regexp_of (lits (START_MARKER (CONFIG h)) ++ gap_terms
                ++ lits (END_MARKER (CONFIG h))))
    (replacement_of h names) changesMade files t
  = (Ok (match files with [] => changesMade | _ => true end),
     t ++ flat_map (V2_file_events h p text out) files).
Proof using Hplain Hnames.
  intros Hall Hwrite. revert changesMade t.
  induction Hall as [|f files Hf _ IH];
    intros changesMade t; cbn [V2.process_files flat_map].
  - unfold ret. by rewrite app_nil_r.
  - pose proof (ready_file_replaced f Hf) as Hout.
    destruct Hf as (Hp & Hread & Hguard & Hspec).
    rewrite (bind_ok _ _ _ _ _
               (V2_file_written h _ _ changesMade f (p f) (text f) t Hp Hread Hguard
                  ltac:(rewrite Hout; by eapply spec_substitute_not_empty)
                  (Hwrite f))).
    rewrite IH, Hout. unfold V2_file_events. rewrite <- !app_assoc.
    by destruct files.
Qed.

Lemma V2_exec_ok (output : list N -> ExecOutput) (command : list N) (t : Trace) :
  git_answers h output ->
  V2.execAsync h command t = (Ok (output command), t ++ V2_exec_log output command).
Proof.
  intros Hexec. unfold V2.execAsync, V2_exec_log, core_debug. rewrite bind_emit.
  apply try_ok. rewrite (bind_ask _ _ _ _ _ (Hexec _ _)), bind_emit.
  destruct (stderr (output command)); [rewrite bind_ret|rewrite bind_emit];
    unfold ret; by rewrite <- !app_assoc.
Qed.

Lemma repository_part_text (i : nat) :
  ToString h (repository_part h i) = Ok (text_of h (repository_part h i)).
Proof.
  unfold text_of, repository_part.
  destruct (host_env h !! Js.lit "GITHUB_REPOSITORY") as [r|]; [|done].
  by destruct (Js.split 47 r !! i).
Qed.

End WholeRun.

Lemma last_tier_names (h : Host) (tiers : list Value) (lastTier : Value)
    (name_list : list (list N)) :
  last tiers = Some lastTier ->
  is_tier h lastTier name_list ->
  names_of h (lastTier_of tiers) = Ok (Js.join separator name_list).
Proof.
  intros Hlast Htier. unfold lastTier_of. rewrite Hlast.
  change (default VUndefined (Some lastTier)) with lastTier.
  by apply names_of_tier.
Qed.

(** X19.  The whole run of variant 1 when everything answers well.  With
    markers free of syntax characters, a roster that passes the checks,
    names free of dollar signs, files that pass the guard, and git, the
    file system and the API answering well, the run ends well and does
    exactly this, in this order: it fetches the roster, checks out and
    resets the branch, reads each file and writes it with the span between
    the markers replaced, configures git, stages, commits, pushes with
    force, lists the pull requests, creates one and enables auto-merge. *)
Theorem variant1_whole_run (h : Host) (filesToUpdate : list Value) (data : Value)
    (names : list N) (p text out : Value -> list N) (pr : PullRequest) (t : Trace) :
  files_given h filesToUpdate ->
  roster_served h data ->
  names_served h data names ->
  plain_markers h ->
  dollar_free names = true ->
  Forall (file_ready h names p text out) filesToUpdate ->
  cooperative h pr ->
  V1.main h t = (Ok tt, t ++ V1_whole_run h filesToUpdate p out pr).
Proof.
  intros Hfiles (res & Hanswer & Hok & Hjson)
    (tiers & lastTier & name_list & Htiers & Hall & Hlast & Htier & ->)
    Hplain Hnames Hready ((output & Hexec) & Hwrite & Hocto & Hlist & Hcreate & Hgraphql).
  assert (Hlen : (length tiers =? 0)%nat = false).
  { apply Nat.eqb_neq. pose proof (last_not_nil _ _ Hlast). by destruct tiers. }
  unfold V1.main. apply try_ok.
  rewrite (V1_try_after_files h _ Hfiles).
  rewrite (bind_ok _ _ _ _ _ (V1_fetch_serves h _ t Hanswer res data eq_refl Hok Hjson)).
  rewrite (bind_lift _ _ _ _ Htiers). cbn [isArray negb elements].
  rewrite Hlen, (bind_lift _ _ _ _ (tiers_pass_all h tiers Hall)).
  unfold V1_rest. cbv zeta.
  rewrite (bind_lift _ _ _ _ (last_tier_names h tiers lastTier name_list Hlast Htier)).
  rewrite (bind_lift _ _ _ _ (pattern_of_plain_markers h Hplain)).
  unfold V1.setupGitBranch, V1.execAsync.
  rewrite !bind_assoc, (bind_ask _ _ _ _ _ (Hexec _ _)).
  rewrite !bind_assoc, (bind_ask _ _ _ _ _ (Hexec _ _)), bind_ret.
  rewrite (bind_ok _ _ _ _ _
             (V1_loop_whole h _ p text out Hplain Hnames filesToUpdate false _
                Hready Hwrite)).
  destruct Hfiles as (Hne & _). destruct filesToUpdate as [|f files]; [done|].
  rewrite !(bind_ask _ _ _ _ _ (Hexec _ _)), (bind_lift _ _ _ _ Hocto).
  unfold V1.createOrUpdatePR.
  rewrite (bind_lift _ _ _ _ (repository_part_text h 0)).
  rewrite (bind_ask _ _ _ _ _ (Hlist _ _ _ _)). cbn [length Nat.eqb].
  rewrite (bind_ask _ _ _ _ _ (Hcreate _ _ _ _)).
  erewrite (bind_ok _ _ _ _ tt); cycle 1.
  { apply try_ok. rewrite (bind_ask _ _ _ _ _ (Hgraphql _ _ _)). reflexivity. }
  unfold core_info, emit, V1_whole_run, git_email.
  rewrite <- !app_assoc. reflexivity.
Qed.

Lemma variant1_whole_run_witness :
  V1.main Example.two_pairs_host []
  = (Ok tt,
     [] ++ V1_whole_run Example.two_pairs_host [Example.README]
             (fun _ => Js.lit "README.md") (fun _ => Example.two_pairs_updated)
             Example.first_pr).
Proof.
  apply (variant1_whole_run Example.two_pairs_host [Example.README] Example.two_tiers
           (Js.join separator [Js.lit "B"; Js.lit "C"])
           (fun _ => Js.lit "README.md") (fun _ => Example.two_pairs)
           (fun _ => Example.two_pairs_updated) Example.first_pr []).
  - split; [done|]. split; reflexivity.
  - exists {| ok := true; status := 200; json := Ok Example.two_tiers |}.
    split; [intros t; reflexivity|]. split; reflexivity.
  - exists [Example.tier (Js.lit "Tier 1") [Example.member (Js.lit "A")];
            Example.tier (Js.lit "Tier 2")
              [Example.member (Js.lit "B"); Example.member (Js.lit "C")]],
           (Example.tier (Js.lit "Tier 2")
              [Example.member (Js.lit "B"); Example.member (Js.lit "C")]),
           [Js.lit "B"; Js.lit "C"].
    split; [reflexivity|]. split.
    { constructor; [by eexists|]. constructor; [by eexists|]. constructor. }
    split; [reflexivity|]. split; [|reflexivity].
    exists [Example.member (Js.lit "B"); Example.member (Js.lit "C")].
    split; [reflexivity|]. constructor; [reflexivity|].
    constructor; [reflexivity|]. constructor.
  - split; [vm_compute; reflexivity|]. split; [vm_compute; reflexivity|].
    vm_compute. discriminate.
  - vm_compute. reflexivity.
  - constructor; [|constructor]. split; [reflexivity|].
    split; [intros t; reflexivity|]. split; vm_compute; reflexivity.
  - split; [exists (fun _ => Example.quiet); intros c t; reflexivity|].
    split; [intros f c t; reflexivity|]. split; [reflexivity|].
    split; [intros o r hd t; reflexivity|]. split; [intros o r hd t; reflexivity|].
    intros id m t. reflexivity.
Defined.

(** X20.  A run of variant 3 whose client has no context, so that
    reading [octokit.context.repo] throws: when everything else answers
    well, the roster is fetched; the branch is verified, checked out and
    pulled; each file is read and written with the span between the
    markers replaced; git is configured, the changes are staged, committed
    and pushed without force; then the read of the context throws, no
    pull request is listed or created, and the run is marked as failed
    with the message of that error. *)
Theorem variant3_run_ends_at_the_client (h : Host) (output : list N -> ExecOutput)
    (filesToUpdate : list Value) (data : Value) (names : list N)
    (p text out : Value -> list N) (error : JsError) (t : Trace) :
  files_given h filesToUpdate ->
  roster_served h data ->
  names_served h data names ->
  plain_markers h ->
  dollar_free names = true ->
  Forall (file_ready h names p text out) filesToUpdate ->
  git_answers h output ->
  (forall f content t0, host_writeFile h f content t0 = Ok tt) ->
  host_new_Octokit h = Ok tt ->
  host_octokit_context_repo h = Throw error ->
  V3.main h t
  = (Ok tt,
     t ++ V3_up_to_the_push h filesToUpdate p out ++ [SetFailed (e_message error)]).
Proof.
  intros Hfiles (res & Hanswer & Hok & Hjson)
    (tiers & lastTier & name_list & Htiers & Hall & Hlast & Htier & ->)
    Hplain Hnames Hready Hexec Hwrite Hocto Hctx.
  rewrite (V3_main_of_throw h t error (t ++ V3_up_to_the_push h filesToUpdate p out)).
  - by rewrite <- app_assoc.
  - rewrite (V3_try_after_files h _ Hfiles).
    rewrite (bind_ok _ _ _ _ _
               (V1_fetch_serves h _ t Hanswer res data eq_refl Hok Hjson)).
    rewrite (bind_lift _ _ _ _ Htiers). cbn [isArray negb elements].
    rewrite (bind_lift _ _ _ _ (tiers_pass_all h tiers Hall)).
    unfold V3_rest. cbv zeta.
    rewrite (bind_lift _ _ _ _
               (last_tier_names h tiers lastTier name_list Hlast Htier)).
    rewrite (bind_lift _ _ _ _ (pattern_of_plain_markers h Hplain)).
    erewrite (bind_ok _ _ _ _ tt); cycle 1.
    { unfold V3.setupGitBranch, V3.execAsync, V1.execAsync. apply try_ok.
      rewrite !(bind_ask _ _ _ _ _ (Hexec _ _)). reflexivity. }
    rewrite (bind_ok _ _ _ _ _
               (V3_loop_whole h _ p text out Hplain Hnames filesToUpdate false _
                  Hready Hwrite)).
    destruct Hfiles as (Hne & _). destruct filesToUpdate as [|f files]; [done|].
    unfold V3.execAsync, V1.execAsync.
    rewrite !(bind_ask _ _ _ _ _ (Hexec _ _)), (bind_lift _ _ _ _ Hocto).
    unfold V3.createOrUpdatePR, bind at 1, lift. rewrite Hctx.
    unfold V3_up_to_the_push, git_email.
    rewrite <- !app_assoc. reflexivity.
Qed.

Lemma variant3_run_ends_at_the_client_witness :
  V3.main Example.no_context_host []
  = (Ok tt,
     [] ++ V3_up_to_the_push Example.no_context_host [Example.README]
             (fun _ => Js.lit "README.md") (fun _ => Example.two_pairs_updated)
          ++ [SetFailed (e_message Example.no_context)]).
Proof.
  apply (variant3_run_ends_at_the_client Example.no_context_host
           (fun _ => Example.quiet) [Example.README] Example.two_tiers
           (Js.join separator [Js.lit "B"; Js.lit "C"])
           (fun _ => Js.lit "README.md") (fun _ => Example.two_pairs)
           (fun _ => Example.two_pairs_updated) Example.no_context []).
  - split; [done|]. split; reflexivity.
  - exists {| ok := true; status := 200; json := Ok Example.two_tiers |}.
    split; [intros t; reflexivity|]. split; reflexivity.
  - exists [Example.tier (Js.lit "Tier 1") [Example.member (Js.lit "A")];
            Example.tier (Js.lit "Tier 2")
              [Example.member (Js.lit "B"); Example.member (Js.lit "C")]],
           (Example.tier (Js.lit "Tier 2")
              [Example.member (Js.lit "B"); Example.member (Js.lit "C")]),
           [Js.lit "B"; Js.lit "C"].
    split; [reflexivity|]. split.
    { constructor; [by eexists|]. constructor; [by eexists|]. constructor. }
    split; [reflexivity|]. split; [|reflexivity].
    exists [Example.member (Js.lit "B"); Example.member (Js.lit "C")].
    split; [reflexivity|]. constructor; [reflexivity|].
    constructor; [reflexivity|]. constructor.
  - split; [vm_compute; reflexivity|]. split; [vm_compute; reflexivity|].
    vm_compute. discriminate.
  - vm_compute. reflexivity.
  - constructor; [|constructor]. split; [reflexivity|].
    split; [intros t; reflexivity|]. split; vm_compute; reflexivity.
  - intros c t. reflexivity.
  - intros f c t. reflexivity.
  - reflexivity.
  - reflexivity.
Defined.

(** X21.  The whole run of variant 2 when everything answers well and
    the staging status is not blank: the same work as variant 1 without
    the reset, with a look at [git status] before staging and at [git
    status --porcelain] after it, and with every line that the run logs,
    from "Starting patron update process" to "Process completed
    successfully". *)
Theorem variant2_whole_run (h : Host) (output : list N -> ExecOutput)
    (filesToUpdate : list Value) (data : Value) (names : list N)
    (p text out : Value -> list N) (pr : PullRequest) (t : Trace) :
  files_given h filesToUpdate ->
  roster_served h data ->
  names_served h data names ->
  plain_markers h ->
  dollar_free names = true ->
  Forall (file_ready h names p text out) filesToUpdate ->
  cooperative h pr ->
  git_answers h output ->
  Js.trim (stdout (output porcelain)) <> [] ->
  V2.main h t
  = (Ok tt, t ++ V2_whole_run h output filesToUpdate data p text out pr).
Proof.
  intros Hfiles (res & Hanswer & Hok & Hjson)
    (tiers & lastTier & name_list & Htiers & Hall & Hlast & Htier & ->)
    Hplain Hnames Hready (_ & Hwrite & Hocto & Hlist & Hcreate & Hgraphql)
    Hexec Hpending.
  assert (Hlen : (length tiers =? 0)%nat = false).
  { apply Nat.eqb_neq. pose proof (last_not_nil _ _ Hlast). by destruct tiers. }
  assert (Hdata : data <> VUndefined) by (intros ->; discriminate Htiers).
  pose proof (files_pass h _ Hfiles) as Hpass.
  destruct Hfiles as (Hne & Hload & _).
  unfold V2.main. apply try_ok. unfold V2.main_try. fold (files_input h).
  unfold core_info, core_debug.
  rewrite !bind_emit, (bind_lift _ _ _ _ Hload), bind_emit.
  fold (no_files (VArr filesToUpdate)). rewrite Hpass.
  rewrite (bind_ok _ _ _ _ _
             (V2_fetch_serves h _ _ Hanswer res data eq_refl Hok Hjson Hdata)).
  rewrite (bind_lift _ _ _ _ Htiers). cbn [isArray negb elements].
  rewrite Hlen, (bind_lift _ _ _ _ (tiers_pass_all h tiers Hall)).
  rewrite (bind_lift _ _ _ _ (last_tier_names h tiers lastTier name_list Hlast Htier)).
  rewrite (bind_lift _ _ _ _ (pattern_of_plain_markers h Hplain)).
  erewrite (bind_ok _ _ _ _ tt); cycle 1.
  { unfold V2.setupGitBranch, core_info. rewrite bind_emit. apply try_ok.
    rewrite (bind_ok _ _ _ _ _ (V2_exec_ok h output _ _ Hexec)). reflexivity. }
  rewrite (bind_ok _ _ _ _ _
             (V2_loop_whole h _ p text out Hplain Hnames filesToUpdate false _
                Hready Hwrite)).
  destruct filesToUpdate as [|f files]; [done|].
  rewrite bind_emit.
  rewrite !(bind_ok _ _ _ _ _ (V2_exec_ok h output _ _ Hexec)), bind_emit.
  rewrite !(bind_ok _ _ _ _ _ (V2_exec_ok h output _ _ Hexec)), bind_emit.
  destruct (Js.trim (stdout (output (Js.lit "git status --porcelain")))) as [|c trimmed]
    eqn:Htrim; [done|].
  unfold V2.commit_push_pr, core_info, core_debug.
  rewrite ?bind_assoc, bind_emit, ?bind_assoc.
  erewrite (bind_ok _ _ _ _ tt); cycle 1.
  { apply try_ok. rewrite bind_emit.
    rewrite (bind_ok _ _ _ _ _ (V2_exec_ok h output _ _ Hexec)). reflexivity. }
  rewrite ?bind_assoc, bind_emit, ?bind_assoc.
  rewrite (bind_ok _ _ _ _ _ (V2_exec_ok h output _ _ Hexec)).
  rewrite ?bind_assoc, bind_emit, ?bind_assoc.
  rewrite (bind_lift _ _ _ _ Hocto), ?bind_assoc.
  rewrite (bind_lift _ _ _ _ (repository_part_text h 0)), ?bind_assoc.
  rewrite (bind_lift _ _ _ _ (repository_part_text h 1)), ?bind_assoc.
  rewrite bind_emit, ?bind_assoc.
  unfold V2.createOrUpdatePR, core_info, core_debug.
  rewrite ?bind_assoc, (bind_lift _ _ _ _ (repository_part_text h 0)).
  rewrite ?bind_assoc, (bind_lift _ _ _ _ (repository_part_text h 1)).
  rewrite ?bind_assoc, bind_emit, ?bind_assoc, (bind_ask _ _ _ _ _ (Hlist _ _ _ _)).
  rewrite ?bind_assoc, bind_emit. cbv iota.
  rewrite ?bind_assoc, bind_emit, ?bind_assoc, (bind_ask _ _ _ _ _ (Hcreate _ _ _ _)).
  rewrite ?bind_assoc.
  erewrite (bind_ok _ _ _ _ tt); cycle 1.
  { apply try_ok. rewrite bind_emit, (bind_ask _ _ _ _ _ (Hgraphql _ _ _)).
    reflexivity. }
  rewrite ?bind_assoc, bind_emit.
  unfold emit, V2_whole_run, V2_opening, git_email, porcelain. cbv zeta. cbn [length].
  rewrite <- !app_assoc. reflexivity.
Qed.

Lemma variant2_whole_run_witness :
  V2.main Example.modified_host []
  = (Ok tt,
     [] ++ V2_whole_run Example.modified_host Example.modified [Example.README]
             Example.two_tiers (fun _ => Js.lit "README.md")
             (fun _ => Example.two_pairs) (fun _ => Example.two_pairs_updated)
             Example.first_pr).
Proof.
  apply (variant2_whole_run Example.modified_host Example.modified [Example.README]
           Example.two_tiers (Js.join separator [Js.lit "B"; Js.lit "C"])
           (fun _ => Js.lit "README.md") (fun _ => Example.two_pairs)
           (fun _ => Example.two_pairs_updated) Example.first_pr []).
  - split; [done|]. split; reflexivity.
  - exists {| ok := true; status := 200; json := Ok Example.two_tiers |}.
    split; [intros t; reflexivity|]. split; reflexivity.
  - exists [Example.tier (Js.lit "Tier 1") [Example.member (Js.lit "A")];
            Example.tier (Js.lit "Tier 2")
              [Example.member (Js.lit "B"); Example.member (Js.lit "C")]],
           (Example.tier (Js.lit "Tier 2")
              [Example.member (Js.lit "B"); Example.member (Js.lit "C")]),
           [Js.lit "B"; Js.lit "C"].
    split; [reflexivity|]. split.
    { constructor; [by eexists|]. constructor; [by eexists|]. constructor. }
    split; [reflexivity|]. split; [|reflexivity].
    exists [Example.member (Js.lit "B"); Example.member (Js.lit "C")].
    split; [reflexivity|]. constructor; [reflexivity|].
    constructor; [reflexivity|]. constructor.
  - split; [vm_compute; reflexivity|]. split; [vm_compute; reflexivity|].
    vm_compute. discriminate.
  - vm_compute. reflexivity.
  - constructor; [|constructor]. split; [reflexivity|].
    split; [intros t; reflexivity|]. split; vm_compute; reflexivity.
  - split; [exists Example.modified; intros c t; reflexivity|].
    split; [intros f c t; reflexivity|]. split; [reflexivity|].
    split; [intros o r hd t; reflexivity|]. split; [intros o r hd t; reflexivity|].
    intros id m t. reflexivity.
  - intros c t. reflexivity.
  - vm_compute. discriminate.
Defined.

(** ** Empty markers *)

Section EmptyMarkers.






End EmptyMarkers.



(** ** A run that finds no file to change *)

Section NoChange.

Variables (h : Host) (pattern : RegExp) (replacement : list N)
          (p text : Value -> list N).
Hypothesis Hflag : FAIL_ON_MISSING_MARKERS (CONFIG h) = false.




End NoChange.


